(** * A declarative finite state machine built with method decorators

    Shallow embedding of [src/fsm.py]: the [Action] and [Guard] decorators,
    the construction of the transition lookup table and the [transition]
    method of [FiniteStateMachine], followed by the properties of the
    engine.

    Python dictionaries keyed by strings are finite maps ([gmap string]);
    the two small dictionaries with fixed keys (the per-state dictionary
    with keys ['on_entry'], ['on_exit'], ['guard'], and the per-transition
    dictionary with keys ['beginning_state'], ['end_state']) are records of
    options, a key being present exactly when its field is [Some].
    Exceptions are values of [PyExc]; code that may raise returns a sum. *)

From Stdlib Require Import ZArith Lia.
From stdpp Require Import base tactics option list strings pretty gmap.

Open Scope string_scope.

(** ** Python values *)

(** The values that reach the engine from its callers: decorator keyword
    arguments, the arguments of [transition] and what a guard returns. *)
Inductive PyVal : Type :=
| PyNone
| PyBool (b : bool)
| PyInt (z : Z)
| PyStr (s : string).

(** [bool(v)], the truth value used by [if v] and [not v]. *)
Definition truthy (v : PyVal) : bool :=
  match v with
  | PyNone => false
  | PyBool b => b
  | PyInt z => negb (Z.eqb z 0)
  | PyStr s => negb (Nat.eqb (String.length s) 0)
  end.

(** [isinstance(v, str)] and [isinstance(v, bool)]. *)
Definition isinstance_str (v : PyVal) : bool :=
  match v with PyStr _ => true | _ => false end.

Definition isinstance_bool (v : PyVal) : bool :=
  match v with PyBool _ => true | _ => false end.

(** ['%s' % v]. *)
Definition format_s (v : PyVal) : string :=
  match v with
  | PyNone => "None"
  | PyBool true => "True"
  | PyBool false => "False"
  | PyInt z => pretty z
  | PyStr s => s
  end.

(** ** Exceptions *)

(** [FiniteStateMachineError] is the one exception class the module
    declares; [TypeError] and [AttributeError] are Python's own, and
    [UserError] stands for whatever a user callable raises. *)
Inductive PyExc : Type :=
| FiniteStateMachineError (message : string)
| TypeError (message : string)
| AttributeError (attribute : string)
| UserError (class_name message : string).

(** [str(e)] for the module's exception: [__str__] returns the message. *)
Definition __str__ (e : PyExc) : string :=
  match e with
  | FiniteStateMachineError message => message
  | TypeError message => message
  | AttributeError attribute =>
      "'function' object has no attribute '" +:+ attribute +:+ "'"
  | UserError _ message => message
  end.

(** The outcome of code that may raise. *)
Definition Raises (A : Type) : Type := PyExc + A.

Definition Return {A : Type} (a : A) : Raises A := inr a.
Definition Raise {A : Type} (e : PyExc) : Raises A := inl e.

Definition bindR {A B : Type} (c : Raises A) (k : A -> Raises B) : Raises B :=
  match c with
  | inl e => inl e
  | inr a => k a
  end.

Notation "x <~ c ;; k" := (bindR c (fun x => k))
  (at level 100, c at next level, right associativity).

(** A [for] loop whose body may raise: the first exception ends the loop. *)
Fixpoint for_each {A S : Type} (body : S -> A -> Raises S) (l : list A) (s : S)
  : Raises S :=
  match l with
  | [] => Return s
  | a :: l' => s' <~ body s a ;; for_each body l' s'
  end.

(** ** Message texts *)

Definition LF : string := String (Ascii.ascii_of_nat 10) EmptyString.

Fixpoint spaces (n : nat) : string :=
  match n with
  | O => EmptyString
  | S n' => String (Ascii.ascii_of_nat 32) (spaces n')
  end.

(** The literals below are continued over several source lines with a
    backslash inside the quotes, so the indentation of the continuation
    lines is part of the text. *)
Definition msg_action_state_attribute : string :=
  "Please specify a valid action state attribute." +:+ LF +:+
  " Possible values are strings.".

Definition msg_action_on_entry_attribute : string :=
  "Please specify a valid action on_entry attribute." +:+ LF +:+
  " Possible values are True or False.".

Definition msg_action_on_exit_attribute : string :=
  "Please specify a valid action on_exit attribute." +:+ LF +:+
  " Possible values are True or False.".

Definition msg_guard_state_attribute : string :=
  "Please specify a valid guard state attribute." +:+ LF +:+
  " Possible values are strings.".

Definition msg_undeclared_state (decorator state_name callable_name : string)
  : string :=
  "A state named " +:+ state_name +:+ " is not declared " +:+ spaces 46 +:+
  "in the transitions list." +:+ LF +:+ " Please add " +:+ state_name +:+
  " to the list of possible " +:+ spaces 46 +:+
  "transitions or modify the @" +:+ decorator +:+ " decorator on " +:+
  callable_name +:+ ".".

Definition msg_one_on_entry (state_name : string) : string :=
  "The " +:+ state_name +:+
  " state can only have one action declared for on_entry.".

Definition msg_one_on_exit (state_name : string) : string :=
  "The " +:+ state_name +:+
  " state can only have one action declared for on_exit.".

Definition msg_one_guard (state_name : string) : string :=
  "The " +:+ state_name +:+ " state can only have one guard declared".

Definition msg_no_transitions : string :=
  "Please specify a list of possible " +:+ spaces 42 +:+
  "transitions." +:+ LF +:+
  " Each entry in the list is a two-tuple where the " +:+ spaces 42 +:+
  "first value is the beginning state and the second value is the " +:+
  spaces 42 +:+ "end state.".

Definition msg_invalid_state (current : PyVal) : string :=
  "The " +:+ format_s current +:+
  " state is invalid, or we have entered a terminal state.".

Definition msg_invalid_transition (current to : PyVal) : string :=
  "The transition from " +:+ format_s current +:+ " to " +:+ format_s to +:+
  " is invalid.".

Definition msg_guard_contract : string :=
  "A guard must only return True or False values.".

Definition msg_guard_declined (current to : PyVal) : string :=
  "A guard declined the transition from " +:+ format_s current +:+ " to " +:+
  format_s to +:+ ".".

(** ** Functions and their metadata *)

(** A method of a machine class.  The six [__fsm_*__] fields are the
    attributes the decorators attach ([None]: the attribute is not set).
    [__code__] is the body of the bound method: it receives the positional
    arguments, reads and writes the attributes the user keeps on the
    instance (a value of [U]), and returns a value or raises.  The engine's
    own two instance attributes are written by the engine only. *)
Record Function (U : Type) : Type := mkFunction {
  __name__ : string;
  __fsm_action_state__ : option string;
  __fsm_action_on_entry__ : option bool;
  __fsm_action_on_exit__ : option bool;
  __fsm_action__ : option bool;
  __fsm_guard_state__ : option string;
  __fsm_guard__ : option bool;
  __code__ : list PyVal -> U -> Raises PyVal * U
}.

Arguments mkFunction {U}.
Arguments __name__ {U}.
Arguments __fsm_action_state__ {U}.
Arguments __fsm_action_on_entry__ {U}.
Arguments __fsm_action_on_exit__ {U}.
Arguments __fsm_action__ {U}.
Arguments __fsm_guard_state__ {U}.
Arguments __fsm_guard__ {U}.
Arguments __code__ {U}.

(** [def name(self, ...): body], before any decorator is applied. *)
Definition def {U : Type} (name : string)
  (body : list PyVal -> U -> Raises PyVal * U) : Function U :=
  mkFunction name None None None None None None body.

Section Setattr.
Context {U : Type}.

Definition set_fsm_action_state (f : Function U) (v : string) : Function U :=
  mkFunction (__name__ f) (Some v) (__fsm_action_on_entry__ f)
    (__fsm_action_on_exit__ f) (__fsm_action__ f) (__fsm_guard_state__ f)
    (__fsm_guard__ f) (__code__ f).

Definition set_fsm_action_on_entry (f : Function U) (v : bool) : Function U :=
  mkFunction (__name__ f) (__fsm_action_state__ f) (Some v)
    (__fsm_action_on_exit__ f) (__fsm_action__ f) (__fsm_guard_state__ f)
    (__fsm_guard__ f) (__code__ f).

Definition set_fsm_action_on_exit (f : Function U) (v : bool) : Function U :=
  mkFunction (__name__ f) (__fsm_action_state__ f)
    (__fsm_action_on_entry__ f) (Some v) (__fsm_action__ f)
    (__fsm_guard_state__ f) (__fsm_guard__ f) (__code__ f).

Definition set_fsm_action (f : Function U) (v : bool) : Function U :=
  mkFunction (__name__ f) (__fsm_action_state__ f)
    (__fsm_action_on_entry__ f) (__fsm_action_on_exit__ f) (Some v)
    (__fsm_guard_state__ f) (__fsm_guard__ f) (__code__ f).

Definition set_fsm_guard_state (f : Function U) (v : string) : Function U :=
  mkFunction (__name__ f) (__fsm_action_state__ f)
    (__fsm_action_on_entry__ f) (__fsm_action_on_exit__ f)
    (__fsm_action__ f) (Some v) (__fsm_guard__ f) (__code__ f).

Definition set_fsm_guard (f : Function U) (v : bool) : Function U :=
  mkFunction (__name__ f) (__fsm_action_state__ f)
    (__fsm_action_on_entry__ f) (__fsm_action_on_exit__ f)
    (__fsm_action__ f) (__fsm_guard_state__ f) (Some v) (__code__ f).

(** [f.attribute], raising [AttributeError] when it is not set. *)
Definition getattr {A : Type} (field : Function U -> option A)
  (attribute : string) (f : Function U) : Raises A :=
  match field f with
  | Some v => Return v
  | None => Raise (AttributeError attribute)
  end.
End Setattr.

(** ** The decorators *)

(** The keyword arguments a decorator was created with ([self.kwargs]). *)
Abbreviation Kwargs := (gmap string PyVal).

(** [kwargs.get(key)]: the value, or [None] when the key is missing. *)
Definition kwargs_get (kwargs : Kwargs) (key : string) : PyVal :=
  default PyNone (kwargs !! key).

(** [key in kwargs]. *)
Definition kwargs_has (kwargs : Kwargs) (key : string) : bool :=
  bool_decide (is_Some (kwargs !! key)).

(** The test [not state or not isinstance(state, str) or len(state) == 0];
    [or] is short-circuit, so [len] is reached for strings only. *)
Definition invalid_state_attribute (state : PyVal) : bool :=
  negb (truthy state) || negb (isinstance_str state) ||
  match state with
  | PyStr s => Nat.eqb (String.length s) 0
  | _ => false
  end.

Module Action.
Section Action.
Context {U : Type}.

(** [Action(state=..., on_entry=..., on_exit=...)(function)].  When the
    decorator raises, the decorated name is never bound, so only the
    exception is returned. *)
Definition __call__ (kwargs : Kwargs) (function : Function U)
  : Raises (Function U) :=
  let state := kwargs_get kwargs "state" in
  function <~
    (if invalid_state_attribute state
     then Raise (FiniteStateMachineError msg_action_state_attribute)
     else match state with
          | PyStr s => Return (set_fsm_action_state function s)
          | _ => Return function (* not reached: the test lets strings
                                    through only *)
          end) ;;
  function <~
    (if kwargs_has kwargs "on_entry"
     then
       let on_entry := kwargs_get kwargs "on_entry" in
       match on_entry with
       | PyBool b => Return (set_fsm_action_on_entry function b)
       | _ => Raise (TypeError msg_action_on_entry_attribute)
       end
     else Return (set_fsm_action_on_entry function true)) ;;
  function <~
    (if kwargs_has kwargs "on_exit"
     then
       let on_exit := kwargs_get kwargs "on_exit" in
       match on_exit with
       | PyBool b => Return (set_fsm_action_on_exit function b)
       | _ => Raise (TypeError msg_action_on_exit_attribute)
       end
     else Return (set_fsm_action_on_exit function false)) ;;
  Return (set_fsm_action function true).
End Action.
End Action.

Module Guard.
Section Guard.
Context {U : Type}.

(** [Guard(state=...)(function)]. *)
Definition __call__ (kwargs : Kwargs) (function : Function U)
  : Raises (Function U) :=
  let state := kwargs_get kwargs "state" in
  function <~
    (if invalid_state_attribute state
     then Raise (TypeError msg_guard_state_attribute)
     else match state with
          | PyStr s => Return (set_fsm_guard_state function s)
          | _ => Return function (* not reached: the test lets strings
                                    through only *)
          end) ;;
  Return (set_fsm_guard function true).
End Guard.
End Guard.

(** ** The machine *)

(** The dictionary kept for each state: the keys ['on_entry'], ['on_exit']
    and ['guard'], each present or not. *)
Record StateDict (U : Type) : Type := mkStateDict {
  on_entry : option (Function U);
  on_exit : option (Function U);
  guard : option (Function U)
}.

Arguments mkStateDict {U}.
Arguments on_entry {U}.
Arguments on_exit {U}.
Arguments guard {U}.

(** The dictionary kept for each declared pair.  Both keys are written as
    soon as the dictionary is created, each with the result of
    [state_map.get(...)], which is [None] for a key the map does not hold. *)
Record TransitionDict (U : Type) : Type := mkTransitionDict {
  beginning_state : option (StateDict U);
  end_state : option (StateDict U)
}.

Arguments mkTransitionDict {U}.
Arguments beginning_state {U}.
Arguments end_state {U}.

(** What a subclass declares: the class attributes [initial_state] and
    [transitions] ([None] for a [transitions] that is Python's [None]) and
    its callable attributes in the order of [dir(self)], which is where the
    decorated methods are found.  The record takes both class attributes to
    be defined; the states in the pairs are strings. *)
Record Subclass (U : Type) : Type := mkSubclass {
  initial_state : PyVal;
  transitions : option (list (string * string));
  callables : list (Function U)
}.

Arguments mkSubclass {U}.
Arguments initial_state {U}.
Arguments transitions {U}.
Arguments callables {U}.

Abbreviation LookupTable U := (gmap string (gmap string (TransitionDict U))).

(** A constructed instance: the engine's two attributes and the attributes
    of the user ([__dict__]). *)
Record Instance (U : Type) : Type := mkInstance {
  __fsm_transition_table__ : LookupTable U;
  __state__ : PyVal;
  __dict__ : U
}.

Arguments mkInstance {U}.
Arguments __fsm_transition_table__ {U}.
Arguments __state__ {U}.
Arguments __dict__ {U}.

(** [d.get(key)] for a dictionary whose keys are strings: a key that is
    not a string is never found. *)
Definition dict_get {A : Type} (d : gmap string A) (key : PyVal) : option A :=
  match key with
  | PyStr s => d !! s
  | _ => None
  end.

(** [bool(d)] for a dictionary: false exactly when it is empty. *)
Definition dict_truthy {A : Type} (d : gmap string A) : bool :=
  negb (bool_decide (d = ∅)).

(** [hasattr(f, attribute)]. *)
Definition hasattr {U A : Type} (field : Function U -> option A)
  (f : Function U) : bool :=
  match field f with Some _ => true | None => false end.

(** What Python raises for ['key' in None] and for [for x in None]. *)
Definition msg_none_not_iterable : string :=
  "argument of type 'NoneType' is not iterable".

Definition msg_none_not_iterable_for : string :=
  "'NoneType' object is not iterable".

(** ** Running methods on an instance *)

(** A call of a user callable, as an observer of the machine sees it: the
    callable, its positional arguments, and what [state()] returned at the
    time of the call. *)
Record Call (U : Type) : Type := mkCall {
  callee : Function U;
  arguments : list PyVal;
  state_then : PyVal
}.

Arguments mkCall {U}.
Arguments callee {U}.
Arguments arguments {U}.
Arguments state_then {U}.

(** A method body run on an instance: its outcome, the instance it leaves
    behind (attribute writes made before an exception stay) and the calls
    of user callables it made, in order. *)
Definition Exec (U A : Type) : Type :=
  Instance U -> Raises A * Instance U * list (Call U).

Section Exec.
Context {U : Type}.

Definition ret {A : Type} (a : A) : Exec U A :=
  fun self => (Return a, self, []).

Definition raise {A : Type} (e : PyExc) : Exec U A :=
  fun self => (Raise e, self, []).

Definition bind {A B : Type} (c : Exec U A) (k : A -> Exec U B) : Exec U B :=
  fun self =>
    match c self with
    | (inl e, self', calls) => (inl e, self', calls)
    | (inr a, self', calls) =>
        let '(r, self'', calls') := k a self' in
        (r, self'', (calls ++ calls')%list)
    end.

(** Read an attribute of [self]. *)
Definition read {A : Type} (field : Instance U -> A) : Exec U A :=
  fun self => (Return (field self), self, []).

(** [self.__state__ = v]. *)
Definition write_state (v : PyVal) : Exec U unit :=
  fun self =>
    (Return tt,
     mkInstance (__fsm_transition_table__ self) v (__dict__ self), []).

(** [f(args)] for a bound method [f] of [self]. *)
Definition call (f : Function U) (args : list PyVal) : Exec U PyVal :=
  fun self =>
    let '(r, d) := __code__ f args (__dict__ self) in
    (r, mkInstance (__fsm_transition_table__ self) (__state__ self) d,
     [mkCall f args (__state__ self)]).
End Exec.

Notation "x <- c ;; k" := (bind c (fun x => k))
  (at level 100, c at next level, right associativity).

Module FiniteStateMachine.
Section Builder.
Context {U : Type}.

(** All the callable attributes of the object. *)
Definition __get_callables__ (self : Subclass U) : list (Function U) :=
  callables self.

Definition __get_actions__ (self : Subclass U) : list (Function U) :=
  List.filter (hasattr __fsm_action__) (__get_callables__ self).

Definition __get_guards__ (self : Subclass U) : list (Function U) :=
  List.filter (hasattr __fsm_guard__) (__get_callables__ self).

(** One round of the loop of [__get_states__]. *)
Definition add_states (states : list string) (pair : string * string)
  : list string :=
  let '(begin, end_) := pair in
  let states :=
    if bool_decide (begin ∈ states) then states
    else (states ++ [begin])%list in
  if bool_decide (end_ ∈ states) then states else (states ++ [end_])%list.

Definition __get_states__ (self : Subclass U) : Raises (list string) :=
  match transitions self with
  | None | Some [] => Raise (FiniteStateMachineError msg_no_transitions)
  | Some pairs => Return (fold_left add_states pairs [])
  end.

(** One round of the loop over the actions. *)
Definition attach_action (states : list string)
  (state_map : gmap string (StateDict U)) (action : Function U)
  : Raises (gmap string (StateDict U)) :=
  state_name <~ getattr __fsm_action_state__ "__fsm_action_state__" action ;;
  if negb (bool_decide (state_name ∈ states))
  then Raise (FiniteStateMachineError
                (msg_undeclared_state "Action" state_name (__name__ action)))
  else
    let state := state_map !! state_name in
    on_entry_ <~
      getattr __fsm_action_on_entry__ "__fsm_action_on_entry__" action ;;
    match state with
    | None => Raise (TypeError msg_none_not_iterable)
    | Some state =>
        state <~
          match on_entry state with
          | None =>
              if on_entry_
              then Return (mkStateDict (Some action) (on_exit state)
                             (guard state))
              else Return state
          | Some _ =>
              if on_entry_
              then Raise (FiniteStateMachineError
                            (msg_one_on_entry state_name))
              else Return state
          end ;;
        on_exit_ <~
          getattr __fsm_action_on_exit__ "__fsm_action_on_exit__" action ;;
        state <~
          match on_exit state with
          | None =>
              if on_exit_
              then Return (mkStateDict (on_entry state) (Some action)
                             (guard state))
              else Return state
          | Some _ =>
              if on_exit_
              then Raise (FiniteStateMachineError
                            (msg_one_on_exit state_name))
              else Return state
          end ;;
        Return (<[state_name := state]> state_map)
    end.

(** One round of the loop over the guards. *)
Definition attach_guard (states : list string)
  (state_map : gmap string (StateDict U)) (guard_ : Function U)
  : Raises (gmap string (StateDict U)) :=
  state_name <~ getattr __fsm_guard_state__ "__fsm_guard_state__" guard_ ;;
  if negb (bool_decide (state_name ∈ states))
  then Raise (FiniteStateMachineError
                (msg_undeclared_state "Guard" state_name (__name__ guard_)))
  else
    match state_map !! state_name with
    | None => Raise (TypeError msg_none_not_iterable)
    | Some state =>
        match guard state with
        | None =>
            Return (<[state_name :=
                        mkStateDict (on_entry state) (on_exit state)
                          (Some guard_)]> state_map)
        | Some _ =>
            Raise (FiniteStateMachineError (msg_one_guard state_name))
        end
    end.

(** The map with an empty dictionary for every state. *)
Definition empty_state_map (states : list string) : gmap string (StateDict U) :=
  fold_left (fun state_map state =>
               <[state := mkStateDict None None None]> state_map)
    states ∅.

Definition __create_state_map__ (actions guards : list (Function U))
  (states : list string) : Raises (gmap string (StateDict U)) :=
  let state_map := empty_state_map states in
  state_map <~ for_each (attach_action states) actions state_map ;;
  state_map <~ for_each (attach_guard states) guards state_map ;;
  Return state_map.

(** One round of the loop of [__create_lookup_table__].  A dictionary
    found under [begin] is updated in place; one found under [end_] already
    has both of its keys. *)
Definition add_transition (state_map : gmap string (StateDict U))
  (lookup_table : LookupTable U) (pair : string * string) : LookupTable U :=
  let '(begin, end_) := pair in
  let transitions_ :=
    match lookup_table !! begin with
    | Some transitions_ =>
        if dict_truthy transitions_ then transitions_ else ∅
    | None => ∅
    end in
  let transitions_ :=
    match transitions_ !! end_ with
    | Some _ => transitions_
    | None =>
        <[end_ := mkTransitionDict (state_map !! begin)
                    (state_map !! end_)]> transitions_
    end in
  <[begin := transitions_]> lookup_table.

Definition __create_lookup_table__ (self : Subclass U)
  : Raises (LookupTable U) :=
  let actions := __get_actions__ self in
  let guards := __get_guards__ self in
  states <~ __get_states__ self ;;
  state_map <~ __create_state_map__ actions guards states ;;
  match transitions self with
  | None => Raise (TypeError msg_none_not_iterable_for)
  | Some pairs => Return (fold_left (add_transition state_map) pairs ∅)
  end.

(** [Subclass()]: the instance, with the attributes [__dict__] the user
    gives it, or the exception that ends the construction. *)
Definition __init__ (self : Subclass U) (__dict__ : U)
  : Raises (Instance U) :=
  table <~ __create_lookup_table__ self ;;
  Return (mkInstance table (initial_state self) __dict__).
End Builder.

Section Executor.
Context {U : Type}.

Definition state : Exec U PyVal := read __state__.

(** [transition(to, triggered_event_description,
    transition_tailored_arguments)].  The method has no [return]
    statement: a call that does not raise evaluates to [None]. *)
Definition transition (to triggered_event_description
                         transition_tailored_arguments : PyVal)
  : Exec U PyVal :=
  table <- read __fsm_transition_table__ ;;
  current <- read __state__ ;;
  match dict_get table current with
  | None => raise (FiniteStateMachineError (msg_invalid_state current))
  | Some transitions_ =>
      if negb (dict_truthy transitions_)
      then raise (FiniteStateMachineError (msg_invalid_state current))
      else
        match dict_get transitions_ to with
        | None =>
            raise (FiniteStateMachineError
                     (msg_invalid_transition current to))
        | Some transition_ =>
            match end_state transition_ with
            | None => raise (TypeError msg_none_not_iterable)
            | Some end_state_ =>
                _ <- match guard end_state_ with
                     | Some guard_ =>
                         allowed <-
                           call guard_ [transition_tailored_arguments] ;;
                         if negb (isinstance_bool allowed)
                         then raise (FiniteStateMachineError
                                       msg_guard_contract)
                         else if negb (truthy allowed)
                         then raise (FiniteStateMachineError
                                       (msg_guard_declined current to))
                         else ret tt
                     | None => ret tt
                     end ;;
                match beginning_state transition_ with
                | None => raise (TypeError msg_none_not_iterable)
                | Some beginning_state_ =>
                    _ <- match on_exit beginning_state_ with
                         | Some action =>
                             call action [triggered_event_description;
                                          transition_tailored_arguments]
                         | None => ret PyNone
                         end ;;
                    _ <- match on_entry end_state_ with
                         | Some action =>
                             call action [triggered_event_description;
                                          transition_tailored_arguments]
                         | None => ret PyNone
                         end ;;
                    _ <- write_state to ;;
                    ret PyNone
                end
            end
        end
  end.
End Executor.
End FiniteStateMachine.

(** ** Calls with keyword arguments *)

(** What Python raises for a keyword that names no parameter; [function]
    is the qualified name of the function, as CPython 3.10 and later print
    it. *)
Definition msg_unexpected_keyword (function keyword : string) : string :=
  function +:+ "() got an unexpected keyword argument '" +:+ keyword +:+ "'".

(** The call [function(k1=v1, ..., kn=vn)] of a method whose parameters
    after [self] are [parameters], each with the default [None]: the first
    keyword that names no parameter raises [TypeError] before the body
    runs; otherwise every parameter has the value of its keyword, or
    [None]. *)
Definition bind_keywords (function : string) (parameters : list string)
  (keywords : list (string * PyVal)) : Raises (string -> PyVal) :=
  match List.find (fun k => negb (bool_decide (k.1 ∈ parameters)))
          keywords with
  | Some k => Raise (TypeError (msg_unexpected_keyword function k.1))
  | None =>
      Return (fun parameter =>
                match List.find (fun k => bool_decide (k.1 = parameter))
                        keywords with
                | Some k => k.2
                | None => PyNone
                end)
  end.

(** [v == 'text']: true for the string with these characters only. *)
Definition eq_str (v : PyVal) (text : string) : bool :=
  match v with
  | PyStr s => bool_decide (s = text)
  | _ => false
  end.

(** ** Class statements that leave an attribute out *)

(** What the class statement of a subclass defines.  [initial_state] and
    [transitions] may each be left out: [None] here, while a [transitions]
    that is Python's [None] is [Some None].  [FiniteStateMachine] defines
    neither attribute, so a lookup of what the subclass leaves out finds
    nothing. *)
Record ClassStatement (U : Type) : Type := mkClassStatement {
  defines_initial_state : option PyVal;
  defines_transitions : option (option (list (string * string)));
  defines_callables : list (Function U)
}.

Arguments mkClassStatement {U}.
Arguments defines_initial_state {U}.
Arguments defines_transitions {U}.
Arguments defines_callables {U}.

Module Declaration.
Section Declaration.
Context {U : Type}.

(** [self.attribute] for an attribute that only the class statement can
    define: [AttributeError] when it does not. *)
Definition __getattribute__ {A : Type} (attribute : string)
  (defined : option A) : Raises A :=
  match defined with
  | Some v => Return v
  | None => Raise (AttributeError attribute)
  end.

(** [Subclass()] for a class statement.  [__init__] calls
    [__create_lookup_table__], which collects the actions and the guards
    (reading neither attribute, and raising nothing) and then calls
    [__get_states__], whose first statement reads [self.transitions];
    [self.initial_state] is read last, for the assignment of
    [__state__].  With [transitions] found, the table is built as for a
    [Subclass]; the builder does not read [initial_state], which is
    why any value stands for it there. *)
Definition __init__ (self : ClassStatement U) (__dict__ : U)
  : Raises (Instance U) :=
  transitions_ <~ __getattribute__ "transitions" (defines_transitions self) ;;
  table <~
    FiniteStateMachine.__create_lookup_table__
      (mkSubclass PyNone transitions_ (defines_callables self)) ;;
  initial_state_ <~
    __getattribute__ "initial_state" (defines_initial_state self) ;;
  Return (mkInstance table initial_state_ __dict__).

(** The class statement that defines both attributes. *)
Definition of_subclass (self : Subclass U) : ClassStatement U :=
  mkClassStatement (Some (initial_state self)) (Some (transitions self))
    (callables self).
End Declaration.
End Declaration.

(** ** What a declaration binds to a state *)

Section Bindings.
Context {U : Type}.

Definition binds_on_entry (s : string) (action : Function U) : bool :=
  bool_decide (__fsm_action_state__ action = Some s) &&
  bool_decide (__fsm_action_on_entry__ action = Some true).

Definition binds_on_exit (s : string) (action : Function U) : bool :=
  bool_decide (__fsm_action_state__ action = Some s) &&
  bool_decide (__fsm_action_on_exit__ action = Some true).

Definition binds_guard (s : string) (guard_ : Function U) : bool :=
  bool_decide (__fsm_guard_state__ guard_ = Some s).

(** The on-entry action, the on-exit action and the guard a subclass
    declares for the state [s], if any: the first one in the order in
    which the builder meets them. *)
Definition entry_action (self : Subclass U) (s : string)
  : option (Function U) :=
  List.find (binds_on_entry s) (FiniteStateMachine.__get_actions__ self).

Definition exit_action (self : Subclass U) (s : string)
  : option (Function U) :=
  List.find (binds_on_exit s) (FiniteStateMachine.__get_actions__ self).

Definition guard_of (self : Subclass U) (s : string)
  : option (Function U) :=
  List.find (binds_guard s) (FiniteStateMachine.__get_guards__ self).

(** Two callables, at two places of the list [l], bind the same place
    of the same state ([binds] is one of the three tests above). *)
Definition binds_twice (binds : string -> Function U -> bool)
  (l : list (Function U)) : Prop :=
  exists (s : string) (i j : nat) (x y : Function U),
    i < j /\ l !! i = Some x /\ l !! j = Some y /\
    binds s x = true /\ binds s y = true.

(** The pairs a subclass declares ([transitions] read as a list). *)
Definition declared (self : Subclass U) : list (string * string) :=
  default [] (transitions self).

(** [s] is an endpoint of some declared pair. *)
Definition endpoint (self : Subclass U) (s : string) : Prop :=
  exists pair, pair ∈ declared self /\ (s = pair.1 \/ s = pair.2).

(** A callable carries everything the builder reads from it: this is
    what a function is after any number of successful decorations. *)
Definition decorated (f : Function U) : Prop :=
  (is_Some (__fsm_action__ f) ->
   is_Some (__fsm_action_state__ f) /\
   is_Some (__fsm_action_on_entry__ f) /\
   is_Some (__fsm_action_on_exit__ f)) /\
  (is_Some (__fsm_guard__ f) -> is_Some (__fsm_guard_state__ f)).

(** The functions a class body can hold: a [def], decorated any number
    of times by decorators that did not raise. *)
Inductive from_decorators : Function U -> Prop :=
| from_def (name : string) (body : list PyVal -> U -> Raises PyVal * U) :
    from_decorators (def name body)
| from_Action (kwargs : Kwargs) (f f' : Function U) :
    from_decorators f -> Action.__call__ kwargs f = inr f' ->
    from_decorators f'
| from_Guard (kwargs : Kwargs) (f f' : Function U) :
    from_decorators f -> Guard.__call__ kwargs f = inr f' ->
    from_decorators f'.

(** The same as a test. *)
Definition decorated_b (f : Function U) : bool :=
  (negb (hasattr __fsm_action__ f) ||
   hasattr __fsm_action_state__ f && hasattr __fsm_action_on_entry__ f &&
   hasattr __fsm_action_on_exit__ f) &&
  (negb (hasattr __fsm_guard__ f) || hasattr __fsm_guard_state__ f).

(** The calls, the attributes left behind and the normal return of an
    optional callable run on the user's attributes. *)
Definition calls_of (f : option (Function U)) (args : list PyVal)
  (state : PyVal) : list (Call U) :=
  match f with
  | Some f => [mkCall f args state]
  | None => []
  end.

Definition after (f : option (Function U)) (args : list PyVal) (d : U) : U :=
  match f with
  | Some f => (__code__ f args d).2
  | None => d
  end.

Definition returns (f : option (Function U)) (args : list PyVal) (d : U)
  (P : PyVal -> Prop) : Prop :=
  match f with
  | Some f => exists v, (__code__ f args d).1 = inr v /\ P v
  | None => True
  end.

(** An exception of the engine that names the state [s] as undeclared. *)
Definition names_undeclared_state (e : PyExc) (s : string) : Prop :=
  exists decorator callable_name,
    e = FiniteStateMachineError
          (msg_undeclared_state decorator s callable_name).
End Bindings.

(** The [state] keyword of a decorator is missing, empty, or not a
    string. *)
Definition bad_state_attribute (kwargs : Kwargs) : Prop :=
  kwargs !! "state" = None \/
  kwargs !! "state" = Some (PyStr EmptyString) \/
  exists v, kwargs !! "state" = Some v /\ isinstance_str v = false.

(** [s] occurs in [t] as a substring. *)
Definition occurs_in (s t : string) : Prop :=
  exists before behind, t = before +:+ s +:+ behind.

(** Whether code returned, and what it returned ([d] if it raised). *)
Definition returned {A : Type} (r : Raises A) : bool :=
  match r with
  | inr _ => true
  | inl _ => false
  end.

Definition value {A : Type} (d : A) (r : Raises A) : A :=
  match r with
  | inr a => a
  | inl _ => d
  end.

(** ** The light bulbs of the test suite ([src/fsm_lib/tests.py]) *)

Module Tests.
(** The attributes the tests keep on a light bulb; [None] when the
    attribute was never assigned ([hasattr] is false). *)
Record Attrs : Type := mkAttrs {
  electricity : option PyVal;
  indicator : option string
}.

Definition pass (args : list PyVal) (self : Attrs) : Raises PyVal * Attrs :=
  (Return PyNone, self).

Definition return_True (args : list PyVal) (self : Attrs)
  : Raises PyVal * Attrs :=
  (Return (PyBool true), self).

Definition check_electricity (args : list PyVal) (self : Attrs)
  : Raises PyVal * Attrs :=
  match electricity self with
  | Some v => (Return v, self)
  | None => (Return (PyBool false), self)
  end.

Definition set_indicator (v : string) (args : list PyVal) (self : Attrs)
  : Raises PyVal * Attrs :=
  (Return PyNone, mkAttrs (electricity self) (Some v)).

Definition abstract_transitions : list (string * string) :=
  [("off", "on"); ("on", "off"); ("off", "broken"); ("on", "broken")].

Definition state_on_entry (s : string) (b : bool) : Kwargs :=
  <["state" := PyStr s]> {["on_entry" := PyBool b]}.

Definition state_on_exit (s : string) (b : bool) : Kwargs :=
  <["state" := PyStr s]> {["on_exit" := PyBool b]}.

Definition state_on_entry_on_exit (s : string) (b1 b2 : bool) : Kwargs :=
  <["state" := PyStr s]>
    (<["on_entry" := PyBool b1]> {["on_exit" := PyBool b2]}).

(** The class bodies: each decorated method is the result of its
    decorator, and the callables are listed in the order of [dir]
    (alphabetical); the methods that carry no decorator are left out,
    the builder filters them away. *)
Definition LightBulb : Raises (Subclass Attrs) :=
  check_electricity <~
    Guard.__call__ {["state" := PyStr "on"]}
      (def "check_electricity" check_electricity) ;;
  turn_off <~
    Action.__call__ (state_on_entry "off" true)
      (def "turn_off" (set_indicator "dim")) ;;
  turn_on <~
    Action.__call__ (state_on_entry "on" true)
      (def "turn_on" (set_indicator "lit")) ;;
  smash <~
    Action.__call__ (state_on_entry "broken" true)
      (def "smash" (set_indicator "broken")) ;;
  Return (mkSubclass (PyStr "off") (Some abstract_transitions)
            [check_electricity; smash; turn_off; turn_on]).

Definition LightBulbWithMultipleGuards : Raises (Subclass Attrs) :=
  check_electricity <~
    Guard.__call__ {["state" := PyStr "on"]}
      (def "check_electricity" return_True) ;;
  check_socket <~
    Guard.__call__ {["state" := PyStr "on"]}
      (def "check_socket" return_True) ;;
  Return (mkSubclass (PyStr "off") (Some abstract_transitions)
            [check_electricity; check_socket]).

Definition LightBulbWithMultipleOnEnterActions : Raises (Subclass Attrs) :=
  turn_on <~
    Action.__call__ (state_on_entry "on" true) (def "turn_on" pass) ;;
  turn_on_again <~
    Action.__call__ (state_on_entry "on" true) (def "turn_on_again" pass) ;;
  Return (mkSubclass (PyStr "off") (Some abstract_transitions)
            [turn_on; turn_on_again]).

Definition LightBulbWithMultipleOnExitActions : Raises (Subclass Attrs) :=
  turn_on <~
    Action.__call__ (state_on_entry_on_exit "on" false true)
      (def "turn_on" pass) ;;
  turn_on_again <~
    Action.__call__ (state_on_entry_on_exit "on" false true)
      (def "turn_on_again" pass) ;;
  Return (mkSubclass (PyStr "off") (Some abstract_transitions)
            [turn_on; turn_on_again]).

Definition LightBulbWithBadActionState : Raises (Subclass Attrs) :=
  foobar <~
    Action.__call__ (state_on_exit "bogus" true) (def "foobar" pass) ;;
  Return (mkSubclass (PyStr "off") (Some abstract_transitions) [foobar]).

Definition LightBulbWithBadGuardState : Raises (Subclass Attrs) :=
  foobar <~
    Guard.__call__ (state_on_exit "bogus" true) (def "foobar" pass) ;;
  Return (mkSubclass (PyStr "off") (Some abstract_transitions) [foobar]).

(** The class a class body evaluates to, the table of its instances and
    the callable an optional binding holds, for the class bodies and
    bindings that are known to be there. *)
Definition class_of (class : Raises (Subclass Attrs)) : Subclass Attrs :=
  value (mkSubclass PyNone None []) class.

Definition table_of (class : Raises (Subclass Attrs)) : LookupTable Attrs :=
  value ∅ (FiniteStateMachine.__create_lookup_table__ (class_of class)).

Definition the (binding : option (Function Attrs)) : Function Attrs :=
  default (def EmptyString pass) binding.

(** A light bulb in a given state, as the construction and earlier
    transitions leave it, and the attributes the tests give it. *)
Definition bulb (class : Raises (Subclass Attrs)) (state : string)
  (attrs : Attrs) : Instance Attrs :=
  mkInstance (table_of class) (PyStr state) attrs.

Definition powered : Attrs := mkAttrs (Some (PyBool true)) None.
Definition unpowered : Attrs := mkAttrs None None.
Definition miswired : Attrs := mkAttrs (Some (PyInt 1)) None.
Definition broken : Attrs := mkAttrs (Some (PyBool true)) (Some "broken").

(** What a run shows of the calls it made: the name of the callable,
    the arguments and the state of the machine at the time. *)
Definition names (calls : list (Call Attrs))
  : list (string * list PyVal * PyVal) :=
  map (fun c => (__name__ (callee c), arguments c, state_then c)) calls.

(** [Class()] for a class body that may itself have raised. *)
Definition new (class : Raises (Subclass Attrs)) (attrs : Attrs)
  : Raises (Instance Attrs) :=
  self <~ class ;; FiniteStateMachine.__init__ self attrs.

(** Further light bulbs, in the style of the test suite.  The first has
    an on-exit action and on-entry actions that record their names, to
    watch the order of the calls. *)
Definition append_indicator (v : string) (args : list PyVal) (self : Attrs)
  : Raises PyVal * Attrs :=
  (Return PyNone,
   mkAttrs (electricity self)
     (Some (default EmptyString (indicator self) +:+ v))).

Definition RecordingLightBulb : Raises (Subclass Attrs) :=
  check_electricity <~
    Guard.__call__ {["state" := PyStr "on"]}
      (def "check_electricity" check_electricity) ;;
  leave_off <~
    Action.__call__ (state_on_entry_on_exit "off" false true)
      (def "leave_off" (append_indicator "<off")) ;;
  turn_on <~
    Action.__call__ (state_on_entry "on" true)
      (def "turn_on" (append_indicator ">on")) ;;
  Return (mkSubclass (PyStr "off") (Some abstract_transitions)
            [check_electricity; leave_off; turn_on]).

(** Two on-entry actions for ['on'], met before an action for a state
    that no transition mentions. *)
Definition LightBulbWithTwoFaults : Raises (Subclass Attrs) :=
  turn_on <~
    Action.__call__ (state_on_entry "on" true) (def "turn_on" pass) ;;
  turn_on_again <~
    Action.__call__ (state_on_entry "on" true) (def "turn_on_again" pass) ;;
  zap <~
    Action.__call__ (state_on_entry "bogus" true) (def "zap" pass) ;;
  Return (mkSubclass (PyStr "off") (Some abstract_transitions)
            [turn_on; turn_on_again; zap]).

(** The transitions left out ([transitions = None]) or empty. *)
Definition LightBulbWithoutTransitions : Raises (Subclass Attrs) :=
  turn_on <~
    Action.__call__ (state_on_entry "on" true) (def "turn_on" pass) ;;
  Return (mkSubclass (PyStr "off") None [turn_on]).

Definition LightBulbWithNoTransition : Raises (Subclass Attrs) :=
  turn_on <~
    Action.__call__ (state_on_entry "on" true) (def "turn_on" pass) ;;
  Return (mkSubclass (PyStr "off") (Some []) [turn_on]).

(** [self.transition(k1=v1, ..., kn=vn)]: the keywords are bound to the
    parameters [to], [triggered_event_description] and
    [transition_tailored_arguments] of the method. *)
Definition transition_with (keywords : list (string * PyVal))
  : Exec Attrs PyVal :=
  fun self =>
    match bind_keywords "FiniteStateMachine.transition"
            ["to"; "triggered_event_description";
             "transition_tailored_arguments"] keywords with
    | inl e => raise e self
    | inr argument =>
        FiniteStateMachine.transition (argument "to")
          (argument "triggered_event_description")
          (argument "transition_tailored_arguments") self
    end.

(** [LightBulb.on_message]: the method has no [return] statement. *)
Definition on_message (message transition_tailored_arguments : PyVal)
  : Exec Attrs PyVal :=
  if eq_str message "turn on"
  then
    _ <- transition_with
           [("to", PyStr "on"); ("triggering_event", message);
            ("transition_arguments", transition_tailored_arguments)] ;;
    ret PyNone
  else if eq_str message "turn off"
  then
    _ <- transition_with
           [("to", PyStr "off"); ("triggering_event", message);
            ("transition_arguments", transition_tailored_arguments)] ;;
    ret PyNone
  else if eq_str message "break"
  then
    _ <- transition_with
           [("to", PyStr "broken"); ("triggering_event", message);
            ("transition_arguments", transition_tailored_arguments)] ;;
    ret PyNone
  else ret PyNone.

(** A light bulb whose callables can raise: a guard for ['broken'] and
    the two actions of ['on'] set the indicator and then raise. *)
Definition short_circuit (v : string) (args : list PyVal) (self : Attrs)
  : Raises PyVal * Attrs :=
  (Raise (UserError "RuntimeError" "short circuit"),
   mkAttrs (electricity self)
     (Some (default EmptyString (indicator self) +:+ v))).

Definition FaultyLightBulb : Raises (Subclass Attrs) :=
  check_electricity <~
    Guard.__call__ {["state" := PyStr "on"]}
      (def "check_electricity" check_electricity) ;;
  check_fuse <~
    Guard.__call__ {["state" := PyStr "broken"]}
      (def "check_fuse" (short_circuit "!fuse")) ;;
  leave_off <~
    Action.__call__ (state_on_entry_on_exit "off" false true)
      (def "leave_off" (append_indicator "<off")) ;;
  leave_on <~
    Action.__call__ (state_on_entry_on_exit "on" false true)
      (def "leave_on" (short_circuit "!leave")) ;;
  turn_off <~
    Action.__call__ (state_on_entry "off" true)
      (def "turn_off" (append_indicator ">off")) ;;
  turn_on <~
    Action.__call__ (state_on_entry "on" true)
      (def "turn_on" (short_circuit "!enter")) ;;
  Return (mkSubclass (PyStr "off") (Some abstract_transitions)
            [check_electricity; check_fuse; leave_off; leave_on;
             turn_off; turn_on]).

(** The transitions of the light bulb declared in another order, one
    of them twice. *)
Definition shuffled_transitions : list (string * string) :=
  [("on", "broken"); ("off", "on"); ("off", "broken"); ("on", "off");
   ("off", "on")].

(** A light bulb whose class statement defines no [transitions] at
    all, and the class statement a class body evaluates to. *)
Definition LightBulbWithUndeclaredTransitions
  : Raises (ClassStatement Attrs) :=
  turn_on <~
    Action.__call__ (state_on_entry "on" true) (def "turn_on" pass) ;;
  Return (mkClassStatement (Some (PyStr "off")) None [turn_on]).

Definition statement_of (class : Raises (ClassStatement Attrs))
  : ClassStatement Attrs :=
  value (mkClassStatement None None []) class.
End Tests.

(** ** What the builder leaves behind *)

Section Built.
Context {U : Type}.

(** What the state map holds once the builder has met [actions] and
    [guards]: a dictionary for each derived state and for no other name,
    with the first binding of each kind. *)
Definition state_map_after (states : list string)
  (actions guards : list (Function U)) (sm : gmap string (StateDict U))
  : Prop :=
  forall s : string,
    sm !! s =
    if bool_decide (s ∈ states)
    then Some (mkStateDict (List.find (binds_on_entry s) actions)
                 (List.find (binds_on_exit s) actions)
                 (List.find (binds_guard s) guards))
    else None.

(** The dictionary of a derived state, as the declarations give it. *)
Definition state_dict (self : Subclass U) (s : string) : StateDict U :=
  mkStateDict (entry_action self s) (exit_action self s) (guard_of self s).

(** The dictionary the table holds for the pair [(o, d)], if any. *)
Definition entry (tbl : LookupTable U) (o d : string)
  : option (TransitionDict U) :=
  match tbl !! o with
  | Some row => row !! d
  | None => None
  end.

(** Every dictionary of destinations in the table is true in a test. *)
Definition rows_truthy (tbl : LookupTable U) : Prop :=
  forall (o : string) (row : gmap string (TransitionDict U)),
    tbl !! o = Some row -> dict_truthy row = true.

(** The guard step of [transition], for the guard [g] of the
    destination, if any. *)
Definition guarded (g : option (Function U)) (current to args : PyVal)
  : Exec U unit :=
  match g with
  | Some guard_ =>
      allowed <- call guard_ [args] ;;
      if negb (isinstance_bool allowed)
      then raise (FiniteStateMachineError msg_guard_contract)
      else if negb (truthy allowed)
      then raise (FiniteStateMachineError (msg_guard_declined current to))
      else ret tt
  | None => ret tt
  end.
End Built.

(** ** The instances a program can hold *)

Section Reached.
Context {U : Type}.

(** The instances of a subclass that a program can hold: the one the
    construction returns, the one any call of [transition] leaves behind,
    whether it returned or raised, and the one left when the program
    assigns attributes of its own. *)
Inductive reached (self : Subclass U) : Instance U -> Prop :=
| reached_init (u : U) (m : Instance U) :
    FiniteStateMachine.__init__ self u = inr m -> reached self m
| reached_transition (m : Instance U) (to ev args : PyVal) :
    reached self m ->
    reached self (FiniteStateMachine.transition to ev args m).1.2
| reached_setattr (m : Instance U) (u : U) :
    reached self m ->
    reached self (mkInstance (__fsm_transition_table__ m) (__state__ m) u).

(** One declared pair leads from the state [o] to the state [d]. *)
Definition leads_to (self : Subclass U) (o d : string) : Prop :=
  (o, d) ∈ declared self.

(** The state given by [v] can be reached from the initial state along
    declared pairs; the initial state itself always can. *)
Definition reachable (self : Subclass U) (v : PyVal) : Prop :=
  v = initial_state self \/
  exists o d,
    initial_state self = PyStr o /\ v = PyStr d /\ rtc (leads_to self) o d.

(** The three conditions the builder checks on the callables: every
    action and every guard names an endpoint of a declared pair, and no
    place of a state is bound twice. *)
Definition well_bound (self : Subclass U) : Prop :=
  (forall a, a ∈ FiniteStateMachine.__get_actions__ self ->
     exists s, __fsm_action_state__ a = Some s /\ endpoint self s) /\
  (forall g, g ∈ FiniteStateMachine.__get_guards__ self ->
     exists s, __fsm_guard_state__ g = Some s /\ endpoint self s) /\
  ~ binds_twice binds_on_entry (FiniteStateMachine.__get_actions__ self) /\
  ~ binds_twice binds_on_exit (FiniteStateMachine.__get_actions__ self) /\
  ~ binds_twice binds_guard (FiniteStateMachine.__get_guards__ self).
End Reached.

(** * Properties *)

(** ** Loops and searches *)

Lemma for_each_app {A S : Type} (body : S -> A -> Raises S) (l1 l2 : list A)
  (s : S) :
  for_each body (l1 ++ l2)%list s =
  (s' <~ for_each body l1 s ;; for_each body l2 s').
Proof.
  revert s; induction l1 as [|a l1 IH]; intros s; simpl; [reflexivity|].
  destruct (body s a) as [e|s1]; simpl; [reflexivity|apply IH].
Qed.

Lemma find_snoc {A : Type} (P : A -> bool) (l : list A) (a : A) :
  List.find P (l ++ [a])%list =
  match List.find P l with
  | Some x => Some x
  | None => if P a then Some a else None
  end.
Proof.
  induction l as [|b l IH]; simpl; [reflexivity|].
  destruct (P b); [reflexivity|exact IH].
Qed.

Lemma find_none_snoc {A : Type} (P : A -> bool) (l : list A) (a : A) :
  P a = false -> List.find P (l ++ [a])%list = List.find P l.
Proof.
  intros Ha; rewrite find_snoc, Ha; destruct (List.find P l); reflexivity.
Qed.

(** ** The derived states *)

Section States.
Context {U : Type}.

Lemma elem_of_add_states (states : list string) (pair : string * string)
  (s : string) :
  s ∈ FiniteStateMachine.add_states states pair <->
  s ∈ states \/ s = pair.1 \/ s = pair.2.
Proof.
  destruct pair as [b e]; unfold FiniteStateMachine.add_states; simpl.
  destruct (bool_decide (b ∈ states)) eqn:Hb;
    [apply bool_decide_eq_true in Hb|clear Hb];
    (destruct (bool_decide (e ∈ _)) eqn:He;
     [apply bool_decide_eq_true in He|clear He]);
    rewrite ?elem_of_app, ?list_elem_of_singleton in *;
    intuition (subst; auto).
Qed.

Lemma elem_of_fold_add_states (pairs : list (string * string))
  (states : list string) (s : string) :
  s ∈ fold_left FiniteStateMachine.add_states pairs states <->
  s ∈ states \/ exists pair, pair ∈ pairs /\ (s = pair.1 \/ s = pair.2).
Proof.
  revert states; induction pairs as [|p pairs IH]; intros states; simpl.
  - split; [tauto|]. intros [H|(p & Hp & _)]; [exact H|].
    by apply elem_of_nil in Hp.
  - rewrite IH, elem_of_add_states. split.
    + intros [[H|H]|(q & Hq & H)].
      * by left.
      * right; exists p; split; [apply list_elem_of_here|exact H].
      * right; exists q; split; [by apply list_elem_of_further|exact H].
    + intros [H|(q & Hq & H)]; [by left; left|].
      apply elem_of_cons in Hq as [->|Hq]; [by left; right|].
      right; exists q; by split.
Qed.

(** [__get_states__] returns exactly when the list of pairs is there and
    is not empty, and then the states are the endpoints of the pairs. *)
Lemma get_states_inv (self : Subclass U) (states : list string) :
  FiniteStateMachine.__get_states__ self = inr states ->
  exists pairs,
    transitions self = Some pairs /\ pairs <> [] /\
    states = fold_left FiniteStateMachine.add_states pairs [].
Proof.
  unfold FiniteStateMachine.__get_states__.
  destruct (transitions self) as [[|p pairs]|]; try discriminate.
  intros [= <-]. exists (p :: pairs). by repeat split.
Qed.

Lemma get_states_endpoint (self : Subclass U) (states : list string)
  (s : string) :
  FiniteStateMachine.__get_states__ self = inr states ->
  s ∈ states <-> endpoint self s.
Proof.
  intros (pairs & Ht & _ & ->)%get_states_inv.
  unfold endpoint, declared. rewrite Ht; simpl.
  rewrite elem_of_fold_add_states. split; [|by right].
  intros [H|H]; [by apply elem_of_nil in H|exact H].
Qed.

Lemma get_states_error (self : Subclass U) (e : PyExc) :
  FiniteStateMachine.__get_states__ self = inl e ->
  e = FiniteStateMachineError msg_no_transitions.
Proof.
  unfold FiniteStateMachine.__get_states__.
  destruct (transitions self) as [[|p pairs]|]; try discriminate;
    by intros [= <-].
Qed.

Lemma get_states_not_nil (self : Subclass U) (states : list string) :
  FiniteStateMachine.__get_states__ self = inr states -> states <> [].
Proof.
  intros H. pose proof (get_states_inv _ _ H) as (pairs & Ht & Hne & ->).
  destruct pairs as [|[b e] pairs]; [done|].
  intros Hnil.
  assert (Hb : b ∈ fold_left FiniteStateMachine.add_states
                 ((b, e) :: pairs) []).
  { apply elem_of_fold_add_states. right. exists (b, e).
    split; [apply list_elem_of_here|by left]. }
  rewrite Hnil in Hb. by apply elem_of_nil in Hb.
Qed.
End States.

(** ** The state map *)

Section StateMap.
Context {U : Type}.

Implicit Types (states : list string) (sm : gmap string (StateDict U)).
Implicit Types (actions guards : list (Function U)).

Lemma fold_insert_lookup states (d : StateDict U) sm (s : string) :
  fold_left (fun state_map state => <[state := d]> state_map) states sm !! s
  = if bool_decide (s ∈ states) then Some d else sm !! s.
Proof.
  revert sm; induction states as [|x states IH]; intros sm;
    cbn [fold_left].
  - rewrite bool_decide_eq_false_2; [reflexivity|apply not_elem_of_nil].
  - rewrite IH. destruct (decide (s ∈ states)) as [Hin|Hnin].
    + rewrite (bool_decide_eq_true_2 _ Hin).
      rewrite (bool_decide_eq_true_2 (s ∈ x :: states));
        [reflexivity|by apply list_elem_of_further].
    + rewrite (bool_decide_eq_false_2 _ Hnin).
      destruct (decide (s = x)) as [->|Hne].
      * rewrite lookup_insert_eq.
        rewrite (bool_decide_eq_true_2 (x ∈ x :: states));
          [reflexivity|apply list_elem_of_here].
      * rewrite lookup_insert_ne by congruence.
        rewrite (bool_decide_eq_false_2 (s ∈ x :: states));
          [reflexivity|].
        rewrite elem_of_cons; tauto.
Qed.

Lemma empty_state_map_after states :
  state_map_after (U := U) states [] []
    (FiniteStateMachine.empty_state_map states).
Proof.
  intros s. unfold FiniteStateMachine.empty_state_map.
  rewrite fold_insert_lookup, lookup_empty. reflexivity.
Qed.

Lemma binds_on_entry_other (s s' : string) (a : Function U) :
  __fsm_action_state__ a = Some s' -> s <> s' -> binds_on_entry s a = false.
Proof.
  intros Ha Hne. unfold binds_on_entry. rewrite Ha.
  rewrite bool_decide_eq_false_2; [reflexivity|congruence].
Qed.

Lemma binds_on_exit_other (s s' : string) (a : Function U) :
  __fsm_action_state__ a = Some s' -> s <> s' -> binds_on_exit s a = false.
Proof.
  intros Ha Hne. unfold binds_on_exit. rewrite Ha.
  rewrite bool_decide_eq_false_2; [reflexivity|congruence].
Qed.

Lemma binds_on_entry_same (s : string) (b : bool) (a : Function U) :
  __fsm_action_state__ a = Some s -> __fsm_action_on_entry__ a = Some b ->
  binds_on_entry s a = b.
Proof.
  intros Ha Hb. unfold binds_on_entry. rewrite Ha, Hb.
  rewrite bool_decide_eq_true_2 by reflexivity. by destruct b.
Qed.

Lemma binds_on_exit_same (s : string) (b : bool) (a : Function U) :
  __fsm_action_state__ a = Some s -> __fsm_action_on_exit__ a = Some b ->
  binds_on_exit s a = b.
Proof.
  intros Ha Hb. unfold binds_on_exit. rewrite Ha, Hb.
  rewrite bool_decide_eq_true_2 by reflexivity. by destruct b.
Qed.

(** A round of the actions loop that does not raise. *)
Lemma attach_action_after states actions sm sm' (a : Function U) :
  state_map_after states actions [] sm ->
  FiniteStateMachine.attach_action states sm a = inr sm' ->
  state_map_after states (actions ++ [a]) [] sm'.
Proof.
  intros Hsm. unfold FiniteStateMachine.attach_action, getattr.
  destruct (__fsm_action_state__ a) as [sn|] eqn:Hsn; [simpl|discriminate].
  destruct (bool_decide (sn ∈ states)) eqn:Hin; [simpl|discriminate].
  pose proof (Hsm sn) as Hlk. rewrite Hin in Hlk. rewrite Hlk.
  destruct (__fsm_action_on_entry__ a) as [oe|] eqn:Hoe; [simpl|discriminate].
  destruct (__fsm_action_on_exit__ a) as [ox|] eqn:Hox;
    [|destruct (List.find (binds_on_entry sn) actions), oe; discriminate].
  pose proof (binds_on_entry_same sn oe a Hsn Hoe) as Be.
  pose proof (binds_on_exit_same sn ox a Hsn Hox) as Bx.
  intros Hstep s. destruct (decide (s = sn)) as [->|Hne].
  - rewrite Hin, !find_snoc, Be, Bx.
    destruct (List.find (binds_on_entry sn) actions) as [fe|], oe;
      simpl in Hstep; try discriminate;
      destruct (List.find (binds_on_exit sn) actions) as [fx|], ox;
      simpl in Hstep; try discriminate;
      injection Hstep as <-; by rewrite lookup_insert_eq.
  - rewrite (find_none_snoc (binds_on_entry s))
      by (by apply binds_on_entry_other with sn).
    rewrite (find_none_snoc (binds_on_exit s))
      by (by apply binds_on_exit_other with sn).
    rewrite <- Hsm.
    destruct (List.find (binds_on_entry sn) actions) as [fe|], oe;
      simpl in Hstep; try discriminate;
      destruct (List.find (binds_on_exit sn) actions) as [fx|], ox;
      simpl in Hstep; try discriminate;
      injection Hstep as <-; by rewrite lookup_insert_ne.
Qed.

Lemma attach_actions_after states actions l sm sm' :
  state_map_after states actions [] sm ->
  for_each (FiniteStateMachine.attach_action states) l sm = inr sm' ->
  state_map_after states (actions ++ l) [] sm'.
Proof.
  revert actions sm; induction l as [|a l IH]; intros actions sm Hsm; simpl.
  - intros [= <-]. by rewrite app_nil_r.
  - destruct (FiniteStateMachine.attach_action states sm a) as [e|sm1] eqn:Ha;
      simpl; [discriminate|].
    intros Hl. replace (actions ++ a :: l)%list
      with ((actions ++ [a]) ++ l)%list by (by rewrite <- app_assoc).
    eapply IH; [|exact Hl]. by eapply attach_action_after.
Qed.

(** A round of the guards loop that does not raise. *)
Lemma attach_guard_after states actions guards sm sm' (g : Function U) :
  state_map_after states actions guards sm ->
  FiniteStateMachine.attach_guard states sm g = inr sm' ->
  state_map_after states actions (guards ++ [g]) sm'.
Proof.
  intros Hsm. unfold FiniteStateMachine.attach_guard, getattr.
  destruct (__fsm_guard_state__ g) as [sn|] eqn:Hsn; [simpl|discriminate].
  destruct (bool_decide (sn ∈ states)) eqn:Hin; [simpl|discriminate].
  pose proof (Hsm sn) as Hlk. rewrite Hin in Hlk. rewrite Hlk. simpl.
  destruct (List.find (binds_guard sn) guards) as [fg|] eqn:Hfg;
    [discriminate|].
  intros [= <-] s. destruct (decide (s = sn)) as [->|Hne].
  - rewrite lookup_insert_eq, Hin, find_snoc, Hfg.
    unfold binds_guard. rewrite Hsn.
    by rewrite bool_decide_eq_true_2.
  - rewrite lookup_insert_ne by congruence.
    rewrite find_none_snoc; [apply Hsm|].
    unfold binds_guard. rewrite Hsn.
    rewrite bool_decide_eq_false_2; [reflexivity|congruence].
Qed.

Lemma attach_guards_after states actions guards l sm sm' :
  state_map_after states actions guards sm ->
  for_each (FiniteStateMachine.attach_guard states) l sm = inr sm' ->
  state_map_after states actions (guards ++ l) sm'.
Proof.
  revert guards sm; induction l as [|g l IH]; intros guards sm Hsm; simpl.
  - intros [= <-]. by rewrite app_nil_r.
  - destruct (FiniteStateMachine.attach_guard states sm g) as [e|sm1] eqn:Hg;
      simpl; [discriminate|].
    intros Hl. replace (guards ++ g :: l)%list
      with ((guards ++ [g]) ++ l)%list by (by rewrite <- app_assoc).
    eapply IH; [|exact Hl]. by eapply attach_guard_after.
Qed.

(** The state map the builder returns. *)
Lemma create_state_map_after states actions guards sm :
  FiniteStateMachine.__create_state_map__ actions guards states = inr sm ->
  state_map_after states actions guards sm.
Proof.
  unfold FiniteStateMachine.__create_state_map__.
  destruct (for_each (FiniteStateMachine.attach_action states) actions _)
    as [e|sm1] eqn:Ha; simpl; [discriminate|].
  destruct (for_each (FiniteStateMachine.attach_guard states) guards sm1)
    as [e|sm2] eqn:Hg; simpl; [discriminate|].
  intros [= <-].
  apply (attach_guards_after states actions [] guards sm1); [|exact Hg].
  apply (attach_actions_after states [] actions
           (FiniteStateMachine.empty_state_map states) sm1); [|exact Ha].
  apply empty_state_map_after.
Qed.
End StateMap.

(** ** The lookup table *)

Section LookupTable.
Context {U : Type}.

Implicit Types (sm : gmap string (StateDict U)) (tbl : LookupTable U).
Implicit Types (pairs : list (string * string)).

Lemma dict_truthy_insert {A : Type} (row : gmap string A) (k : string)
  (v : A) :
  dict_truthy (<[k := v]> row) = true.
Proof.
  unfold dict_truthy. rewrite bool_decide_eq_false_2; [reflexivity|].
  apply insert_non_empty.
Qed.

Lemma dict_truthy_lookup {A : Type} (row : gmap string A) (k : string)
  (v : A) :
  row !! k = Some v -> dict_truthy row = true.
Proof.
  intros Hk. unfold dict_truthy. rewrite bool_decide_eq_false_2; [done|].
  intros ->. by rewrite lookup_empty in Hk.
Qed.

Lemma dict_falsy_lookup {A : Type} (row : gmap string A) (k : string) :
  dict_truthy row = false -> row !! k = None.
Proof.
  unfold dict_truthy. intros H%negb_false_iff%bool_decide_eq_true.
  subst row. apply lookup_empty.
Qed.

(** The row the loop works on has the entries the table had. *)
Lemma working_row_lookup tbl (b d : string) :
  match tbl !! b with
  | Some row => if dict_truthy row then row else ∅
  | None => ∅
  end !! d = entry tbl b d.
Proof.
  unfold entry. destruct (tbl !! b) as [row|]; [|apply lookup_empty].
  destruct (dict_truthy row) eqn:Hrow; [reflexivity|].
  rewrite lookup_empty. symmetry. by apply dict_falsy_lookup.
Qed.

Lemma add_transition_entry sm tbl (b e o d : string) :
  entry (FiniteStateMachine.add_transition sm tbl (b, e)) o d =
  match entry tbl o d with
  | Some t => Some t
  | None =>
      if bool_decide ((o, d) = (b, e))
      then Some (mkTransitionDict (sm !! b) (sm !! e))
      else None
  end.
Proof.
  unfold FiniteStateMachine.add_transition.
  set (row := match tbl !! b with
              | Some row => if dict_truthy row then row else ∅
              | None => ∅
              end).
  assert (Hrow : forall k, row !! k = entry tbl b k)
    by (intros k; apply working_row_lookup).
  unfold entry at 1. destruct (decide (o = b)) as [->|Hob].
  - rewrite lookup_insert_eq. rewrite <- Hrow.
    destruct (row !! e) as [t|] eqn:He.
    + destruct (row !! d) as [t'|] eqn:Hd; [reflexivity|].
      rewrite bool_decide_eq_false_2; [reflexivity|].
      intros [= ->]. congruence.
    + destruct (decide (d = e)) as [->|Hde].
      * rewrite lookup_insert_eq, He.
        by rewrite bool_decide_eq_true_2.
      * rewrite lookup_insert_ne by congruence.
        destruct (row !! d); [reflexivity|].
        rewrite bool_decide_eq_false_2; [reflexivity|congruence].
  - rewrite lookup_insert_ne by congruence. fold (entry tbl o d).
    destruct (entry tbl o d); [reflexivity|].
    rewrite bool_decide_eq_false_2; [reflexivity|congruence].
Qed.

Lemma add_transition_rows_truthy sm tbl (pair : string * string) :
  rows_truthy tbl ->
  rows_truthy (FiniteStateMachine.add_transition sm tbl pair).
Proof.
  destruct pair as [b e]. intros Htbl o row.
  unfold FiniteStateMachine.add_transition.
  destruct (decide (o = b)) as [->|Hob].
  - rewrite lookup_insert_eq. intros [= <-].
    match goal with
    | |- dict_truthy (match ?r !! e with _ => _ end) = true =>
        destruct (r !! e) as [t|] eqn:He;
          [by eapply dict_truthy_lookup|apply dict_truthy_insert]
    end.
  - rewrite lookup_insert_ne by congruence. apply Htbl.
Qed.

Lemma fold_add_transition_entry sm pairs tbl (o d : string) :
  entry (fold_left (FiniteStateMachine.add_transition sm) pairs tbl) o d =
  match entry tbl o d with
  | Some t => Some t
  | None =>
      if bool_decide ((o, d) ∈ pairs)
      then Some (mkTransitionDict (sm !! o) (sm !! d))
      else None
  end.
Proof.
  revert tbl; induction pairs as [|[b e] pairs IH]; intros tbl;
    cbn [fold_left].
  - rewrite bool_decide_eq_false_2 by apply not_elem_of_nil.
    by destruct (entry tbl o d).
  - rewrite IH, add_transition_entry.
    destruct (entry tbl o d) as [t|]; [reflexivity|].
    destruct (decide ((o, d) = (b, e))) as [Heq|Hne].
    + rewrite (bool_decide_eq_true_2 _ Heq).
      rewrite (bool_decide_eq_true_2 ((o, d) ∈ (b, e) :: pairs));
        [by injection Heq as -> ->|].
      rewrite Heq. apply list_elem_of_here.
    + rewrite (bool_decide_eq_false_2 _ Hne).
      destruct (decide ((o, d) ∈ pairs)) as [Hin|Hnin].
      * rewrite (bool_decide_eq_true_2 _ Hin).
        rewrite (bool_decide_eq_true_2 ((o, d) ∈ (b, e) :: pairs));
          [reflexivity|by apply list_elem_of_further].
      * rewrite (bool_decide_eq_false_2 _ Hnin).
        rewrite (bool_decide_eq_false_2 ((o, d) ∈ (b, e) :: pairs));
          [reflexivity|].
        rewrite elem_of_cons. tauto.
Qed.

Lemma fold_add_transition_rows_truthy sm pairs tbl :
  rows_truthy tbl ->
  rows_truthy (fold_left (FiniteStateMachine.add_transition sm) pairs tbl).
Proof.
  revert tbl; induction pairs as [|p pairs IH]; intros tbl Htbl;
    cbn [fold_left]; [exact Htbl|].
  apply IH. by apply add_transition_rows_truthy.
Qed.

(** The table of a subclass: how [__create_lookup_table__] returns. *)
Lemma create_lookup_table_inv (self : Subclass U) tbl :
  FiniteStateMachine.__create_lookup_table__ self = inr tbl ->
  exists states sm pairs,
    FiniteStateMachine.__get_states__ self = inr states /\
    transitions self = Some pairs /\
    FiniteStateMachine.__create_state_map__
      (FiniteStateMachine.__get_actions__ self)
      (FiniteStateMachine.__get_guards__ self) states = inr sm /\
    tbl = fold_left (FiniteStateMachine.add_transition sm) pairs ∅.
Proof.
  unfold FiniteStateMachine.__create_lookup_table__.
  destruct (FiniteStateMachine.__get_states__ self) as [e|states] eqn:Hs;
    simpl; [discriminate|].
  destruct (FiniteStateMachine.__create_state_map__ _ _ states)
    as [e|sm] eqn:Hsm; simpl; [discriminate|].
  destruct (transitions self) as [pairs|] eqn:Ht; [|discriminate].
  intros [= <-]. by exists states, sm, pairs.
Qed.

(** The table holds a dictionary exactly for the declared pairs, and
    that dictionary holds the dictionaries of the two states. *)
Lemma table_entry (self : Subclass U) tbl (o d : string) :
  FiniteStateMachine.__create_lookup_table__ self = inr tbl ->
  entry tbl o d =
  if bool_decide ((o, d) ∈ declared self)
  then Some (mkTransitionDict (Some (state_dict self o))
               (Some (state_dict self d)))
  else None.
Proof.
  intros Hb.
  pose proof (create_lookup_table_inv _ _ Hb)
    as (states & sm & pairs & Hs & Ht & Hsm & ->).
  rewrite fold_add_transition_entry. unfold declared. rewrite Ht; simpl.
  unfold entry at 1. rewrite lookup_empty.
  destruct (bool_decide ((o, d) ∈ pairs)) eqn:Hin; [|reflexivity].
  apply bool_decide_eq_true in Hin.
  apply create_state_map_after in Hsm.
  assert (Ho : o ∈ states).
  { apply (get_states_endpoint self states o Hs). exists (o, d).
    unfold declared. rewrite Ht. split; [exact Hin|by left]. }
  assert (Hd : d ∈ states).
  { apply (get_states_endpoint self states d Hs). exists (o, d).
    unfold declared. rewrite Ht. split; [exact Hin|by right]. }
  rewrite (Hsm o), (Hsm d).
  rewrite (bool_decide_eq_true_2 _ Ho), (bool_decide_eq_true_2 _ Hd).
  reflexivity.
Qed.

Lemma table_rows_truthy (self : Subclass U) tbl :
  FiniteStateMachine.__create_lookup_table__ self = inr tbl ->
  rows_truthy tbl.
Proof.
  intros Hb.
  pose proof (create_lookup_table_inv _ _ Hb)
    as (states & sm & pairs & Hs & Ht & Hsm & ->).
  apply fold_add_transition_rows_truthy.
  intros o row. by rewrite lookup_empty.
Qed.

(** A state with no declared pair leaving it has no row. *)
Lemma table_no_row (self : Subclass U) tbl (o : string) :
  FiniteStateMachine.__create_lookup_table__ self = inr tbl ->
  (forall d, (o, d) ∉ declared self) ->
  tbl !! o = None.
Proof.
  intros Hb Hnone. destruct (tbl !! o) as [row|] eqn:Hrow; [|reflexivity].
  exfalso. pose proof (table_rows_truthy _ _ Hb o row Hrow) as Htr.
  unfold dict_truthy in Htr. apply negb_true_iff in Htr.
  apply bool_decide_eq_false in Htr.
  destruct (map_choose row Htr) as (d & t & Hd).
  pose proof (table_entry self tbl o d Hb) as He.
  unfold entry in He. rewrite Hrow, Hd in He.
  rewrite bool_decide_eq_false_2 in He; [discriminate|apply Hnone].
Qed.

(** A state with a declared pair leaving it has a row, and the row
    holds the declared destinations and no other. *)
Lemma table_row (self : Subclass U) tbl (o d : string) :
  FiniteStateMachine.__create_lookup_table__ self = inr tbl ->
  (o, d) ∈ declared self ->
  exists row,
    tbl !! o = Some row /\ dict_truthy row = true /\
    forall d', row !! d' = entry tbl o d'.
Proof.
  intros Hb Hin. pose proof (table_entry self tbl o d Hb) as He.
  rewrite (bool_decide_eq_true_2 _ Hin) in He. unfold entry in He.
  destruct (tbl !! o) as [row|] eqn:Hrow; [|discriminate].
  exists row. split; [reflexivity|]. split.
  - by eapply table_rows_truthy.
  - intros d'. unfold entry. by rewrite Hrow.
Qed.
End LookupTable.

(** ** The decorators *)

(** The test of the [state] attribute lets through the strings that are
    not empty, and nothing else. *)
Lemma invalid_state_attribute_spec (state : PyVal) :
  invalid_state_attribute state =
  match state with
  | PyStr s => Nat.eqb (String.length s) 0
  | _ => true
  end.
Proof.
  unfold invalid_state_attribute.
  destruct state as [|b|z|s]; simpl; rewrite ?orb_true_r; try reflexivity.
  rewrite negb_involutive. by destruct (Nat.eqb (String.length s) 0).
Qed.

Section Decorators.
Context {U : Type}.

Lemma def_decorated (name : string)
  (body : list PyVal -> U -> Raises PyVal * U) :
  decorated (def name body).
Proof. split; simpl; by intros [? ?]. Qed.

(** The action decorator returns the function with its four attributes
    set, and the code it was given. *)
Lemma Action_call_inr (kwargs : Kwargs) (f f' : Function U) :
  Action.__call__ kwargs f = inr f' ->
  is_Some (__fsm_action_state__ f') /\
  is_Some (__fsm_action_on_entry__ f') /\
  is_Some (__fsm_action_on_exit__ f') /\
  __fsm_action__ f' = Some true /\
  __fsm_guard_state__ f' = __fsm_guard_state__ f /\
  __fsm_guard__ f' = __fsm_guard__ f /\
  __name__ f' = __name__ f /\
  __code__ f' = __code__ f.
Proof.
  unfold Action.__call__. rewrite invalid_state_attribute_spec.
  destruct (kwargs_get kwargs "state") as [| | |s]; simpl; try discriminate.
  destruct (Nat.eqb (String.length s) 0); simpl; [discriminate|].
  destruct (kwargs_has kwargs "on_entry"); simpl;
    [destruct (kwargs_get kwargs "on_entry"); simpl; try discriminate|];
    (destruct (kwargs_has kwargs "on_exit"); simpl;
     [destruct (kwargs_get kwargs "on_exit"); simpl; try discriminate|]);
    intros [= <-]; simpl; by eauto 10.
Qed.

Lemma Guard_call_inr (kwargs : Kwargs) (f f' : Function U) :
  Guard.__call__ kwargs f = inr f' ->
  is_Some (__fsm_guard_state__ f') /\
  __fsm_guard__ f' = Some true /\
  __fsm_action_state__ f' = __fsm_action_state__ f /\
  __fsm_action_on_entry__ f' = __fsm_action_on_entry__ f /\
  __fsm_action_on_exit__ f' = __fsm_action_on_exit__ f /\
  __fsm_action__ f' = __fsm_action__ f /\
  __name__ f' = __name__ f /\
  __code__ f' = __code__ f.
Proof.
  unfold Guard.__call__. rewrite invalid_state_attribute_spec.
  destruct (kwargs_get kwargs "state") as [| | |s]; simpl; try discriminate.
  destruct (Nat.eqb (String.length s) 0); simpl; [discriminate|].
  intros [= <-]; simpl; by eauto 10.
Qed.

Lemma Action_call_decorated (kwargs : Kwargs) (f f' : Function U) :
  decorated f -> Action.__call__ kwargs f = inr f' -> decorated f'.
Proof.
  intros [_ Hg] (Hs & He & Hx & _ & Hgs & Hgg & _)%Action_call_inr.
  split; [by intros _|]. rewrite Hgs, Hgg. exact Hg.
Qed.

Lemma Guard_call_decorated (kwargs : Kwargs) (f f' : Function U) :
  decorated f -> Guard.__call__ kwargs f = inr f' -> decorated f'.
Proof.
  intros [Ha _] (Hs & _ & Has & Hae & Hax & Haa & _)%Guard_call_inr.
  split; [|by intros _]. rewrite Has, Hae, Hax, Haa. exact Ha.
Qed.
(** Whatever a class body holds is decorated. *)
Lemma from_decorators_decorated (f : Function U) :
  from_decorators f -> decorated f.
Proof.
  induction 1 as [name body|kwargs f f' _ IH Hcall|kwargs f f' _ IH Hcall].
  - apply def_decorated.
  - by eapply Action_call_decorated.
  - by eapply Guard_call_decorated.
Qed.
End Decorators.

(** ** When the builder raises *)

Section BuilderRaises.
Context {U : Type}.

Implicit Types (states : list string) (sm : gmap string (StateDict U)).
Implicit Types (actions guards : list (Function U)).
Implicit Types (self : Subclass U).

Lemma actions_readable self (a : Function U) :
  Forall decorated (callables self) ->
  a ∈ FiniteStateMachine.__get_actions__ self ->
  is_Some (__fsm_action_state__ a) /\
  is_Some (__fsm_action_on_entry__ a) /\
  is_Some (__fsm_action_on_exit__ a).
Proof.
  intros Hdec Ha. unfold FiniteStateMachine.__get_actions__ in Ha.
  apply list_elem_of_In, filter_In in Ha as [Hin Hhas].
  unfold FiniteStateMachine.__get_callables__ in Hin.
  apply list_elem_of_In in Hin.
  rewrite Forall_forall in Hdec. destruct (Hdec a Hin) as [Hact _].
  apply Hact. unfold hasattr in Hhas.
  destruct (__fsm_action__ a); [by eexists|discriminate].
Qed.

Lemma guards_readable self (g : Function U) :
  Forall decorated (callables self) ->
  g ∈ FiniteStateMachine.__get_guards__ self ->
  is_Some (__fsm_guard_state__ g).
Proof.
  intros Hdec Hg. unfold FiniteStateMachine.__get_guards__ in Hg.
  apply list_elem_of_In, filter_In in Hg as [Hin Hhas].
  unfold FiniteStateMachine.__get_callables__ in Hin.
  apply list_elem_of_In in Hin.
  rewrite Forall_forall in Hdec. destruct (Hdec g Hin) as [_ Hgd].
  apply Hgd. unfold hasattr in Hhas.
  destruct (__fsm_guard__ g); [by eexists|discriminate].
Qed.

(** A round of the actions loop raises the engine's exception only. *)
Lemma attach_action_inl states actions sm (a : Function U) (e : PyExc) :
  state_map_after states actions [] sm ->
  is_Some (__fsm_action_state__ a) ->
  is_Some (__fsm_action_on_entry__ a) ->
  is_Some (__fsm_action_on_exit__ a) ->
  FiniteStateMachine.attach_action states sm a = inl e ->
  exists message, e = FiniteStateMachineError message.
Proof.
  intros Hsm [sn Hsn] [oe Hoe] [ox Hox].
  unfold FiniteStateMachine.attach_action, getattr.
  rewrite Hsn, Hoe, Hox; simpl.
  destruct (bool_decide (sn ∈ states)) eqn:Hin; simpl;
    [|intros [= <-]; by eexists].
  pose proof (Hsm sn) as Hlk. rewrite Hin in Hlk. rewrite Hlk. simpl.
  destruct (List.find (binds_on_entry sn) actions), oe; simpl;
    try (intros [= <-]; by eexists);
    destruct (List.find (binds_on_exit sn) actions), ox; simpl;
    try (intros [= <-]; by eexists); discriminate.
Qed.

Lemma attach_actions_inl states actions l sm (e : PyExc) :
  state_map_after states actions [] sm ->
  (forall a, a ∈ l ->
     is_Some (__fsm_action_state__ a) /\
     is_Some (__fsm_action_on_entry__ a) /\
     is_Some (__fsm_action_on_exit__ a)) ->
  for_each (FiniteStateMachine.attach_action states) l sm = inl e ->
  exists message, e = FiniteStateMachineError message.
Proof.
  revert actions sm; induction l as [|a l IH]; intros actions sm Hsm Hl;
    simpl; [discriminate|].
  destruct (Hl a (list_elem_of_here _ _)) as (Hs & He & Hx).
  destruct (FiniteStateMachine.attach_action states sm a) as [e'|sm1] eqn:Ha;
    simpl.
  - intros [= <-]. by eapply attach_action_inl.
  - apply (IH (actions ++ [a])%list); [by eapply attach_action_after|].
    intros b Hb. apply Hl. by apply list_elem_of_further.
Qed.

(** A round of the guards loop raises the engine's exception only. *)
Lemma attach_guard_inl states actions guards sm (g : Function U)
  (e : PyExc) :
  state_map_after states actions guards sm ->
  is_Some (__fsm_guard_state__ g) ->
  FiniteStateMachine.attach_guard states sm g = inl e ->
  exists message, e = FiniteStateMachineError message.
Proof.
  intros Hsm [sn Hsn]. unfold FiniteStateMachine.attach_guard, getattr.
  rewrite Hsn; simpl.
  destruct (bool_decide (sn ∈ states)) eqn:Hin; simpl;
    [|intros [= <-]; by eexists].
  pose proof (Hsm sn) as Hlk. rewrite Hin in Hlk. rewrite Hlk. simpl.
  destruct (List.find (binds_guard sn) guards);
    [intros [= <-]; by eexists|discriminate].
Qed.

Lemma attach_guards_inl states actions guards l sm (e : PyExc) :
  state_map_after states actions guards sm ->
  (forall g, g ∈ l -> is_Some (__fsm_guard_state__ g)) ->
  for_each (FiniteStateMachine.attach_guard states) l sm = inl e ->
  exists message, e = FiniteStateMachineError message.
Proof.
  revert guards sm; induction l as [|g l IH]; intros guards sm Hsm Hl;
    simpl; [discriminate|].
  pose proof (Hl g (list_elem_of_here _ _)) as Hs.
  destruct (FiniteStateMachine.attach_guard states sm g) as [e'|sm1] eqn:Hg;
    simpl.
  - intros [= <-]. by eapply attach_guard_inl.
  - apply (IH (guards ++ [g])%list); [by eapply attach_guard_after|].
    intros b Hb. apply Hl. by apply list_elem_of_further.
Qed.

(** With decorated callables, the construction raises nothing but the
    engine's exception. *)
Lemma create_lookup_table_inl self (e : PyExc) :
  Forall decorated (callables self) ->
  FiniteStateMachine.__create_lookup_table__ self = inl e ->
  exists message, e = FiniteStateMachineError message.
Proof.
  intros Hdec. unfold FiniteStateMachine.__create_lookup_table__.
  destruct (FiniteStateMachine.__get_states__ self) as [e'|states] eqn:Hs;
    simpl.
  { intros [= <-]. apply get_states_error in Hs. by eexists. }
  unfold FiniteStateMachine.__create_state_map__.
  destruct (for_each (FiniteStateMachine.attach_action states) _ _)
    as [e'|sm1] eqn:Ha; simpl.
  { intros [= <-].
    eapply (attach_actions_inl states []);
      [|intros a; by apply actions_readable|exact Ha].
    apply empty_state_map_after. }
  destruct (for_each (FiniteStateMachine.attach_guard states) _ sm1)
    as [e'|sm2] eqn:Hg; simpl.
  { intros [= <-].
    eapply (attach_guards_inl states
              (FiniteStateMachine.__get_actions__ self) []);
      [|intros g; by apply guards_readable|exact Hg].
    apply (attach_actions_after states []
             (FiniteStateMachine.__get_actions__ self)
             (FiniteStateMachine.empty_state_map states) sm1);
      [apply empty_state_map_after|exact Ha]. }
  apply get_states_inv in Hs as (pairs & -> & _). discriminate.
Qed.

Lemma init_inl self (u : U) (e : PyExc) :
  FiniteStateMachine.__init__ self u = inl e ->
  FiniteStateMachine.__create_lookup_table__ self = inl e.
Proof.
  unfold FiniteStateMachine.__init__.
  destruct (FiniteStateMachine.__create_lookup_table__ self); simpl;
    [by intros [= ->]|discriminate].
Qed.

Lemma init_inr self (u : U) (m : Instance U) :
  FiniteStateMachine.__init__ self u = inr m ->
  FiniteStateMachine.__create_lookup_table__ self
    = inr (__fsm_transition_table__ m) /\
  __state__ m = initial_state self /\ __dict__ m = u.
Proof.
  unfold FiniteStateMachine.__init__.
  destruct (FiniteStateMachine.__create_lookup_table__ self); simpl;
    [discriminate|].
  by intros [= <-].
Qed.

(** The exception of a construction that cannot return. *)
Lemma init_must_raise self :
  Forall decorated (callables self) ->
  (forall tbl, FiniteStateMachine.__create_lookup_table__ self <> inr tbl) ->
  exists message, forall u : U,
    FiniteStateMachine.__init__ self u
    = inl (FiniteStateMachineError message).
Proof.
  intros Hdec Hno. unfold FiniteStateMachine.__init__.
  destruct (FiniteStateMachine.__create_lookup_table__ self) as [e|tbl] eqn:Ht.
  - destruct (create_lookup_table_inl self e Hdec Ht) as [message ->].
    by exists message.
  - by destruct (Hno tbl).
Qed.
End BuilderRaises.

(** ** What a construction that returns has checked *)

Section BuilderReturns.
Context {U : Type}.

Implicit Types (states : list string) (sm : gmap string (StateDict U)).
Implicit Types (actions guards : list (Function U)).
Implicit Types (self : Subclass U).

(** A round of the actions loop that returns: the state of the action
    is derived, and the action takes no place that was taken. *)
Lemma attach_action_inr states actions sm sm' (a : Function U) :
  state_map_after states actions [] sm ->
  FiniteStateMachine.attach_action states sm a = inr sm' ->
  exists sn,
    __fsm_action_state__ a = Some sn /\ sn ∈ states /\
    (binds_on_entry sn a = true ->
     List.find (binds_on_entry sn) actions = None) /\
    (binds_on_exit sn a = true ->
     List.find (binds_on_exit sn) actions = None).
Proof.
  intros Hsm. unfold FiniteStateMachine.attach_action, getattr.
  destruct (__fsm_action_state__ a) as [sn|] eqn:Hsn; [simpl|discriminate].
  destruct (bool_decide (sn ∈ states)) eqn:Hin; [simpl|discriminate].
  pose proof (Hsm sn) as Hlk. rewrite Hin in Hlk. rewrite Hlk.
  destruct (__fsm_action_on_entry__ a) as [oe|] eqn:Hoe; [simpl|discriminate].
  destruct (__fsm_action_on_exit__ a) as [ox|] eqn:Hox;
    [|destruct (List.find (binds_on_entry sn) actions), oe; discriminate].
  intros Hstep. exists sn.
  rewrite (binds_on_entry_same sn oe a Hsn Hoe).
  rewrite (binds_on_exit_same sn ox a Hsn Hox).
  split; [reflexivity|].
  split; [by apply bool_decide_eq_true in Hin|].
  destruct (List.find (binds_on_entry sn) actions) as [fe|], oe;
    simpl in Hstep; try discriminate;
    destruct (List.find (binds_on_exit sn) actions) as [fx|], ox;
    simpl in Hstep; try discriminate; by split.
Qed.

Lemma attach_actions_inr states actions l sm sm' :
  state_map_after states actions [] sm ->
  for_each (FiniteStateMachine.attach_action states) l sm = inr sm' ->
  forall l1 (a : Function U) l2, l = (l1 ++ a :: l2)%list ->
    exists sn,
      __fsm_action_state__ a = Some sn /\ sn ∈ states /\
      (binds_on_entry sn a = true ->
       List.find (binds_on_entry sn) (actions ++ l1) = None) /\
      (binds_on_exit sn a = true ->
       List.find (binds_on_exit sn) (actions ++ l1) = None).
Proof.
  intros Hsm Hl l1 a l2 ->. rewrite for_each_app in Hl.
  destruct (for_each _ l1 sm) as [e|sm1] eqn:H1; simpl in Hl;
    [discriminate|].
  destruct (FiniteStateMachine.attach_action states sm1 a) as [e|sm2] eqn:Ha;
    simpl in Hl; [discriminate|].
  eapply attach_action_inr; [|exact Ha].
  by eapply attach_actions_after.
Qed.

(** The same for a round of the guards loop. *)
Lemma attach_guard_inr states actions guards sm sm' (g : Function U) :
  state_map_after states actions guards sm ->
  FiniteStateMachine.attach_guard states sm g = inr sm' ->
  exists sn,
    __fsm_guard_state__ g = Some sn /\ sn ∈ states /\
    List.find (binds_guard sn) guards = None.
Proof.
  intros Hsm. unfold FiniteStateMachine.attach_guard, getattr.
  destruct (__fsm_guard_state__ g) as [sn|] eqn:Hsn; [simpl|discriminate].
  destruct (bool_decide (sn ∈ states)) eqn:Hin; [simpl|discriminate].
  pose proof (Hsm sn) as Hlk. rewrite Hin in Hlk. rewrite Hlk. simpl.
  destruct (List.find (binds_guard sn) guards) as [fg|] eqn:Hfg;
    [discriminate|].
  intros _. exists sn. by apply bool_decide_eq_true in Hin.
Qed.

Lemma attach_guards_inr states actions guards l sm sm' :
  state_map_after states actions guards sm ->
  for_each (FiniteStateMachine.attach_guard states) l sm = inr sm' ->
  forall l1 (g : Function U) l2, l = (l1 ++ g :: l2)%list ->
    exists sn,
      __fsm_guard_state__ g = Some sn /\ sn ∈ states /\
      List.find (binds_guard sn) (guards ++ l1) = None.
Proof.
  intros Hsm Hl l1 g l2 ->. rewrite for_each_app in Hl.
  destruct (for_each _ l1 sm) as [e|sm1] eqn:H1; simpl in Hl;
    [discriminate|].
  destruct (FiniteStateMachine.attach_guard states sm1 g) as [e|sm2] eqn:Hg;
    simpl in Hl; [discriminate|].
  eapply attach_guard_inr; [|exact Hg].
  by eapply attach_guards_after.
Qed.

(** The two loops of a construction that returns. *)
Lemma create_lookup_table_loops self (tbl : LookupTable U) :
  FiniteStateMachine.__create_lookup_table__ self = inr tbl ->
  exists states sm1 sm2,
    FiniteStateMachine.__get_states__ self = inr states /\
    for_each (FiniteStateMachine.attach_action states)
      (FiniteStateMachine.__get_actions__ self)
      (FiniteStateMachine.empty_state_map states) = inr sm1 /\
    for_each (FiniteStateMachine.attach_guard states)
      (FiniteStateMachine.__get_guards__ self) sm1 = inr sm2.
Proof.
  intros (states & sm & pairs & Hs & _ & Hsm & _)%create_lookup_table_inv.
  exists states. unfold FiniteStateMachine.__create_state_map__ in Hsm.
  destruct (for_each (FiniteStateMachine.attach_action states) _ _)
    as [e|sm1] eqn:Ha; simpl in Hsm; [discriminate|].
  destruct (for_each (FiniteStateMachine.attach_guard states) _ sm1)
    as [e|sm2] eqn:Hg; simpl in Hsm; [discriminate|].
  by exists sm1, sm2.
Qed.

(** In a construction that returns, every action is declared for an
    endpoint of a declared pair, and no action before it binds the same
    place. *)
Lemma built_action self (tbl : LookupTable U) l1 (a : Function U) l2 :
  FiniteStateMachine.__create_lookup_table__ self = inr tbl ->
  FiniteStateMachine.__get_actions__ self = (l1 ++ a :: l2)%list ->
  exists sn,
    __fsm_action_state__ a = Some sn /\ endpoint self sn /\
    (binds_on_entry sn a = true ->
     forall b, b ∈ l1 -> binds_on_entry sn b = false) /\
    (binds_on_exit sn a = true ->
     forall b, b ∈ l1 -> binds_on_exit sn b = false).
Proof.
  intros Hb Hl.
  destruct (create_lookup_table_loops self tbl Hb)
    as (states & sm1 & sm2 & Hs & Ha & _).
  destruct (attach_actions_inr states [] _ _ sm1
              (empty_state_map_after states) Ha l1 a l2 Hl)
    as (sn & Hsn & Hin & He & Hx).
  exists sn. split; [exact Hsn|].
  split; [by apply (get_states_endpoint self states sn Hs)|].
  split; intros Hbind b Hbl; apply list_elem_of_In in Hbl.
  - by apply (find_none _ _ (He Hbind)).
  - by apply (find_none _ _ (Hx Hbind)).
Qed.

Lemma built_guard self (tbl : LookupTable U) l1 (g : Function U) l2 :
  FiniteStateMachine.__create_lookup_table__ self = inr tbl ->
  FiniteStateMachine.__get_guards__ self = (l1 ++ g :: l2)%list ->
  exists sn,
    __fsm_guard_state__ g = Some sn /\ endpoint self sn /\
    forall b, b ∈ l1 -> binds_guard sn b = false.
Proof.
  intros Hb Hl.
  destruct (create_lookup_table_loops self tbl Hb)
    as (states & sm1 & sm2 & Hs & Ha & Hg).
  pose proof (attach_actions_after states [] _ _ sm1
                (empty_state_map_after states) Ha) as Hsm1.
  destruct (attach_guards_inr states _ [] _ sm1 sm2 Hsm1 Hg l1 g l2 Hl)
    as (sn & Hsn & Hin & Hf).
  exists sn. split; [exact Hsn|].
  split; [by apply (get_states_endpoint self states sn Hs)|].
  intros b Hbl; apply list_elem_of_In in Hbl.
  by apply (find_none _ _ Hf).
Qed.

(** Two callables at different places of a list, one before the other. *)
Lemma two_places {A : Type} (l : list A) (i j : nat) (x y : A) :
  i < j -> l !! i = Some x -> l !! j = Some y ->
  exists l1 l2, l = (l1 ++ y :: l2)%list /\ x ∈ l1.
Proof.
  intros Hij Hi Hj.
  destruct (list_elem_of_split_length l j y Hj) as (l1 & l2 & -> & ->).
  exists l1, l2. split; [reflexivity|].
  rewrite lookup_app_l in Hi by exact Hij.
  by eapply list_elem_of_lookup_2.
Qed.

(** A construction that returns has met no place bound twice. *)
Lemma built_binds_once self (tbl : LookupTable U) :
  FiniteStateMachine.__create_lookup_table__ self = inr tbl ->
  ~ binds_twice binds_on_entry (FiniteStateMachine.__get_actions__ self) /\
  ~ binds_twice binds_on_exit (FiniteStateMachine.__get_actions__ self) /\
  ~ binds_twice binds_guard (FiniteStateMachine.__get_guards__ self).
Proof.
  intros Hb.
  assert (Hstate : forall s sn (a : Function U),
             __fsm_action_state__ a = Some sn ->
             (binds_on_entry s a = true \/ binds_on_exit s a = true) ->
             s = sn).
  { intros s sn a Hsn [H|H]; apply andb_true_iff in H as [H _];
      apply bool_decide_eq_true in H; congruence. }
  split; [|split]; intros (s & i & j & x & y & Hij & Hi & Hj & Hx & Hy).
  - destruct (two_places _ i j x y Hij Hi Hj) as (l1 & l2 & Hl & Hin).
    destruct (built_action self tbl l1 y l2 Hb Hl) as (sn & Hsn & _ & He & _).
    assert (s = sn) as -> by (eapply Hstate; eauto).
    rewrite (He Hy x Hin) in Hx. discriminate.
  - destruct (two_places _ i j x y Hij Hi Hj) as (l1 & l2 & Hl & Hin).
    destruct (built_action self tbl l1 y l2 Hb Hl) as (sn & Hsn & _ & _ & He).
    assert (s = sn) as -> by (eapply Hstate; eauto).
    rewrite (He Hy x Hin) in Hx. discriminate.
  - destruct (two_places _ i j x y Hij Hi Hj) as (l1 & l2 & Hl & Hin).
    destruct (built_guard self tbl l1 y l2 Hb Hl) as (sn & Hsn & _ & He).
    assert (s = sn) as ->.
    { apply bool_decide_eq_true in Hy. congruence. }
    rewrite (He x Hin) in Hx. discriminate.
Qed.
End BuilderReturns.

(** ** Running a method *)

Section ExecLaws.
Context {U : Type}.

Lemma bind_ret {A B : Type} (a : A) (k : A -> Exec U B) (self : Instance U) :
  bind (ret a) k self = k a self.
Proof. unfold bind, ret; simpl. by destruct (k a self) as [[r s] c]. Qed.

Lemma bind_raise {A B : Type} (e : PyExc) (k : A -> Exec U B)
  (self : Instance U) :
  bind (raise e) k self = (inl e, self, []).
Proof. reflexivity. Qed.

Lemma bind_read {A B : Type} (field : Instance U -> A) (k : A -> Exec U B)
  (self : Instance U) :
  bind (read field) k self = k (field self) self.
Proof.
  unfold bind, read; simpl. by destruct (k (field self) self) as [[r s] c].
Qed.

(** A step that returns, followed by the rest. *)
Lemma bind_returns {A B : Type} (c : Exec U A) (k : A -> Exec U B)
  (self self1 : Instance U) (a : A) (calls1 : list (Call U)) :
  c self = (inr a, self1, calls1) ->
  bind c k self =
  (let '(r, self2, calls2) := k a self1 in
   (r, self2, (calls1 ++ calls2)%list)).
Proof. intros Hc. unfold bind. by rewrite Hc. Qed.

(** A step that raises ends the method. *)
Lemma bind_raises {A B : Type} (c : Exec U A) (k : A -> Exec U B)
  (self self1 : Instance U) (e : PyExc) (calls1 : list (Call U)) :
  c self = (inl e, self1, calls1) ->
  bind c k self = (inl e, self1, calls1).
Proof. intros Hc. unfold bind. by rewrite Hc. Qed.

(** A sequence that returns: both halves returned. *)
Lemma bind_inr {A B : Type} (c : Exec U A) (k : A -> Exec U B)
  (self self2 : Instance U) (b : B) (calls : list (Call U)) :
  bind c k self = (inr b, self2, calls) ->
  exists a self1 calls1 calls2,
    c self = (inr a, self1, calls1) /\
    k a self1 = (inr b, self2, calls2) /\
    calls = (calls1 ++ calls2)%list.
Proof.
  unfold bind. destruct (c self) as [[[e|a] self1] calls1]; [discriminate|].
  destruct (k a self1) as [[r s] calls2] eqn:Hk. intros [= -> -> <-].
  by exists a, self1, calls1, calls2.
Qed.

(** An optional callable run on an instance: what [call] gives. *)
Lemma call_returns (f : Function U) (args : list PyVal) (self : Instance U)
  (v : PyVal) :
  (__code__ f args (__dict__ self)).1 = inr v ->
  call f args self =
  (inr v,
   mkInstance (__fsm_transition_table__ self) (__state__ self)
     (__code__ f args (__dict__ self)).2,
   [mkCall f args (__state__ self)]).
Proof.
  unfold call. destruct (__code__ f args (__dict__ self)) as [r d]; simpl.
  by intros ->.
Qed.

Lemma call_inr (f : Function U) (args : list PyVal) (self self1 : Instance U)
  (v : PyVal) (calls : list (Call U)) :
  call f args self = (inr v, self1, calls) ->
  __fsm_transition_table__ self1 = __fsm_transition_table__ self /\
  __state__ self1 = __state__ self.
Proof.
  unfold call. destruct (__code__ f args (__dict__ self)) as [r d].
  by intros [= _ <- _].
Qed.
End ExecLaws.

(** ** The transition method on a constructed machine *)

Section Executor.
Context {U : Type}.

Implicit Types (self : Subclass U) (tbl : LookupTable U).

(** With a declared pair, [transition] finds the two state dictionaries
    and is left with the guard, the two actions and the assignment. *)
Lemma transition_declared self tbl (o d : string) (ev args : PyVal) (u : U) :
  FiniteStateMachine.__create_lookup_table__ self = inr tbl ->
  (o, d) ∈ declared self ->
  FiniteStateMachine.transition (PyStr d) ev args
    (mkInstance tbl (PyStr o) u) =
  (_ <- guarded (guard_of self d) (PyStr o) (PyStr d) args ;;
   _ <- match exit_action self o with
        | Some action => call action [ev; args]
        | None => ret PyNone
        end ;;
   _ <- match entry_action self d with
        | Some action => call action [ev; args]
        | None => ret PyNone
        end ;;
   _ <- write_state (PyStr d) ;;
   ret PyNone) (mkInstance tbl (PyStr o) u).
Proof.
  intros Hb Hin.
  destruct (table_row self tbl o d Hb Hin) as (row & Hrow & Htr & Hent).
  pose proof (table_entry self tbl o d Hb) as He.
  rewrite (bool_decide_eq_true_2 _ Hin), <- Hent in He.
  unfold FiniteStateMachine.transition.
  rewrite !bind_read. cbn [__fsm_transition_table__ __state__ dict_get].
  rewrite Hrow, Htr. cbn [negb dict_get]. rewrite He.
  reflexivity.
Qed.

(** The guard step when the guard, if any, returns [True]. *)
Lemma guarded_passes (g : option (Function U)) (current to args : PyVal)
  (m : Instance U) :
  returns g [args] (__dict__ m) (fun v => v = PyBool true) ->
  guarded g current to args m =
  (inr tt,
   mkInstance (__fsm_transition_table__ m) (__state__ m)
     (after g [args] (__dict__ m)),
   calls_of g [args] (__state__ m)).
Proof.
  destruct g as [g|]; simpl.
  - intros (v & Hv & ->). unfold guarded.
    rewrite (bind_returns _ _ _ _ _ _ (call_returns g [args] m _ Hv)).
    reflexivity.
  - intros _. by destruct m.
Qed.

(** An action step when the action, if any, returns. *)
Lemma action_returns (a : option (Function U)) (args : list PyVal)
  (m : Instance U) :
  returns a args (__dict__ m) (fun _ => True) ->
  exists v,
    match a with
    | Some action => call action args
    | None => ret PyNone
    end m =
    (inr v,
     mkInstance (__fsm_transition_table__ m) (__state__ m)
       (after a args (__dict__ m)),
     calls_of a args (__state__ m)).
Proof.
  destruct a as [a|]; simpl.
  - intros (v & Hv & _). exists v. by apply call_returns.
  - intros _. exists PyNone. by destruct m.
Qed.

(** The transition that goes through. *)
Lemma transition_commits self tbl (o d : string) (ev args : PyVal) (u : U) :
  FiniteStateMachine.__create_lookup_table__ self = inr tbl ->
  (o, d) ∈ declared self ->
  let g := guard_of self d in
  let x := exit_action self o in
  let n := entry_action self d in
  let u1 := after g [args] u in
  let u2 := after x [ev; args] u1 in
  let u3 := after n [ev; args] u2 in
  returns g [args] u (fun v => v = PyBool true) ->
  returns x [ev; args] u1 (fun _ => True) ->
  returns n [ev; args] u2 (fun _ => True) ->
  FiniteStateMachine.transition (PyStr d) ev args
    (mkInstance tbl (PyStr o) u) =
  (inr PyNone, mkInstance tbl (PyStr d) u3,
   (calls_of g [args] (PyStr o) ++ calls_of x [ev; args] (PyStr o) ++
    calls_of n [ev; args] (PyStr o))%list).
Proof.
  intros Hb Hin g x n u1 u2 u3 Hg Hx Hn.
  rewrite (transition_declared self tbl o d ev args u Hb Hin).
  fold g x n.
  rewrite (bind_returns _ _ _ _ _ _
             (guarded_passes g (PyStr o) (PyStr d) args
                (mkInstance tbl (PyStr o) u) Hg)).
  cbn [__fsm_transition_table__ __state__ __dict__]. fold u1.
  destruct (action_returns x [ev; args] (mkInstance tbl (PyStr o) u1) Hx)
    as (vx & Hcx).
  rewrite (bind_returns _ _ _ _ _ _ Hcx).
  cbn [__fsm_transition_table__ __state__ __dict__]. fold u2.
  destruct (action_returns n [ev; args] (mkInstance tbl (PyStr o) u2) Hn)
    as (vn & Hcn).
  rewrite (bind_returns _ _ _ _ _ _ Hcn).
  cbn [__fsm_transition_table__ __state__ __dict__]. fold u3.
  unfold bind, write_state, ret; simpl.
  by rewrite !app_nil_r.
Qed.

(** The guard that returns something else than [True]: the method
    raises, and nothing ran but the guard. *)
Lemma transition_guard_stops self tbl (o d : string) (ev args : PyVal)
  (u : U) (guard_ : Function U) (v : PyVal) :
  FiniteStateMachine.__create_lookup_table__ self = inr tbl ->
  (o, d) ∈ declared self ->
  guard_of self d = Some guard_ ->
  (__code__ guard_ [args] u).1 = inr v ->
  v <> PyBool true ->
  FiniteStateMachine.transition (PyStr d) ev args
    (mkInstance tbl (PyStr o) u) =
  (inl (FiniteStateMachineError
          (if isinstance_bool v
           then msg_guard_declined (PyStr o) (PyStr d)
           else msg_guard_contract)),
   mkInstance tbl (PyStr o) (__code__ guard_ [args] u).2,
   [mkCall guard_ [args] (PyStr o)]).
Proof.
  intros Hb Hin Hg Hv Hne.
  rewrite (transition_declared self tbl o d ev args u Hb Hin), Hg.
  apply bind_raises. unfold guarded.
  rewrite (bind_returns _ _ _ _ _ _
             (call_returns guard_ [args] (mkInstance tbl (PyStr o) u) v Hv)).
  cbn [__fsm_transition_table__ __state__ __dict__].
  destruct v as [|[|]|z|s]; try reflexivity. congruence.
Qed.

(** No row for the current state: the state is reported invalid. *)
Lemma transition_invalid_state tbl (current to ev args : PyVal) (u : U) :
  dict_get tbl current = None ->
  FiniteStateMachine.transition to ev args (mkInstance tbl current u) =
  (inl (FiniteStateMachineError (msg_invalid_state current)),
   mkInstance tbl current u, []).
Proof.
  intros Hrow. unfold FiniteStateMachine.transition.
  rewrite !bind_read. cbn [__fsm_transition_table__ __state__].
  by rewrite Hrow.
Qed.

(** A row, but not for the destination: the transition is reported
    invalid. *)
Lemma transition_invalid_transition tbl (current to ev args : PyVal) (u : U)
  (row : gmap string (TransitionDict U)) :
  dict_get tbl current = Some row ->
  dict_truthy row = true ->
  dict_get row to = None ->
  FiniteStateMachine.transition to ev args (mkInstance tbl current u) =
  (inl (FiniteStateMachineError (msg_invalid_transition current to)),
   mkInstance tbl current u, []).
Proof.
  intros Hrow Htr Hto. unfold FiniteStateMachine.transition.
  rewrite !bind_read. cbn [__fsm_transition_table__ __state__].
  by rewrite Hrow, Htr, Hto.
Qed.

(** A call that returns has assigned [to] to the state and evaluates to
    [None], on any instance. *)
Lemma transition_inr (m m' : Instance U) (to ev args v : PyVal)
  (calls : list (Call U)) :
  FiniteStateMachine.transition to ev args m = (inr v, m', calls) ->
  v = PyNone /\ __state__ m' = to /\
  __fsm_transition_table__ m' = __fsm_transition_table__ m.
Proof.
  unfold FiniteStateMachine.transition. rewrite !bind_read.
  destruct (dict_get _ (__state__ m)) as [row|]; [|discriminate].
  destruct (negb (dict_truthy row)); [discriminate|].
  destruct (dict_get row to) as [t|]; [|discriminate].
  destruct (end_state t) as [ed|]; [|discriminate].
  intros (? & m1 & c1 & c1' & Hg & Hrest & _)%bind_inr.
  assert (H1 : __fsm_transition_table__ m1 = __fsm_transition_table__ m).
  { destruct (guard ed) as [g|]; [|by injection Hg as _ <- _].
    apply bind_inr in Hg as (allowed & m0 & c0 & c0' & Hc & Hif & _).
    apply call_inr in Hc as [Ht _].
    destruct (negb (isinstance_bool allowed)); [discriminate|].
    destruct (negb (truthy allowed)); [discriminate|].
    by injection Hif as _ <- _. }
  destruct (beginning_state t) as [bd|]; [|discriminate].
  apply bind_inr in Hrest as (? & m2 & c2 & c2' & Hx & Hrest & _).
  assert (H2 : __fsm_transition_table__ m2 = __fsm_transition_table__ m1).
  { destruct (on_exit bd) as [a|]; [|by injection Hx as _ <- _].
    by apply call_inr in Hx as [Ht _]. }
  apply bind_inr in Hrest as (? & m3 & c3 & c3' & Hn & Hrest & _).
  assert (H3 : __fsm_transition_table__ m3 = __fsm_transition_table__ m2).
  { destruct (on_entry ed) as [a|]; [|by injection Hn as _ <- _].
    by apply call_inr in Hn as [Ht _]. }
  apply bind_inr in Hrest as (? & m4 & c4 & c4' & Hw & Hrest & _).
  injection Hw as _ <- _. injection Hrest as <- <- _.
  simpl. repeat split; congruence.
Qed.
End Executor.

(** * The claims about [transition] *)

(** ** Evaluating the test classes *)

Lemma returned_value {A : Type} (d : A) (r : Raises A) :
  returned r = true -> r = inr (value d r).
Proof. by destruct r. Qed.

Lemma the_bound (binding : option (Function Tests.Attrs)) :
  match binding with Some _ => true | None => false end = true ->
  binding = Some (Tests.the binding).
Proof. by destruct binding. Qed.

Lemma run_returned {U A : Type} (r : Raises A * Instance U * list (Call U))
  (a : Raises A) :
  r.1.1 = a -> r = (a, r.1.2, r.2).
Proof. destruct r as [[r m] c]. by intros <-. Qed.

(** The goals that are settled by running the definitions. *)
Ltac computes := vm_compute; reflexivity.
Ltac built := apply returned_value; computes.
Ltac bound := apply the_bound; computes.
Ltac in_list := apply list_elem_of_In; vm_compute; tauto.
Ltac not_in_list :=
  let H := fresh in
  intros H; apply list_elem_of_In in H; vm_compute in H;
  repeat (destruct H as [H|H]; [discriminate H|]); exact H.

(** C1, as stated, fails: with [electricity] set, the light bulb of the
    test suite goes from ['off'] to ['on'], and the call evaluates to
    [None], which is not the destination ['on']. *)
Lemma C1_counterexample :
  (FiniteStateMachine.transition (PyStr "on") (PyStr "turn on") PyNone
     (Tests.bulb Tests.LightBulb "off" Tests.powered)).1.1
  = inr PyNone /\
  __state__
    (FiniteStateMachine.transition (PyStr "on") (PyStr "turn on") PyNone
       (Tests.bulb Tests.LightBulb "off" Tests.powered)).1.2
  = PyStr "on" /\
  PyNone <> PyStr "on".
Proof. split; [computes|]. split; [computes|discriminate]. Qed.

(** C1, amended: a call of [transition] that does not raise evaluates to
    [None] (the method has no [return] statement), on any instance and for
    any destination; the new state, the value of [to], is what [state()]
    returns afterwards. *)
Theorem C1_transition_returns_None {U : Type} (m m' : Instance U)
  (to ev args v : PyVal) (calls : list (Call U)) :
  FiniteStateMachine.transition to ev args m = (inr v, m', calls) ->
  v = PyNone /\ FiniteStateMachine.state m' = (inr to, m', []).
Proof.
  intros Hcall. apply transition_inr in Hcall as (-> & Hstate & _).
  split; [reflexivity|]. unfold FiniteStateMachine.state, read.
  by rewrite Hstate.
Qed.

Lemma C1_transition_returns_None_witness :
  (FiniteStateMachine.transition (PyStr "on") (PyStr "turn on") PyNone
     (Tests.bulb Tests.LightBulb "off" Tests.powered)).1.1
  = inr PyNone /\
  PyNone = PyNone /\
  FiniteStateMachine.state
    (FiniteStateMachine.transition (PyStr "on") (PyStr "turn on") PyNone
       (Tests.bulb Tests.LightBulb "off" Tests.powered)).1.2
  = (inr (PyStr "on"),
     (FiniteStateMachine.transition (PyStr "on") (PyStr "turn on") PyNone
        (Tests.bulb Tests.LightBulb "off" Tests.powered)).1.2,
     []).
Proof.
  split; [computes|].
  apply (C1_transition_returns_None
           (Tests.bulb Tests.LightBulb "off" Tests.powered) _
           (PyStr "on") (PyStr "turn on") PyNone PyNone
           (FiniteStateMachine.transition (PyStr "on") (PyStr "turn on")
              PyNone (Tests.bulb Tests.LightBulb "off" Tests.powered)).2).
  apply run_returned. computes.
Defined.

(** C2: on a constructed machine in the state [o], for a declared pair
    [(o, d)] whose guard, if any, returns [True], and with actions that
    return, [transition] calls the guard of [d], then the on-exit action of
    [o], then the on-entry action of [d], each once if there is one and in
    that order, each on the attributes the one before left and each while
    the state is still [o]; then it assigns the state, and afterwards
    [state()] returns [d]. *)
Theorem C2_transition_runs_exit_then_entry {U : Type} (self : Subclass U)
  (tbl : LookupTable U) (o d : string) (ev args : PyVal) (u : U) :
  FiniteStateMachine.__create_lookup_table__ self = inr tbl ->
  (o, d) ∈ declared self ->
  let g := guard_of self d in
  let x := exit_action self o in
  let n := entry_action self d in
  let u1 := after g [args] u in
  let u2 := after x [ev; args] u1 in
  let u3 := after n [ev; args] u2 in
  let m' := mkInstance tbl (PyStr d) u3 in
  returns g [args] u (fun v => v = PyBool true) ->
  returns x [ev; args] u1 (fun _ => True) ->
  returns n [ev; args] u2 (fun _ => True) ->
  FiniteStateMachine.transition (PyStr d) ev args (mkInstance tbl (PyStr o) u)
  = (inr PyNone, m',
     (calls_of g [args] (PyStr o) ++ calls_of x [ev; args] (PyStr o) ++
      calls_of n [ev; args] (PyStr o))%list) /\
  FiniteStateMachine.state m' = (inr (PyStr d), m', []).
Proof.
  intros Hb Hin g x n u1 u2 u3 m' Hg Hx Hn.
  split; [|reflexivity].
  by apply transition_commits.
Qed.

Lemma C2_transition_runs_exit_then_entry_witness :
  Tests.names
    (FiniteStateMachine.transition (PyStr "on") (PyStr "turn on") PyNone
       (Tests.bulb Tests.RecordingLightBulb "off" Tests.powered)).2
  = [("check_electricity", [PyNone], PyStr "off");
     ("leave_off", [PyStr "turn on"; PyNone], PyStr "off");
     ("turn_on", [PyStr "turn on"; PyNone], PyStr "off")] /\
  Tests.indicator
    (__dict__
       (FiniteStateMachine.transition (PyStr "on") (PyStr "turn on") PyNone
          (Tests.bulb Tests.RecordingLightBulb "off" Tests.powered)).1.2)
  = Some "<off>on" /\
  FiniteStateMachine.transition (PyStr "on") (PyStr "turn on") PyNone
    (Tests.bulb Tests.RecordingLightBulb "off" Tests.powered)
  = (inr PyNone,
     mkInstance (Tests.table_of Tests.RecordingLightBulb) (PyStr "on")
       (after (entry_action (Tests.class_of Tests.RecordingLightBulb) "on")
          [PyStr "turn on"; PyNone]
          (after (exit_action (Tests.class_of Tests.RecordingLightBulb) "off")
             [PyStr "turn on"; PyNone]
             (after (guard_of (Tests.class_of Tests.RecordingLightBulb) "on")
                [PyNone] Tests.powered))),
     (calls_of (guard_of (Tests.class_of Tests.RecordingLightBulb) "on")
        [PyNone] (PyStr "off") ++
      calls_of (exit_action (Tests.class_of Tests.RecordingLightBulb) "off")
        [PyStr "turn on"; PyNone] (PyStr "off") ++
      calls_of (entry_action (Tests.class_of Tests.RecordingLightBulb) "on")
        [PyStr "turn on"; PyNone] (PyStr "off"))%list).
Proof.
  split; [computes|]. split; [computes|].
  apply (C2_transition_runs_exit_then_entry
           (Tests.class_of Tests.RecordingLightBulb)
           (Tests.table_of Tests.RecordingLightBulb) "off" "on"
           (PyStr "turn on") PyNone Tests.powered).
  - built.
  - in_list.
  - vm_compute. eexists. split; reflexivity.
  - vm_compute. eexists. split; [reflexivity|exact I].
  - vm_compute. eexists. split; [reflexivity|exact I].
Defined.

(** C3: on a constructed machine in the state [o], for a declared pair
    [(o, d)] whose guard returns [False], [transition] raises the guard's
    refusal; the guard is the only callable that ran (neither the on-exit
    action of [o] nor the on-entry action of [d] was called), the user's
    attributes are as the guard left them, and [state()] still returns
    [o]. *)
Theorem C3_guard_false_rejects {U : Type} (self : Subclass U)
  (tbl : LookupTable U) (o d : string) (ev args : PyVal) (u : U)
  (guard_ : Function U) :
  FiniteStateMachine.__create_lookup_table__ self = inr tbl ->
  (o, d) ∈ declared self ->
  guard_of self d = Some guard_ ->
  (__code__ guard_ [args] u).1 = inr (PyBool false) ->
  let m' := mkInstance tbl (PyStr o) (__code__ guard_ [args] u).2 in
  FiniteStateMachine.transition (PyStr d) ev args (mkInstance tbl (PyStr o) u)
  = (inl (FiniteStateMachineError (msg_guard_declined (PyStr o) (PyStr d))),
     m', [mkCall guard_ [args] (PyStr o)]) /\
  FiniteStateMachine.state m' = (inr (PyStr o), m', []).
Proof.
  intros Hb Hin Hg Hv m'. split; [|reflexivity].
  by rewrite (transition_guard_stops self tbl o d ev args u guard_
                (PyBool false) Hb Hin Hg Hv).
Qed.

Lemma C3_guard_false_rejects_witness :
  msg_guard_declined (PyStr "off") (PyStr "on")
  = "A guard declined the transition from off to on." /\
  __name__ (Tests.the (guard_of (Tests.class_of Tests.LightBulb) "on"))
  = "check_electricity" /\
  (__code__ (Tests.the (guard_of (Tests.class_of Tests.LightBulb) "on"))
     [PyNone] Tests.unpowered).2 = Tests.unpowered /\
  FiniteStateMachine.transition (PyStr "on") (PyStr "turn on") PyNone
    (Tests.bulb Tests.LightBulb "off" Tests.unpowered)
  = (inl (FiniteStateMachineError
            (msg_guard_declined (PyStr "off") (PyStr "on"))),
     mkInstance (Tests.table_of Tests.LightBulb) (PyStr "off")
       (__code__ (Tests.the (guard_of (Tests.class_of Tests.LightBulb) "on"))
          [PyNone] Tests.unpowered).2,
     [mkCall (Tests.the (guard_of (Tests.class_of Tests.LightBulb) "on"))
        [PyNone] (PyStr "off")]).
Proof.
  split; [computes|]. split; [computes|]. split; [computes|].
  apply (C3_guard_false_rejects (Tests.class_of Tests.LightBulb)
           (Tests.table_of Tests.LightBulb) "off" "on" (PyStr "turn on")
           PyNone Tests.unpowered).
  - built.
  - in_list.
  - bound.
  - computes.
Defined.

(** C4, as stated, fails: the light bulb of the test suite, once in
    ['broken'], is asked for ['on']; the pair is not declared, and the
    exception is the one for an invalid state, not the one for an invalid
    transition. *)
Lemma C4_counterexample :
  (FiniteStateMachine.transition (PyStr "broken") (PyStr "break") PyNone
     (Tests.bulb Tests.LightBulb "off" Tests.powered)).1
  = (inr PyNone, Tests.bulb Tests.LightBulb "broken" Tests.broken) /\
  (("broken", "on") ∉ declared (Tests.class_of Tests.LightBulb)) /\
  (FiniteStateMachine.transition (PyStr "on") (PyStr "turn on") PyNone
     (Tests.bulb Tests.LightBulb "broken" Tests.broken)).1.1
  = inl (FiniteStateMachineError (msg_invalid_state (PyStr "broken"))) /\
  msg_invalid_state (PyStr "broken")
  = "The broken state is invalid, or we have entered a terminal state." /\
  msg_invalid_transition (PyStr "broken") (PyStr "on")
  = "The transition from broken to on is invalid." /\
  msg_invalid_state (PyStr "broken")
  <> msg_invalid_transition (PyStr "broken") (PyStr "on").
Proof.
  split.
  { unfold Tests.bulb.
    rewrite (transition_commits (Tests.class_of Tests.LightBulb)
               (Tests.table_of Tests.LightBulb) "off" "broken"
               (PyStr "break") PyNone Tests.powered
               ltac:(built) ltac:(in_list)
               ltac:(vm_compute; exact I) ltac:(vm_compute; exact I)
               ltac:(vm_compute; eexists; split; [reflexivity|exact I])).
    cbn [fst]. by do 2 f_equal. }
  split; [not_in_list|]. split; [computes|]. split; [computes|].
  split; [computes|]. vm_compute. discriminate.
Qed.

(** C4, amended: on a constructed machine in the state [o], a call of
    [transition] for a destination that is not declared from [o] raises the
    engine's exception, calls nothing and leaves the instance as it was, so
    that [state()] still returns [o]; the exception is the one for an
    invalid transition when [o] has a declared pair leaving it, and the one
    for an invalid state when it has none. *)
Theorem C4_undeclared_pair_rejected {U : Type} (self : Subclass U)
  (tbl : LookupTable U) (o : string) (to ev args : PyVal) (u : U) :
  FiniteStateMachine.__create_lookup_table__ self = inr tbl ->
  (forall d, to = PyStr d -> (o, d) ∉ declared self) ->
  let m := mkInstance tbl (PyStr o) u in
  exists message,
    FiniteStateMachine.transition to ev args m
    = (inl (FiniteStateMachineError message), m, []) /\
    FiniteStateMachine.state m = (inr (PyStr o), m, []) /\
    ((exists d', (o, d') ∈ declared self) ->
     message = msg_invalid_transition (PyStr o) to) /\
    ((forall d', (o, d') ∉ declared self) ->
     message = msg_invalid_state (PyStr o)).
Proof.
  intros Hb Hto m. destruct (tbl !! o) as [row|] eqn:Hrow.
  - exists (msg_invalid_transition (PyStr o) to).
    pose proof (table_rows_truthy self tbl Hb o row Hrow) as Htr.
    split; [|split; [reflexivity|split; [reflexivity|]]].
    + apply (transition_invalid_transition tbl _ _ _ _ _ row);
        [exact Hrow|exact Htr|].
      destruct to as [| | |d]; try reflexivity. simpl.
      pose proof (table_entry self tbl o d Hb) as He.
      unfold entry in He. rewrite Hrow in He. rewrite He.
      rewrite bool_decide_eq_false_2; [reflexivity|by apply Hto].
    + intros Hnone. rewrite (table_no_row self tbl o Hb Hnone) in Hrow.
      discriminate.
  - exists (msg_invalid_state (PyStr o)).
    split; [|split; [reflexivity|split; [|reflexivity]]].
    + by apply transition_invalid_state.
    + intros (d' & Hd').
      destruct (table_row self tbl o d' Hb Hd') as (row & Hrow' & _).
      congruence.
Qed.

Lemma C4_undeclared_pair_rejected_witness :
  ("off", "on") ∈ declared (Tests.class_of Tests.LightBulb) /\
  (FiniteStateMachine.transition (PyStr "off") (PyStr "turn off") PyNone
     (Tests.bulb Tests.LightBulb "off" Tests.unpowered)).1.1
  = inl (FiniteStateMachineError
           "The transition from off to off is invalid.") /\
  exists message,
    FiniteStateMachine.transition (PyStr "off") (PyStr "turn off") PyNone
      (Tests.bulb Tests.LightBulb "off" Tests.unpowered)
    = (inl (FiniteStateMachineError message),
       Tests.bulb Tests.LightBulb "off" Tests.unpowered, []) /\
    FiniteStateMachine.state (Tests.bulb Tests.LightBulb "off" Tests.unpowered)
    = (inr (PyStr "off"), Tests.bulb Tests.LightBulb "off" Tests.unpowered,
       []) /\
    ((exists d', ("off", d') ∈ declared (Tests.class_of Tests.LightBulb)) ->
     message = msg_invalid_transition (PyStr "off") (PyStr "off")) /\
    ((forall d', ("off", d') ∉ declared (Tests.class_of Tests.LightBulb)) ->
     message = msg_invalid_state (PyStr "off")).
Proof.
  split; [in_list|]. split; [computes|].
  apply (C4_undeclared_pair_rejected (Tests.class_of Tests.LightBulb)
           (Tests.table_of Tests.LightBulb) "off" (PyStr "off")
           (PyStr "turn off") PyNone Tests.unpowered).
  - built.
  - intros d [= <-]. not_in_list.
Defined.

(** C9: on a constructed machine in the state [o], for a declared pair
    [(o, d)] whose guard returns a value that is not a boolean,
    [transition] raises the exception for a guard that breaks its contract;
    the guard is the only callable that ran, the state is not assigned, and
    the instance left behind is a machine in the state [o] like any other:
    a further call for a declared pair whose guard passes goes through. *)
Theorem C9_guard_not_boolean {U : Type} (self : Subclass U)
  (tbl : LookupTable U) (o d : string) (ev args v : PyVal) (u : U)
  (guard_ : Function U) :
  FiniteStateMachine.__create_lookup_table__ self = inr tbl ->
  (o, d) ∈ declared self ->
  guard_of self d = Some guard_ ->
  (__code__ guard_ [args] u).1 = inr v ->
  isinstance_bool v = false ->
  let u' := (__code__ guard_ [args] u).2 in
  let m' := mkInstance tbl (PyStr o) u' in
  FiniteStateMachine.transition (PyStr d) ev args (mkInstance tbl (PyStr o) u)
  = (inl (FiniteStateMachineError msg_guard_contract), m',
     [mkCall guard_ [args] (PyStr o)]) /\
  FiniteStateMachine.state m' = (inr (PyStr o), m', []) /\
  forall (d2 : string) (ev2 args2 : PyVal),
    (o, d2) ∈ declared self ->
    let g := guard_of self d2 in
    let x := exit_action self o in
    let n := entry_action self d2 in
    let u1 := after g [args2] u' in
    let u2 := after x [ev2; args2] u1 in
    let u3 := after n [ev2; args2] u2 in
    returns g [args2] u' (fun v => v = PyBool true) ->
    returns x [ev2; args2] u1 (fun _ => True) ->
    returns n [ev2; args2] u2 (fun _ => True) ->
    FiniteStateMachine.transition (PyStr d2) ev2 args2 m'
    = (inr PyNone, mkInstance tbl (PyStr d2) u3,
       (calls_of g [args2] (PyStr o) ++ calls_of x [ev2; args2] (PyStr o) ++
        calls_of n [ev2; args2] (PyStr o))%list).
Proof.
  intros Hb Hin Hg Hv Hnb u' m'. split; [|split; [reflexivity|]].
  - rewrite (transition_guard_stops self tbl o d ev args u guard_ v
               Hb Hin Hg Hv); [by rewrite Hnb|].
    intros ->. discriminate.
  - intros d2 ev2 args2 Hin2 g x n u1 u2 u3 Hg2 Hx2 Hn2.
    by apply transition_commits.
Qed.

Lemma C9_guard_not_boolean_witness :
  (__code__ (Tests.the (guard_of (Tests.class_of Tests.LightBulb) "on"))
     [PyNone] Tests.miswired)
  = (inr (PyInt 1), Tests.miswired) /\
  FiniteStateMachine.transition (PyStr "on") (PyStr "turn on") PyNone
    (Tests.bulb Tests.LightBulb "off" Tests.miswired)
  = (inl (FiniteStateMachineError msg_guard_contract),
     mkInstance (Tests.table_of Tests.LightBulb) (PyStr "off")
       (__code__ (Tests.the (guard_of (Tests.class_of Tests.LightBulb) "on"))
          [PyNone] Tests.miswired).2,
     [mkCall (Tests.the (guard_of (Tests.class_of Tests.LightBulb) "on"))
        [PyNone] (PyStr "off")]) /\
  (FiniteStateMachine.transition (PyStr "broken") (PyStr "break") PyNone
     (mkInstance (Tests.table_of Tests.LightBulb) (PyStr "off")
        (__code__ (Tests.the (guard_of (Tests.class_of Tests.LightBulb) "on"))
           [PyNone] Tests.miswired).2)).1.1
  = inr PyNone /\
  __state__
    (FiniteStateMachine.transition (PyStr "broken") (PyStr "break") PyNone
       (mkInstance (Tests.table_of Tests.LightBulb) (PyStr "off")
          (__code__ (Tests.the (guard_of (Tests.class_of Tests.LightBulb) "on"))
             [PyNone] Tests.miswired).2)).1.2
  = PyStr "broken".
Proof.
  split; [computes|].
  destruct (C9_guard_not_boolean (Tests.class_of Tests.LightBulb)
              (Tests.table_of Tests.LightBulb) "off" "on" (PyStr "turn on")
              PyNone (PyInt 1) Tests.miswired
              (Tests.the (guard_of (Tests.class_of Tests.LightBulb) "on"))
              ltac:(built) ltac:(in_list) ltac:(bound) ltac:(computes)
              ltac:(reflexivity))
    as (Hraise & Hstate & Hmore).
  split; [exact Hraise|].
  rewrite (Hmore "broken" (PyStr "break") PyNone ltac:(in_list)
             ltac:(vm_compute; exact I) ltac:(vm_compute; exact I)
             ltac:(vm_compute; eexists; split; [reflexivity|exact I])).
  split; reflexivity.
Defined.

(** C10: the construction does not look at [initial_state]: if it returns
    for a subclass, it returns for the same declarations with any other
    value [i] as [initial_state], with the same table, and [state()] then
    returns [i].  When [i] is not an endpoint of a declared pair, every call
    of [transition] raises the exception for an invalid state, calls
    nothing and leaves the instance as it was. *)
Theorem C10_initial_state_not_validated {U : Type} (self : Subclass U)
  (i : PyVal) (u : U) (m : Instance U) :
  FiniteStateMachine.__init__ self u = inr m ->
  let self' := mkSubclass i (transitions self) (callables self) in
  let m' := mkInstance (__fsm_transition_table__ m) i u in
  FiniteStateMachine.__init__ self' u = inr m' /\
  FiniteStateMachine.state m' = (inr i, m', []) /\
  ((forall s, i = PyStr s -> ~ endpoint self s) ->
   forall to ev args : PyVal,
     FiniteStateMachine.transition to ev args m'
     = (inl (FiniteStateMachineError (msg_invalid_state i)), m', [])).
Proof.
  intros (Hb & _ & _)%init_inr self' m'.
  assert (Hb' : FiniteStateMachine.__create_lookup_table__ self'
                = inr (__fsm_transition_table__ m)) by exact Hb.
  split; [|split; [reflexivity|]].
  - unfold FiniteStateMachine.__init__. by rewrite Hb'.
  - intros Hout to ev args. apply transition_invalid_state.
    destruct i as [| | |s]; try reflexivity. simpl.
    apply (table_no_row self _ s Hb). intros d Hd.
    apply (Hout s eq_refl). exists (s, d). split; [exact Hd|by left].
Qed.

Lemma C10_initial_state_not_validated_witness :
  msg_invalid_state (PyStr "bogus")
  = "The bogus state is invalid, or we have entered a terminal state." /\
  (forall s, PyStr "bogus" = PyStr s ->
             ~ endpoint (Tests.class_of Tests.LightBulb) s) /\
  FiniteStateMachine.__init__
    (mkSubclass (PyStr "bogus")
       (transitions (Tests.class_of Tests.LightBulb))
       (callables (Tests.class_of Tests.LightBulb))) Tests.unpowered
  = inr (Tests.bulb Tests.LightBulb "bogus" Tests.unpowered) /\
  FiniteStateMachine.state (Tests.bulb Tests.LightBulb "bogus" Tests.unpowered)
  = (inr (PyStr "bogus"), Tests.bulb Tests.LightBulb "bogus" Tests.unpowered,
     []) /\
  FiniteStateMachine.transition (PyStr "on") (PyStr "turn on") PyNone
    (Tests.bulb Tests.LightBulb "bogus" Tests.unpowered)
  = (inl (FiniteStateMachineError (msg_invalid_state (PyStr "bogus"))),
     Tests.bulb Tests.LightBulb "bogus" Tests.unpowered, []).
Proof.
  split; [computes|].
  assert (Hout : forall s, PyStr "bogus" = PyStr s ->
                           ~ endpoint (Tests.class_of Tests.LightBulb) s).
  { intros s [= <-] (pair & Hp & Hs).
    apply list_elem_of_In in Hp. vm_compute in Hp.
    repeat (destruct Hp as [<-|Hp]; [by destruct Hs|]). exact Hp. }
  split; [exact Hout|].
  destruct (C10_initial_state_not_validated (Tests.class_of Tests.LightBulb)
              (PyStr "bogus") Tests.unpowered
              (Tests.bulb Tests.LightBulb "off" Tests.unpowered))
    as (Hinit & Hstate & Hcalls).
  { unfold FiniteStateMachine.__init__.
    rewrite (returned_value ∅
               (FiniteStateMachine.__create_lookup_table__
                  (Tests.class_of Tests.LightBulb)) ltac:(computes)).
    reflexivity. }
  split; [exact Hinit|]. split; [exact Hstate|].
  exact (Hcalls Hout (PyStr "on") (PyStr "turn on") PyNone).
Defined.

(** * The claims about the declarations and the construction *)

(** ** Texts *)

Lemma substring_prefix (s behind : string) :
  String.substring 0 (String.length s) (s +:+ behind) = s.
Proof.
  induction s as [|c s IH]; simpl; [by destruct behind|by rewrite IH].
Qed.

Lemma substring_middle (before s behind : string) :
  String.substring (String.length before) (String.length s)
    (before +:+ s +:+ behind) = s.
Proof.
  induction before as [|c before IH]; simpl;
    [exact (substring_prefix s behind)|exact IH].
Qed.

(** A text in which [index] finds no [s] holds no [s]. *)
Lemma index_None_not_occurs (s t : string) :
  s <> EmptyString -> String.index 0 s t = None -> ~ occurs_in s t.
Proof.
  intros Hs Hidx (before & behind & ->).
  apply (String.index_correct3 0 (String.length before) s _ Hidx Hs); [lia|].
  apply substring_middle.
Qed.

(** The exception for an undeclared state holds the name of the state. *)
Lemma msg_undeclared_state_occurs (decorator s callable_name : string) :
  occurs_in s (msg_undeclared_state decorator s callable_name).
Proof. exists "A state named ". eexists. reflexivity. Qed.

Lemma hasattr_is_Some {U A : Type} (field : Function U -> option A)
  (f : Function U) :
  hasattr field f = true <-> is_Some (field f).
Proof.
  unfold hasattr. destruct (field f); split; try done.
Qed.

Lemma decorated_b_decorated {U : Type} (f : Function U) :
  decorated_b f = true -> decorated f.
Proof.
  unfold decorated_b, decorated.
  intros [Ha Hg]%andb_true_iff. split.
  - intros Hact%hasattr_is_Some. rewrite Hact in Ha. simpl in Ha.
    apply andb_true_iff in Ha as [[Hs He]%andb_true_iff Hx].
    by rewrite <- !hasattr_is_Some.
  - intros Hgrd%hasattr_is_Some. rewrite Hgrd in Hg. simpl in Hg.
    by rewrite <- hasattr_is_Some.
Qed.

Lemma all_decorated_b {U : Type} (l : list (Function U)) :
  forallb decorated_b l = true -> Forall decorated l.
Proof.
  induction l as [|f l IH]; simpl; [constructor|].
  intros [Hf Hl]%andb_true_iff. constructor; [|by apply IH].
  by apply decorated_b_decorated.
Qed.

(** Closes [Forall decorated l] on a concrete list of callables. *)
Ltac all_decorated := apply all_decorated_b; computes.

(** C5: for declarations whose callables come from the decorators, two
    on-entry actions, or two on-exit actions, or two guards bound to the
    same state make the construction raise the engine's exception, whatever
    attributes the instance is given: no instance is returned, so no
    transition can be attempted. *)
Theorem C5_duplicate_binding_fails {U : Type} (self : Subclass U) :
  Forall decorated (callables self) ->
  binds_twice binds_on_entry (FiniteStateMachine.__get_actions__ self) \/
  binds_twice binds_on_exit (FiniteStateMachine.__get_actions__ self) \/
  binds_twice binds_guard (FiniteStateMachine.__get_guards__ self) ->
  exists message, forall u : U,
    FiniteStateMachine.__init__ self u
    = inl (FiniteStateMachineError message).
Proof.
  intros Hdec Htwice. apply init_must_raise; [exact Hdec|].
  intros tbl Hb. destruct (built_binds_once self tbl Hb) as (He & Hx & Hg).
  tauto.
Qed.

Lemma C5_duplicate_binding_fails_witness :
  Tests.new Tests.LightBulbWithMultipleGuards Tests.unpowered
  = inl (FiniteStateMachineError
           "The on state can only have one guard declared") /\
  Tests.new Tests.LightBulbWithMultipleOnEnterActions Tests.unpowered
  = inl (FiniteStateMachineError
           "The on state can only have one action declared for on_entry.") /\
  Tests.new Tests.LightBulbWithMultipleOnExitActions Tests.unpowered
  = inl (FiniteStateMachineError
           "The on state can only have one action declared for on_exit.") /\
  (exists message, forall u,
     FiniteStateMachine.__init__
       (Tests.class_of Tests.LightBulbWithMultipleGuards) u
     = inl (FiniteStateMachineError message)) /\
  (exists message, forall u,
     FiniteStateMachine.__init__
       (Tests.class_of Tests.LightBulbWithMultipleOnEnterActions) u
     = inl (FiniteStateMachineError message)) /\
  (exists message, forall u,
     FiniteStateMachine.__init__
       (Tests.class_of Tests.LightBulbWithMultipleOnExitActions) u
     = inl (FiniteStateMachineError message)).
Proof.
  split; [computes|]. split; [computes|]. split; [computes|].
  split; [|split].
  - apply C5_duplicate_binding_fails; [all_decorated|].
    right; right. exists "on", 0, 1. eexists. eexists.
    split; [lia|]. split; [computes|]. split; [computes|].
    split; computes.
  - apply C5_duplicate_binding_fails; [all_decorated|].
    left. exists "on", 0, 1. eexists. eexists.
    split; [lia|]. split; [computes|]. split; [computes|].
    split; computes.
  - apply C5_duplicate_binding_fails; [all_decorated|].
    right; left. exists "on", 0, 1. eexists. eexists.
    split; [lia|]. split; [computes|]. split; [computes|].
    split; computes.
Defined.

(** C6: with a [state] keyword that is missing, empty, or not a string,
    the action decorator raises the engine's exception, and the guard
    decorator raises [TypeError] for the same test.  Neither returns the
    function, and neither runs it. *)
Theorem C6_guard_decorator_raises_TypeError {U : Type} (kwargs : Kwargs)
  (function : Function U) :
  bad_state_attribute kwargs ->
  Action.__call__ kwargs function
  = inl (FiniteStateMachineError msg_action_state_attribute) /\
  Guard.__call__ kwargs function = inl (TypeError msg_guard_state_attribute).
Proof.
  intros Hbad.
  assert (Hinv : invalid_state_attribute (kwargs_get kwargs "state") = true).
  { rewrite invalid_state_attribute_spec. unfold kwargs_get.
    destruct Hbad as [->|[->|(v & -> & Hv)]]; try reflexivity.
    by destruct v. }
  unfold Action.__call__, Guard.__call__. by rewrite Hinv.
Qed.

Lemma C6_guard_decorator_raises_TypeError_witness :
  bad_state_attribute {["state" := PyStr EmptyString]} /\
  Action.__call__ {["state" := PyStr EmptyString]} (def "turn_on" Tests.pass)
  = inl (FiniteStateMachineError msg_action_state_attribute) /\
  Guard.__call__ {["state" := PyStr EmptyString]} (def "turn_on" Tests.pass)
  = inl (TypeError msg_guard_state_attribute).
Proof.
  assert (Hbad : bad_state_attribute {["state" := PyStr EmptyString]})
    by (right; left; computes).
  split; [exact Hbad|].
  exact (C6_guard_decorator_raises_TypeError {["state" := PyStr EmptyString]}
           (def "turn_on" Tests.pass) Hbad).
Defined.

(** A class that defines both attributes is constructed from its class
    statement as from the record of what it declares. *)
Lemma init_of_subclass {U : Type} (self : Subclass U) (u : U) :
  Declaration.__init__ (Declaration.of_subclass self) u
  = FiniteStateMachine.__init__ self u.
Proof. reflexivity. Qed.

(** With [transitions] defined, as [None] or as an empty list, the
    construction raises the engine's exception. *)
Lemma init_without_transitions {U : Type} (self : Subclass U) (u : U) :
  transitions self = None \/ transitions self = Some [] ->
  FiniteStateMachine.__init__ self u
  = inl (FiniteStateMachineError msg_no_transitions).
Proof.
  intros Hnone.
  unfold FiniteStateMachine.__init__,
    FiniteStateMachine.__create_lookup_table__,
    FiniteStateMachine.__get_states__.
  by destruct Hnone as [-> | ->].
Qed.

(** C7: a class whose [transitions] is [None] or an empty list is not
    constructed: [__get_states__] raises the engine's exception that asks
    for a list of transitions; and a construction that returns has derived
    at least one state.  A class statement that defines no [transitions]
    at all is not constructed either, but not with the engine's exception:
    the lookup [self.transitions] that the test [not self.transitions]
    starts with raises Python's [AttributeError], so the check made to
    "make sure the user declared a set of possible transitions" is never
    reached for the class that declared none. *)
Theorem C7_undeclared_transitions_raise_AttributeError {U : Type}
  (self : ClassStatement U) :
  (defines_transitions self = Some None \/
   defines_transitions self = Some (Some []) ->
   forall u : U,
     Declaration.__init__ self u
     = inl (FiniteStateMachineError msg_no_transitions)) /\
  (defines_transitions self = None ->
   forall u : U,
     Declaration.__init__ self u = inl (AttributeError "transitions")) /\
  (forall (u : U) (m : Instance U),
     Declaration.__init__ self u = inr m ->
     exists pairs states,
       defines_transitions self = Some (Some pairs) /\
       FiniteStateMachine.__get_states__
         (mkSubclass (__state__ m) (Some pairs) (defines_callables self))
       = inr states /\
       states <> []).
Proof.
  unfold Declaration.__init__, Declaration.__getattribute__.
  split; [|split].
  - intros Hnone u.
    assert (Hraise : forall t,
               t = None \/ t = Some [] ->
               FiniteStateMachine.__create_lookup_table__
                 (mkSubclass PyNone t (defines_callables self))
               = inl (FiniteStateMachineError msg_no_transitions)).
    { intros t Ht.
      unfold FiniteStateMachine.__create_lookup_table__,
        FiniteStateMachine.__get_states__.
      by destruct Ht as [-> | ->]. }
    destruct Hnone as [-> | ->]; cbn [bindR Return].
    + by rewrite (Hraise None) by (by left).
    + by rewrite (Hraise (Some [])) by (by right).
  - by intros ->.
  - intros u m.
    destruct (defines_transitions self) as [t|]; [|discriminate].
    cbn [bindR Return].
    destruct (FiniteStateMachine.__create_lookup_table__
                (mkSubclass PyNone t (defines_callables self)))
      as [e|tbl] eqn:Hb; [discriminate|].
    intros _.
    apply create_lookup_table_inv in Hb as (states & _ & pairs & Hs & Hp & _).
    cbn [transitions] in Hp. subst t.
    exists pairs, states. split; [reflexivity|].
    split; [exact Hs|]. by eapply get_states_not_nil.
Qed.

Lemma C7_undeclared_transitions_raise_AttributeError_witness :
  defines_transitions
    (Tests.statement_of Tests.LightBulbWithUndeclaredTransitions) = None /\
  (forall u,
     Declaration.__init__
       (Tests.statement_of Tests.LightBulbWithUndeclaredTransitions) u
     = inl (AttributeError "transitions")) /\
  (forall u,
     Declaration.__init__
       (Declaration.of_subclass
          (Tests.class_of Tests.LightBulbWithoutTransitions)) u
     = inl (FiniteStateMachineError msg_no_transitions)) /\
  (forall u,
     Declaration.__init__
       (Declaration.of_subclass
          (Tests.class_of Tests.LightBulbWithNoTransition)) u
     = inl (FiniteStateMachineError msg_no_transitions)) /\
  AttributeError "transitions" <> FiniteStateMachineError msg_no_transitions.
Proof.
  assert (Hundeclared :
            defines_transitions
              (Tests.statement_of Tests.LightBulbWithUndeclaredTransitions)
            = None) by computes.
  split; [exact Hundeclared|]. split; [|split; [|split]].
  - exact (proj1 (proj2 (C7_undeclared_transitions_raise_AttributeError
                           (Tests.statement_of
                              Tests.LightBulbWithUndeclaredTransitions)))
             Hundeclared).
  - apply (proj1 (C7_undeclared_transitions_raise_AttributeError
                    (Declaration.of_subclass
                       (Tests.class_of Tests.LightBulbWithoutTransitions)))).
    left. computes.
  - apply (proj1 (C7_undeclared_transitions_raise_AttributeError
                    (Declaration.of_subclass
                       (Tests.class_of Tests.LightBulbWithNoTransition)))).
    right. computes.
  - discriminate.
Defined.

(** C8, as stated, fails: a light bulb declares two on-entry actions for
    ['on'] and, after them in the order of [dir], an action for ['bogus'],
    a state that no transition mentions.  The construction raises for the
    second on-entry action; its exception is not the one for an undeclared
    state and does not hold the name ['bogus']. *)
Lemma C8_counterexample :
  __fsm_action_state__
    <$> FiniteStateMachine.__get_actions__
          (Tests.class_of Tests.LightBulbWithTwoFaults) !! 2
  = Some (Some "bogus") /\
  ~ endpoint (Tests.class_of Tests.LightBulbWithTwoFaults) "bogus" /\
  FiniteStateMachine.__init__ (Tests.class_of Tests.LightBulbWithTwoFaults)
    Tests.unpowered
  = inl (FiniteStateMachineError
           "The on state can only have one action declared for on_entry.") /\
  ~ names_undeclared_state
      (FiniteStateMachineError
         "The on state can only have one action declared for on_entry.")
      "bogus" /\
  ~ occurs_in "bogus"
      "The on state can only have one action declared for on_entry.".
Proof.
  split; [computes|]. split.
  { intros (pair & Hp & Hs). apply list_elem_of_In in Hp. vm_compute in Hp.
    repeat (destruct Hp as [<-|Hp]; [by destruct Hs|]). exact Hp. }
  split; [computes|]. split.
  - intros (decorator & callable_name & H). vm_compute in H. discriminate H.
  - apply index_None_not_occurs; [discriminate|computes].
Qed.

(** C8, amended: for declarations whose callables come from the
    decorators, an action or a guard declared for a state that is not an
    endpoint of any declared pair makes the construction raise the engine's
    exception.  The exception names that state and that callable when it is
    the first thing the builder trips over: the list of transitions is
    there and not empty, and the callables the builder meets before (the
    actions in the order of [dir], then the guards) were bound without an
    exception. *)
Theorem C8_undeclared_state_fails {U : Type} (self : Subclass U) :
  Forall decorated (callables self) ->
  (forall (a : Function U) (s : string),
     a ∈ FiniteStateMachine.__get_actions__ self ->
     __fsm_action_state__ a = Some s ->
     ~ endpoint self s ->
     (exists message, forall u : U,
        FiniteStateMachine.__init__ self u
        = inl (FiniteStateMachineError message)) /\
     (forall states before behind sm,
        FiniteStateMachine.__get_states__ self = inr states ->
        FiniteStateMachine.__get_actions__ self
        = (before ++ a :: behind)%list ->
        for_each (FiniteStateMachine.attach_action states) before
          (FiniteStateMachine.empty_state_map states) = inr sm ->
        forall u : U,
          FiniteStateMachine.__init__ self u
          = inl (FiniteStateMachineError
                   (msg_undeclared_state "Action" s (__name__ a))))) /\
  (forall (g : Function U) (s : string),
     g ∈ FiniteStateMachine.__get_guards__ self ->
     __fsm_guard_state__ g = Some s ->
     ~ endpoint self s ->
     (exists message, forall u : U,
        FiniteStateMachine.__init__ self u
        = inl (FiniteStateMachineError message)) /\
     (forall states before behind sm1 sm2,
        FiniteStateMachine.__get_states__ self = inr states ->
        for_each (FiniteStateMachine.attach_action states)
          (FiniteStateMachine.__get_actions__ self)
          (FiniteStateMachine.empty_state_map states) = inr sm1 ->
        FiniteStateMachine.__get_guards__ self
        = (before ++ g :: behind)%list ->
        for_each (FiniteStateMachine.attach_guard states) before sm1
        = inr sm2 ->
        forall u : U,
          FiniteStateMachine.__init__ self u
          = inl (FiniteStateMachineError
                   (msg_undeclared_state "Guard" s (__name__ g))))).
Proof.
  intros Hdec. split.
  - intros a s Ha Hs Hend. split.
    + apply init_must_raise; [exact Hdec|]. intros tbl Hb.
      destruct (list_elem_of_split _ _ Ha) as (l1 & l2 & Hl).
      destruct (built_action self tbl l1 a l2 Hb Hl) as (sn & Hsn & Hep & _).
      congruence.
    + intros states before behind sm Hst Hl Hpre u.
      unfold FiniteStateMachine.__init__,
        FiniteStateMachine.__create_lookup_table__,
        FiniteStateMachine.__create_state_map__.
      rewrite Hst. cbn [bindR]. rewrite Hl, for_each_app, Hpre.
      cbn [bindR for_each].
      unfold FiniteStateMachine.attach_action, getattr. rewrite Hs.
      cbn [bindR Return].
      rewrite bool_decide_eq_false_2; [reflexivity|].
      by rewrite (get_states_endpoint self states s Hst).
  - intros g s Hg Hs Hend. split.
    + apply init_must_raise; [exact Hdec|]. intros tbl Hb.
      destruct (list_elem_of_split _ _ Hg) as (l1 & l2 & Hl).
      destruct (built_guard self tbl l1 g l2 Hb Hl) as (sn & Hsn & Hep & _).
      congruence.
    + intros states before behind sm1 sm2 Hst Hact Hl Hpre u.
      unfold FiniteStateMachine.__init__,
        FiniteStateMachine.__create_lookup_table__,
        FiniteStateMachine.__create_state_map__.
      rewrite Hst. cbn [bindR]. rewrite Hact. cbn [bindR].
      rewrite Hl, for_each_app, Hpre. cbn [bindR for_each].
      unfold FiniteStateMachine.attach_guard, getattr. rewrite Hs.
      cbn [bindR Return].
      rewrite bool_decide_eq_false_2; [reflexivity|].
      by rewrite (get_states_endpoint self states s Hst).
Qed.

Lemma C8_undeclared_state_fails_witness :
  msg_undeclared_state "Action" "bogus" "foobar"
  = "A state named bogus is not declared " +:+ spaces 46 +:+
    "in the transitions list." +:+ LF +:+
    " Please add bogus to the list of possible " +:+ spaces 46 +:+
    "transitions or modify the @Action decorator on foobar." /\
  (forall u,
     FiniteStateMachine.__init__
       (Tests.class_of Tests.LightBulbWithBadActionState) u
     = inl (FiniteStateMachineError
              (msg_undeclared_state "Action" "bogus" "foobar"))) /\
  (forall u,
     FiniteStateMachine.__init__
       (Tests.class_of Tests.LightBulbWithBadGuardState) u
     = inl (FiniteStateMachineError
              (msg_undeclared_state "Guard" "bogus" "foobar"))).
Proof.
  assert (Hend : forall class,
             declared (Tests.class_of class) = Tests.abstract_transitions ->
             ~ endpoint (Tests.class_of class) "bogus").
  { intros class Hd (pair & Hp & Hs). rewrite Hd in Hp.
    apply list_elem_of_In in Hp. vm_compute in Hp.
    repeat (destruct Hp as [<-|Hp]; [by destruct Hs|]). exact Hp. }
  split; [computes|]. split.
  - destruct (proj1 (C8_undeclared_state_fails
                       (Tests.class_of Tests.LightBulbWithBadActionState)
                       ltac:(all_decorated))
                (Tests.the
                   (head (FiniteStateMachine.__get_actions__
                            (Tests.class_of
                               Tests.LightBulbWithBadActionState))))
                "bogus" ltac:(in_list) ltac:(computes)
                (Hend Tests.LightBulbWithBadActionState ltac:(computes)))
      as [_ Hnames].
    exact (Hnames
             (value [] (FiniteStateMachine.__get_states__
                          (Tests.class_of Tests.LightBulbWithBadActionState)))
             [] [] _ ltac:(built) ltac:(computes) eq_refl).
  - destruct (proj2 (C8_undeclared_state_fails
                       (Tests.class_of Tests.LightBulbWithBadGuardState)
                       ltac:(all_decorated))
                (Tests.the
                   (head (FiniteStateMachine.__get_guards__
                            (Tests.class_of
                               Tests.LightBulbWithBadGuardState))))
                "bogus" ltac:(in_list) ltac:(computes)
                (Hend Tests.LightBulbWithBadGuardState ltac:(computes)))
      as [_ Hnames].
    exact (Hnames
             (value [] (FiniteStateMachine.__get_states__
                          (Tests.class_of Tests.LightBulbWithBadGuardState)))
             [] [] _ _ ltac:(built) eq_refl ltac:(computes) eq_refl).
Defined.

(** * Further properties of the decorators *)

Lemma kwargs_get_Some (kwargs : Kwargs) (key : string) (v : PyVal) :
  kwargs !! key = Some v -> kwargs_get kwargs key = v.
Proof. unfold kwargs_get. by intros ->. Qed.

Lemma kwargs_has_Some (kwargs : Kwargs) (key : string) (v : PyVal) :
  kwargs !! key = Some v -> kwargs_has kwargs key = true.
Proof.
  unfold kwargs_has. intros ->. apply bool_decide_eq_true_2. by eexists.
Qed.

Lemma kwargs_has_None (kwargs : Kwargs) (key : string) :
  kwargs !! key = None -> kwargs_has kwargs key = false.
Proof.
  unfold kwargs_has. intros ->. apply bool_decide_eq_false_2. by intros [? ?].
Qed.

Section DecoratorShapes.
Context {U : Type}.

(** What the action decorator does depends on the keywords only: it
    raises the same exception for every function, or it sets the same
    four attributes on every function. *)
Lemma Action_call_shape (kwargs : Kwargs) :
  (exists e, forall f : Function U, Action.__call__ kwargs f = inl e) \/
  (exists s oe ox, forall f : Function U,
     Action.__call__ kwargs f
     = inr (mkFunction (__name__ f) (Some s) (Some oe) (Some ox) (Some true)
              (__fsm_guard_state__ f) (__fsm_guard__ f) (__code__ f))).
Proof.
  unfold Action.__call__. rewrite invalid_state_attribute_spec.
  destruct (kwargs_get kwargs "state") as [| | |s]; simpl;
    try (left; eexists; reflexivity).
  destruct (Nat.eqb (String.length s) 0); simpl;
    [left; eexists; reflexivity|].
  destruct (kwargs_has kwargs "on_entry"); simpl;
    [destruct (kwargs_get kwargs "on_entry"); simpl;
     try (left; eexists; reflexivity)|];
    (destruct (kwargs_has kwargs "on_exit"); simpl;
     [destruct (kwargs_get kwargs "on_exit"); simpl;
      try (left; eexists; reflexivity)|]);
    right; eexists; eexists; eexists; reflexivity.
Qed.

Lemma Guard_call_shape (kwargs : Kwargs) :
  (exists e, forall f : Function U, Guard.__call__ kwargs f = inl e) \/
  (exists s, forall f : Function U,
     Guard.__call__ kwargs f
     = inr (mkFunction (__name__ f) (__fsm_action_state__ f)
              (__fsm_action_on_entry__ f) (__fsm_action_on_exit__ f)
              (__fsm_action__ f) (Some s) (Some true) (__code__ f))).
Proof.
  unfold Guard.__call__. rewrite invalid_state_attribute_spec.
  destruct (kwargs_get kwargs "state") as [| | |s]; simpl;
    try (left; eexists; reflexivity).
  destruct (Nat.eqb (String.length s) 0); simpl;
    [left; eexists; reflexivity|].
  right; eexists; reflexivity.
Qed.
End DecoratorShapes.

(** X1: with a [state] keyword that is a string and not empty, and with
    [on_entry] and [on_exit] each left out or a boolean, the action
    decorator returns the function with [__fsm_action_state__] set to the
    state, [__fsm_action_on_entry__] set to the keyword or to [True] when it
    is left out, [__fsm_action_on_exit__] set to the keyword or to [False]
    when it is left out, and [__fsm_action__] set to [True]; the name, the
    code and the guard attributes are those of the function. *)
Theorem X1_Action_call_sets_attributes {U : Type} (kwargs : Kwargs)
  (f : Function U) (s : string) (oe ox : bool) :
  kwargs !! "state" = Some (PyStr s) ->
  s <> EmptyString ->
  (kwargs !! "on_entry" = None /\ oe = true \/
   kwargs !! "on_entry" = Some (PyBool oe)) ->
  (kwargs !! "on_exit" = None /\ ox = false \/
   kwargs !! "on_exit" = Some (PyBool ox)) ->
  Action.__call__ kwargs f
  = inr (mkFunction (__name__ f) (Some s) (Some oe) (Some ox) (Some true)
           (__fsm_guard_state__ f) (__fsm_guard__ f) (__code__ f)).
Proof.
  intros Hs Hne He Hx. unfold Action.__call__.
  rewrite invalid_state_attribute_spec, (kwargs_get_Some _ _ _ Hs).
  destruct s as [|c s]; [done|].
  destruct He as [[He ->]|He], Hx as [[Hx ->]|Hx];
    rewrite ?(kwargs_has_None _ _ He), ?(kwargs_has_None _ _ Hx),
      ?(kwargs_has_Some _ _ _ He), ?(kwargs_has_Some _ _ _ Hx),
      ?(kwargs_get_Some _ _ _ He), ?(kwargs_get_Some _ _ _ Hx);
    reflexivity.
Qed.

Lemma X1_Action_call_sets_attributes_witness :
  Tests.state_on_exit "bogus" true !! "state" = Some (PyStr "bogus") /\
  "bogus" <> EmptyString /\
  (Tests.state_on_exit "bogus" true !! "on_entry" = None /\ true = true \/
   Tests.state_on_exit "bogus" true !! "on_entry" = Some (PyBool true)) /\
  (Tests.state_on_exit "bogus" true !! "on_exit" = None /\ true = false \/
   Tests.state_on_exit "bogus" true !! "on_exit" = Some (PyBool true)) /\
  Action.__call__ (Tests.state_on_exit "bogus" true) (def "foobar" Tests.pass)
  = inr (mkFunction "foobar" (Some "bogus") (Some true) (Some true)
           (Some true) None None Tests.pass).
Proof.
  assert (Hs : Tests.state_on_exit "bogus" true !! "state"
               = Some (PyStr "bogus")) by computes.
  assert (Hne : "bogus" <> EmptyString) by discriminate.
  assert (He : Tests.state_on_exit "bogus" true !! "on_entry" = None /\
               true = true \/
               Tests.state_on_exit "bogus" true !! "on_entry"
               = Some (PyBool true)) by (left; split; computes).
  assert (Hx : Tests.state_on_exit "bogus" true !! "on_exit" = None /\
               true = false \/
               Tests.state_on_exit "bogus" true !! "on_exit"
               = Some (PyBool true)) by (right; computes).
  split; [exact Hs|]. split; [exact Hne|]. split; [exact He|].
  split; [exact Hx|].
  exact (X1_Action_call_sets_attributes (Tests.state_on_exit "bogus" true)
           (def "foobar" Tests.pass) "bogus" true true Hs Hne He Hx).
Defined.

(** X2: with a valid [state] keyword, an [on_entry] keyword that is given
    and is not a boolean makes the action decorator raise [TypeError] with
    the text about [on_entry], whatever [on_exit] is; with [on_entry] left
    out or a boolean, an [on_exit] keyword that is given and is not a
    boolean makes it raise [TypeError] with the text about [on_exit]. *)
Theorem X2_Action_call_rejects_non_boolean {U : Type} (kwargs : Kwargs)
  (f : Function U) (s : string) :
  kwargs !! "state" = Some (PyStr s) ->
  s <> EmptyString ->
  (forall v,
     kwargs !! "on_entry" = Some v -> isinstance_bool v = false ->
     Action.__call__ kwargs f = inl (TypeError msg_action_on_entry_attribute))
  /\
  (forall v,
     (kwargs !! "on_entry" = None \/
      exists b, kwargs !! "on_entry" = Some (PyBool b)) ->
     kwargs !! "on_exit" = Some v -> isinstance_bool v = false ->
     Action.__call__ kwargs f = inl (TypeError msg_action_on_exit_attribute)).
Proof.
  intros Hs Hne.
  assert (Hstate : invalid_state_attribute (kwargs_get kwargs "state") = false).
  { rewrite invalid_state_attribute_spec, (kwargs_get_Some _ _ _ Hs).
    by destruct s. }
  split.
  - intros v Hv Hnb. unfold Action.__call__.
    rewrite Hstate, (kwargs_get_Some _ _ _ Hs), (kwargs_has_Some _ _ _ Hv),
      (kwargs_get_Some _ _ _ Hv).
    by destruct v.
  - intros v He Hv Hnb. unfold Action.__call__.
    rewrite Hstate, (kwargs_get_Some _ _ _ Hs), (kwargs_has_Some _ _ _ Hv),
      (kwargs_get_Some _ _ _ Hv).
    destruct He as [He|[b He]].
    + rewrite (kwargs_has_None _ _ He). by destruct v.
    + rewrite (kwargs_has_Some _ _ _ He), (kwargs_get_Some _ _ _ He).
      by destruct v.
Qed.

Lemma X2_Action_call_rejects_non_boolean_witness :
  Action.__call__
    (<["state" := PyStr "on"]> {["on_entry" := PyInt 1]})
    (def "turn_on" Tests.pass)
  = inl (TypeError msg_action_on_entry_attribute) /\
  Action.__call__
    (<["state" := PyStr "on"]> {["on_exit" := PyNone]})
    (def "turn_on" Tests.pass)
  = inl (TypeError msg_action_on_exit_attribute).
Proof.
  assert (Hentry : (<["state" := PyStr "on"]> {["on_entry" := PyInt 1]}
                    : Kwargs) !! "state" = Some (PyStr "on")) by computes.
  assert (Hexit : (<["state" := PyStr "on"]> {["on_exit" := PyNone]}
                   : Kwargs) !! "state" = Some (PyStr "on")) by computes.
  assert (Hne : "on" <> EmptyString) by discriminate.
  split.
  - apply (proj1 (X2_Action_call_rejects_non_boolean
                    (<["state" := PyStr "on"]> {["on_entry" := PyInt 1]})
                    (def "turn_on" Tests.pass) "on" Hentry Hne) (PyInt 1));
      computes.
  - apply (proj2 (X2_Action_call_rejects_non_boolean
                    (<["state" := PyStr "on"]> {["on_exit" := PyNone]})
                    (def "turn_on" Tests.pass) "on" Hexit Hne) PyNone);
      [left; computes|computes|computes].
Defined.

(** X3: the two decorators can be stacked in either order: decorating with
    [Action] and then with [Guard] returns a function exactly when
    decorating with [Guard] and then with [Action] does, and then the two
    functions are the same. *)
Theorem X3_decorators_commute {U : Type} (action_kwargs guard_kwargs : Kwargs)
  (f h : Function U) :
  (f1 <~ Action.__call__ action_kwargs f ;; Guard.__call__ guard_kwargs f1)
  = inr h <->
  (f1 <~ Guard.__call__ guard_kwargs f ;; Action.__call__ action_kwargs f1)
  = inr h.
Proof.
  destruct (Action_call_shape (U := U) action_kwargs)
    as [[ea Ha]|(s & oe & ox & Ha)],
     (Guard_call_shape (U := U) guard_kwargs) as [[eg Hg]|(sg & Hg)].
  - rewrite Ha, Hg. simpl. split; discriminate.
  - rewrite Ha, Hg. simpl. rewrite Ha. split; discriminate.
  - rewrite Ha, Hg. simpl. rewrite Hg. split; discriminate.
  - rewrite Ha, Hg. simpl. rewrite Ha, Hg. simpl. reflexivity.
Qed.

(** X4: decorating again replaces what the same decorator did before: on a
    function that [Action] returned, [Action] with new keywords gives what
    it gives on the undecorated function, and likewise for [Guard]. *)
Theorem X4_decorating_again_overrides {U : Type} (first second : Kwargs)
  (f : Function U) :
  (forall f1, Action.__call__ first f = inr f1 ->
              Action.__call__ second f1 = Action.__call__ second f) /\
  (forall f1, Guard.__call__ first f = inr f1 ->
              Guard.__call__ second f1 = Guard.__call__ second f).
Proof.
  split; intros f1 H1.
  - destruct (Action_call_shape (U := U) first) as [[e H]|(s & oe & ox & H)];
      rewrite H in H1; [discriminate|]. injection H1 as <-.
    destruct (Action_call_shape (U := U) second)
      as [[e' H']|(s' & oe' & ox' & H')]; by rewrite !H'.
  - destruct (Guard_call_shape (U := U) first) as [[e H]|(s & H)];
      rewrite H in H1; [discriminate|]. injection H1 as <-.
    destruct (Guard_call_shape (U := U) second) as [[e' H']|(s' & H')];
      by rewrite !H'.
Qed.

Lemma X4_decorating_again_overrides_witness :
  Action.__call__ (Tests.state_on_entry "on" true) (def "turn_on" Tests.pass)
  = inr (mkFunction "turn_on" (Some "on") (Some true) (Some false) (Some true)
           None None Tests.pass) /\
  Action.__call__ (Tests.state_on_exit "off" true)
    (mkFunction "turn_on" (Some "on") (Some true) (Some false) (Some true)
       None None Tests.pass)
  = Action.__call__ (Tests.state_on_exit "off" true)
      (def "turn_on" Tests.pass).
Proof.
  assert (H1 : Action.__call__ (Tests.state_on_entry "on" true)
                 (def "turn_on" Tests.pass)
               = inr (mkFunction "turn_on" (Some "on") (Some true)
                        (Some false) (Some true) None None Tests.pass))
    by computes.
  split; [exact H1|].
  exact (proj1 (X4_decorating_again_overrides (Tests.state_on_entry "on" true)
                  (Tests.state_on_exit "off" true)
                  (def "turn_on" Tests.pass)) _ H1).
Defined.

(** * Further properties of the builder *)

Section ExtraStates.
Context {U : Type}.

Lemma NoDup_snoc_unless_in (states : list string) (s : string) :
  NoDup states ->
  NoDup (if bool_decide (s ∈ states) then states else (states ++ [s])%list).
Proof.
  intros Hnd. destruct (bool_decide (s ∈ states)) eqn:Hs; [exact Hnd|].
  apply bool_decide_eq_false in Hs. apply NoDup_app.
  split; [exact Hnd|]. split; [|apply NoDup_singleton].
  intros x Hx Heq%list_elem_of_singleton. by subst x.
Qed.

Lemma NoDup_add_states (states : list string) (pair : string * string) :
  NoDup states -> NoDup (FiniteStateMachine.add_states states pair).
Proof.
  destruct pair as [b e]. intros Hnd. unfold FiniteStateMachine.add_states.
  by do 2 apply NoDup_snoc_unless_in.
Qed.

Lemma NoDup_fold_add_states (pairs : list (string * string))
  (states : list string) :
  NoDup states ->
  NoDup (fold_left FiniteStateMachine.add_states pairs states).
Proof.
  revert states. induction pairs as [|pair pairs IH]; intros states Hnd;
    [exact Hnd|].
  simpl. apply IH. by apply NoDup_add_states.
Qed.
End ExtraStates.

(** X5: the list of states that [__get_states__] returns holds every
    endpoint of a declared pair, once, and nothing else. *)
Theorem X5_get_states_lists_each_endpoint_once {U : Type} (self : Subclass U)
  (states : list string) :
  FiniteStateMachine.__get_states__ self = inr states ->
  NoDup states /\ forall s, s ∈ states <-> endpoint self s.
Proof.
  intros Hs. split; [|intros s; by apply get_states_endpoint].
  apply get_states_inv in Hs as (pairs & _ & _ & ->).
  apply NoDup_fold_add_states. constructor.
Qed.

Lemma X5_get_states_lists_each_endpoint_once_witness :
  FiniteStateMachine.__get_states__ (Tests.class_of Tests.LightBulb)
  = inr ["off"; "on"; "broken"] /\
  NoDup ["off"; "on"; "broken"] /\
  forall s, s ∈ ["off"; "on"; "broken"]
            <-> endpoint (Tests.class_of Tests.LightBulb) s.
Proof.
  assert (Hs : FiniteStateMachine.__get_states__
                 (Tests.class_of Tests.LightBulb)
               = inr ["off"; "on"; "broken"]) by computes.
  split; [exact Hs|].
  exact (X5_get_states_lists_each_endpoint_once
           (Tests.class_of Tests.LightBulb) ["off"; "on"; "broken"] Hs).
Defined.

Section ExtraTable.
Context {U : Type}.
Implicit Types (self : Subclass U) (tbl : LookupTable U).

(** The row of an origin, key by key. *)
Lemma table_lookup_row self tbl (o : string)
  (row : gmap string (TransitionDict U)) :
  FiniteStateMachine.__create_lookup_table__ self = inr tbl ->
  tbl !! o = Some row ->
  forall d,
    row !! d =
    if bool_decide ((o, d) ∈ declared self)
    then Some (mkTransitionDict (Some (state_dict self o))
                 (Some (state_dict self d)))
    else None.
Proof.
  intros Hb Ho d. rewrite <- (table_entry self tbl o d Hb).
  unfold entry. by rewrite Ho.
Qed.

Lemma table_lookup_is_Some self tbl (o : string) :
  FiniteStateMachine.__create_lookup_table__ self = inr tbl ->
  is_Some (tbl !! o) <-> exists d, (o, d) ∈ declared self.
Proof.
  intros Hb. split.
  - intros [row Ho].
    pose proof (table_rows_truthy self tbl Hb o row Ho) as Ht.
    unfold dict_truthy in Ht. apply negb_true_iff in Ht.
    apply bool_decide_eq_false in Ht.
    apply map_choose in Ht as (d & t & Hd).
    exists d. rewrite (table_lookup_row self tbl o row Hb Ho d) in Hd.
    destruct (bool_decide ((o, d) ∈ declared self)) eqn:Hin;
      [by apply bool_decide_eq_true in Hin|discriminate].
  - intros [d Hd].
    destruct (table_row self tbl o d Hb Hd) as (row & Ho & _).
    by exists row.
Qed.
End ExtraTable.

(** X6: the table that [__create_lookup_table__] returns has a row for a
    state exactly when a declared pair starts there, and the row of [o] has
    a key [d] exactly when [(o, d)] is declared; what it holds there are
    the dictionaries of the two states, with the callables bound to
    them. *)
Theorem X6_table_holds_the_declared_pairs {U : Type} (self : Subclass U)
  (tbl : LookupTable U) :
  FiniteStateMachine.__create_lookup_table__ self = inr tbl ->
  forall o,
    match tbl !! o with
    | Some row =>
        (exists d, (o, d) ∈ declared self) /\
        forall d,
          row !! d =
          if bool_decide ((o, d) ∈ declared self)
          then Some (mkTransitionDict (Some (state_dict self o))
                       (Some (state_dict self d)))
          else None
    | None => forall d, (o, d) ∉ declared self
    end.
Proof.
  intros Hb o. destruct (tbl !! o) as [row|] eqn:Ho.
  - split; [|by apply (table_lookup_row self tbl o row)].
    apply (table_lookup_is_Some self tbl o Hb). by exists row.
  - intros d Hd.
    assert (Hsome : is_Some (tbl !! o))
      by (apply (table_lookup_is_Some self tbl o Hb); by exists d).
    rewrite Ho in Hsome. by destruct Hsome.
Qed.

Lemma X6_table_holds_the_declared_pairs_witness :
  FiniteStateMachine.__create_lookup_table__ (Tests.class_of Tests.LightBulb)
  = inr (Tests.table_of Tests.LightBulb) /\
  forall o,
    match Tests.table_of Tests.LightBulb !! o with
    | Some row =>
        (exists d, (o, d) ∈ declared (Tests.class_of Tests.LightBulb)) /\
        forall d,
          row !! d =
          if bool_decide ((o, d) ∈ declared (Tests.class_of Tests.LightBulb))
          then Some (mkTransitionDict
                       (Some (state_dict (Tests.class_of Tests.LightBulb) o))
                       (Some (state_dict (Tests.class_of Tests.LightBulb) d)))
          else None
    | None => forall d, (o, d) ∉ declared (Tests.class_of Tests.LightBulb)
    end.
Proof.
  assert (Hb : FiniteStateMachine.__create_lookup_table__
                 (Tests.class_of Tests.LightBulb)
               = inr (Tests.table_of Tests.LightBulb)) by built.
  split; [exact Hb|].
  exact (X6_table_holds_the_declared_pairs (Tests.class_of Tests.LightBulb)
           (Tests.table_of Tests.LightBulb) Hb).
Defined.

(** * When the construction returns *)

Section ExtraConstruction.
Context {U : Type}.

Implicit Types (states : list string) (sm : gmap string (StateDict U)).
Implicit Types (actions guards : list (Function U)).
Implicit Types (self : Subclass U).

(** A place found taken, and a later callable for the same place. *)
Lemma find_binds_twice (binds : string -> Function U -> bool)
  (acc l : list (Function U)) (a b : Function U) (s : string) :
  List.find (binds s) acc = Some b -> binds s a = true ->
  binds_twice binds (acc ++ a :: l).
Proof.
  intros [Hin Hb]%find_some Ha.
  apply list_elem_of_In, list_elem_of_lookup in Hin as [i Hi].
  exists s, i, (length acc), b, a.
  pose proof (lookup_lt_Some _ _ _ Hi) as Hlt.
  split; [exact Hlt|]. split; [by rewrite lookup_app_l|].
  split; [by apply list_lookup_middle|]. by split.
Qed.

(** A round of the actions loop returns when the action can be read,
    names a derived state and takes no place that is taken. *)
Lemma attach_action_returns states acc l sm (a : Function U) (sn : string) :
  state_map_after states acc [] sm ->
  __fsm_action_state__ a = Some sn ->
  is_Some (__fsm_action_on_entry__ a) ->
  is_Some (__fsm_action_on_exit__ a) ->
  sn ∈ states ->
  ~ binds_twice binds_on_entry (acc ++ a :: l) ->
  ~ binds_twice binds_on_exit (acc ++ a :: l) ->
  exists sm', FiniteStateMachine.attach_action states sm a = inr sm'.
Proof.
  intros Hsm Hsn [oe Hoe] [ox Hox] Hin Hne Hnx.
  unfold FiniteStateMachine.attach_action, getattr.
  rewrite Hsn, Hoe, Hox; simpl.
  rewrite (bool_decide_eq_true_2 _ Hin); simpl.
  pose proof (Hsm sn) as Hlk.
  rewrite (bool_decide_eq_true_2 _ Hin) in Hlk. rewrite Hlk. simpl.
  pose proof (binds_on_entry_same sn oe a Hsn Hoe) as Hbe.
  pose proof (binds_on_exit_same sn ox a Hsn Hox) as Hbx.
  destruct (List.find (binds_on_entry sn) acc) as [fe|] eqn:Hfe, oe; simpl;
    try (exfalso; apply Hne; by eapply find_binds_twice);
    destruct (List.find (binds_on_exit sn) acc) as [fx|] eqn:Hfx, ox; simpl;
    try (exfalso; apply Hnx; by eapply find_binds_twice);
    by eexists.
Qed.

Lemma attach_actions_return states acc l sm :
  state_map_after states acc [] sm ->
  (forall a, a ∈ l ->
     (exists sn, __fsm_action_state__ a = Some sn /\ sn ∈ states) /\
     is_Some (__fsm_action_on_entry__ a) /\
     is_Some (__fsm_action_on_exit__ a)) ->
  ~ binds_twice binds_on_entry (acc ++ l) ->
  ~ binds_twice binds_on_exit (acc ++ l) ->
  exists sm', for_each (FiniteStateMachine.attach_action states) l sm
              = inr sm'.
Proof.
  revert acc sm. induction l as [|a l IH]; intros acc sm Hsm Hl Hne Hnx;
    [by eexists|].
  destruct (Hl a (list_elem_of_here _ _)) as ((sn & Hsn & Hin) & He & Hx).
  destruct (attach_action_returns states acc l sm a sn Hsm Hsn He Hx Hin
              Hne Hnx) as [sm1 H1].
  simpl. rewrite H1. simpl.
  apply (IH (acc ++ [a])%list).
  - by eapply attach_action_after.
  - intros b Hb. apply Hl. by apply list_elem_of_further.
  - by rewrite <- app_assoc.
  - by rewrite <- app_assoc.
Qed.

Lemma attach_guard_returns states actions acc l sm (g : Function U)
  (sn : string) :
  state_map_after states actions acc sm ->
  __fsm_guard_state__ g = Some sn ->
  sn ∈ states ->
  ~ binds_twice binds_guard (acc ++ g :: l) ->
  exists sm', FiniteStateMachine.attach_guard states sm g = inr sm'.
Proof.
  intros Hsm Hsn Hin Hng.
  unfold FiniteStateMachine.attach_guard, getattr.
  rewrite Hsn; simpl. rewrite (bool_decide_eq_true_2 _ Hin); simpl.
  pose proof (Hsm sn) as Hlk.
  rewrite (bool_decide_eq_true_2 _ Hin) in Hlk. rewrite Hlk. simpl.
  destruct (List.find (binds_guard sn) acc) as [fg|] eqn:Hfg;
    [|by eexists].
  exfalso. apply Hng. eapply find_binds_twice; [exact Hfg|].
  unfold binds_guard. by apply bool_decide_eq_true_2.
Qed.

Lemma attach_guards_return states actions acc l sm :
  state_map_after states actions acc sm ->
  (forall g, g ∈ l ->
     exists sn, __fsm_guard_state__ g = Some sn /\ sn ∈ states) ->
  ~ binds_twice binds_guard (acc ++ l) ->
  exists sm', for_each (FiniteStateMachine.attach_guard states) l sm
              = inr sm'.
Proof.
  revert acc sm. induction l as [|g l IH]; intros acc sm Hsm Hl Hng;
    [by eexists|].
  destruct (Hl g (list_elem_of_here _ _)) as (sn & Hsn & Hin).
  destruct (attach_guard_returns states actions acc l sm g sn Hsm Hsn Hin
              Hng) as [sm1 H1].
  simpl. rewrite H1. simpl.
  apply (IH (acc ++ [g])%list).
  - by eapply attach_guard_after.
  - intros b Hb. apply Hl. by apply list_elem_of_further.
  - by rewrite <- app_assoc.
Qed.

(** The checks are all there is: what passes them is constructed. *)
Lemma well_bound_returns self :
  Forall decorated (callables self) ->
  declared self <> [] -> well_bound self ->
  exists tbl, FiniteStateMachine.__create_lookup_table__ self = inr tbl.
Proof.
  intros Hdec Hne (Ha & Hg & Hbe & Hbx & Hbg).
  unfold FiniteStateMachine.__create_lookup_table__.
  destruct (FiniteStateMachine.__get_states__ self) as [e|states] eqn:Hs.
  { exfalso. unfold FiniteStateMachine.__get_states__ in Hs.
    unfold declared in Hne.
    destruct (transitions self) as [[|pair pairs]|]; simpl in Hne;
      by try discriminate. }
  simpl. unfold FiniteStateMachine.__create_state_map__.
  destruct (attach_actions_return states []
              (FiniteStateMachine.__get_actions__ self)
              (FiniteStateMachine.empty_state_map states))
    as [sm1 H1].
  - apply empty_state_map_after.
  - intros a Hin.
    split; [|by apply (actions_readable self a Hdec Hin)].
    destruct (Ha a Hin) as (sn & Hsn & Hend). exists sn.
    split; [exact Hsn|]. by apply (get_states_endpoint self states sn Hs).
  - exact Hbe.
  - exact Hbx.
  - rewrite H1. simpl.
    destruct (attach_guards_return states
                (FiniteStateMachine.__get_actions__ self) []
                (FiniteStateMachine.__get_guards__ self) sm1)
      as [sm2 H2].
    + apply (attach_actions_after states [] _ _ sm1
               (empty_state_map_after states) H1).
    + intros g Hin. destruct (Hg g Hin) as (sn & Hsn & Hend). exists sn.
      split; [exact Hsn|]. by apply (get_states_endpoint self states sn Hs).
    + exact Hbg.
    + rewrite H2. simpl.
      apply get_states_inv in Hs as (pairs & -> & _). by eexists.
Qed.

Lemma returns_well_bound self tbl :
  FiniteStateMachine.__create_lookup_table__ self = inr tbl ->
  declared self <> [] /\ well_bound self.
Proof.
  intros Hb. split.
  - destruct (create_lookup_table_inv self tbl Hb)
      as (states & sm & pairs & Hs & Hp & _).
    apply get_states_inv in Hs as (pairs' & Hp' & Hne & _).
    unfold declared. rewrite Hp'. exact Hne.
  - split; [|split; [|by apply (built_binds_once self tbl)]].
    + intros a (l1 & l2 & Hl)%list_elem_of_split.
      destruct (built_action self tbl l1 a l2 Hb Hl) as (sn & Hsn & He & _).
      by exists sn.
    + intros g (l1 & l2 & Hl)%list_elem_of_split.
      destruct (built_guard self tbl l1 g l2 Hb Hl) as (sn & Hsn & He & _).
      by exists sn.
Qed.

(** The binding found first is the only one. *)
Lemma find_the_binding (binds : string -> Function U -> bool)
  (l : list (Function U)) (a : Function U) (s : string) :
  ~ binds_twice binds l -> a ∈ l -> binds s a = true ->
  List.find (binds s) l = Some a.
Proof.
  intros Hn (l1 & l2 & ->)%list_elem_of_split Ha.
  destruct (List.find (binds s) l1) as [b|] eqn:Hf.
  - exfalso. apply Hn. by eapply find_binds_twice.
  - induction l1 as [|x l1 IH]; simpl in *; [by rewrite Ha|].
    destruct (binds s x); [discriminate|]. apply IH; [|exact Hf].
    intros (s' & i & j & x' & y' & Hij & Hi & Hj & Hx & Hy).
    apply Hn. exists s', (S i), (S j), x', y'.
    split; [lia|]. by repeat split.
Qed.
End ExtraConstruction.

(** X7: with callables that come from the decorators, the construction
    returns a table exactly when the list of transitions is not empty,
    every action and every guard names an endpoint of a declared pair, and
    no state has two on-entry actions, two on-exit actions or two guards:
    the builder has no other reason to raise. *)
Theorem X7_construction_returns_iff {U : Type} (self : Subclass U) :
  Forall decorated (callables self) ->
  (exists tbl, FiniteStateMachine.__create_lookup_table__ self = inr tbl) <->
  declared self <> [] /\ well_bound self.
Proof.
  intros Hdec. split.
  - intros [tbl Hb]. by apply (returns_well_bound self tbl).
  - intros [Hne Hwb]. by apply well_bound_returns.
Qed.

Lemma X7_construction_returns_iff_witness :
  Forall decorated (callables (Tests.class_of Tests.LightBulb)) /\
  ((exists tbl,
      FiniteStateMachine.__create_lookup_table__
        (Tests.class_of Tests.LightBulb) = inr tbl) <->
   declared (Tests.class_of Tests.LightBulb) <> [] /\
   well_bound (Tests.class_of Tests.LightBulb)).
Proof.
  assert (Hdec : Forall decorated (callables (Tests.class_of Tests.LightBulb)))
    by all_decorated.
  split; [exact Hdec|].
  exact (X7_construction_returns_iff (Tests.class_of Tests.LightBulb) Hdec).
Defined.

(** X8: the table does not depend on the order in which the transitions
    are listed, nor on a pair being listed more than once: a class with
    the same callables whose list holds the same pairs is constructed as
    well, with the same table. *)
Theorem X8_order_of_transitions_is_irrelevant {U : Type}
  (self self' : Subclass U) (tbl : LookupTable U) :
  Forall decorated (callables self) ->
  callables self' = callables self ->
  (forall pair, pair ∈ declared self' <-> pair ∈ declared self) ->
  FiniteStateMachine.__create_lookup_table__ self = inr tbl ->
  FiniteStateMachine.__create_lookup_table__ self' = inr tbl.
Proof.
  intros Hdec Hc Hp Hb.
  assert (Hactions : FiniteStateMachine.__get_actions__ self'
                     = FiniteStateMachine.__get_actions__ self).
  { unfold FiniteStateMachine.__get_actions__,
      FiniteStateMachine.__get_callables__. by rewrite Hc. }
  assert (Hguards : FiniteStateMachine.__get_guards__ self'
                    = FiniteStateMachine.__get_guards__ self).
  { unfold FiniteStateMachine.__get_guards__,
      FiniteStateMachine.__get_callables__. by rewrite Hc. }
  assert (Hend : forall s, endpoint self s -> endpoint self' s).
  { intros s (pair & Hin & Hs). exists pair. split; [by apply Hp|exact Hs]. }
  destruct (returns_well_bound self tbl Hb)
    as (Hne & Ha & Hg & Hbe & Hbx & Hbg).
  destruct (well_bound_returns self') as [tbl' Hb'].
  - by rewrite Hc.
  - intros Hnil. destruct (declared self) as [|pair pairs] eqn:Hd; [done|].
    assert (Hin : pair ∈ declared self') by (apply Hp; left).
    rewrite Hnil in Hin. by apply elem_of_nil in Hin.
  - unfold well_bound. rewrite Hactions, Hguards.
    split; [|split; [|by repeat split]].
    + intros a Hin. destruct (Ha a Hin) as (s & Hs & He). exists s.
      split; [exact Hs|by apply Hend].
    + intros g Hin. destruct (Hg g Hin) as (s & Hs & He). exists s.
      split; [exact Hs|by apply Hend].
  - rewrite Hb'. f_equal.
    assert (Hdict : forall s, state_dict self' s = state_dict self s).
    { intros s. unfold state_dict, entry_action, exit_action, guard_of.
      by rewrite Hactions, Hguards. }
    apply map_eq. intros o.
    destruct (tbl' !! o) as [row'|] eqn:Ho', (tbl !! o) as [row|] eqn:Ho.
    + f_equal. apply map_eq. intros d.
      rewrite (table_lookup_row self' tbl' o row' Hb' Ho' d).
      rewrite (table_lookup_row self tbl o row Hb Ho d).
      rewrite !Hdict. by rewrite (bool_decide_ext _ _ (Hp (o, d))).
    + exfalso.
      assert (Hsome : is_Some (tbl' !! o)) by (by exists row').
      apply (table_lookup_is_Some self' tbl' o Hb') in Hsome as [d Hd].
      assert (Hsome : is_Some (tbl !! o)).
      { apply (table_lookup_is_Some self tbl o Hb). exists d. by apply Hp. }
      rewrite Ho in Hsome. by destruct Hsome.
    + exfalso.
      assert (Hsome : is_Some (tbl !! o)) by (by exists row).
      apply (table_lookup_is_Some self tbl o Hb) in Hsome as [d Hd].
      assert (Hsome : is_Some (tbl' !! o)).
      { apply (table_lookup_is_Some self' tbl' o Hb'). exists d. by apply Hp. }
      rewrite Ho' in Hsome. by destruct Hsome.
    + reflexivity.
Qed.

Lemma X8_order_of_transitions_is_irrelevant_witness :
  Forall decorated (callables (Tests.class_of Tests.LightBulb)) /\
  callables
    (mkSubclass (PyStr "off") (Some Tests.shuffled_transitions)
       (callables (Tests.class_of Tests.LightBulb)))
  = callables (Tests.class_of Tests.LightBulb) /\
  (forall pair,
     pair ∈ declared
              (mkSubclass (PyStr "off") (Some Tests.shuffled_transitions)
                 (callables (Tests.class_of Tests.LightBulb)))
     <-> pair ∈ declared (Tests.class_of Tests.LightBulb)) /\
  FiniteStateMachine.__create_lookup_table__ (Tests.class_of Tests.LightBulb)
  = inr (Tests.table_of Tests.LightBulb) /\
  FiniteStateMachine.__create_lookup_table__
    (mkSubclass (PyStr "off") (Some Tests.shuffled_transitions)
       (callables (Tests.class_of Tests.LightBulb)))
  = inr (Tests.table_of Tests.LightBulb).
Proof.
  assert (Hdec : Forall decorated (callables (Tests.class_of Tests.LightBulb)))
    by all_decorated.
  assert (Hc : callables
                 (mkSubclass (PyStr "off") (Some Tests.shuffled_transitions)
                    (callables (Tests.class_of Tests.LightBulb)))
               = callables (Tests.class_of Tests.LightBulb))
    by reflexivity.
  assert (Hp : forall pair,
             pair ∈ declared
                      (mkSubclass (PyStr "off")
                         (Some Tests.shuffled_transitions)
                         (callables (Tests.class_of Tests.LightBulb)))
             <-> pair ∈ declared (Tests.class_of Tests.LightBulb)).
  { intros pair. rewrite !list_elem_of_In. vm_compute. tauto. }
  assert (Hb : FiniteStateMachine.__create_lookup_table__
                 (Tests.class_of Tests.LightBulb)
               = inr (Tests.table_of Tests.LightBulb)) by built.
  split; [exact Hdec|]. split; [exact Hc|]. split; [exact Hp|].
  split; [exact Hb|].
  exact (X8_order_of_transitions_is_irrelevant
           (Tests.class_of Tests.LightBulb)
           (mkSubclass (PyStr "off") (Some Tests.shuffled_transitions)
              (callables (Tests.class_of Tests.LightBulb)))
           (Tests.table_of Tests.LightBulb) Hdec Hc Hp Hb).
Defined.

(** X9: in a constructed machine no declared binding is dropped: for a
    declared pair [(o, d)] the table holds the dictionaries of the two
    states, and every action declared on-exit for [o], every action
    declared on-entry for [d] and every guard declared for [d] is the one
    kept there. *)
Theorem X9_declared_bindings_are_kept {U : Type} (self : Subclass U)
  (tbl : LookupTable U) (o d : string) :
  FiniteStateMachine.__create_lookup_table__ self = inr tbl ->
  (o, d) ∈ declared self ->
  exists b e,
    entry tbl o d = Some (mkTransitionDict (Some b) (Some e)) /\
    (forall a, a ∈ FiniteStateMachine.__get_actions__ self ->
       binds_on_exit o a = true -> on_exit b = Some a) /\
    (forall a, a ∈ FiniteStateMachine.__get_actions__ self ->
       binds_on_entry d a = true -> on_entry e = Some a) /\
    (forall g, g ∈ FiniteStateMachine.__get_guards__ self ->
       binds_guard d g = true -> guard e = Some g).
Proof.
  intros Hb Hd. exists (state_dict self o), (state_dict self d).
  destruct (built_binds_once self tbl Hb) as (Hbe & Hbx & Hbg).
  split.
  - rewrite (table_entry self tbl o d Hb).
    by rewrite (bool_decide_eq_true_2 _ Hd).
  - split; [|split]; intros a Hin Ha; simpl.
    + by apply find_the_binding.
    + by apply find_the_binding.
    + by apply find_the_binding.
Qed.

Lemma X9_declared_bindings_are_kept_witness :
  FiniteStateMachine.__create_lookup_table__
    (Tests.class_of Tests.RecordingLightBulb)
  = inr (Tests.table_of Tests.RecordingLightBulb) /\
  ("off", "on") ∈ declared (Tests.class_of Tests.RecordingLightBulb) /\
  exists b e,
    entry (Tests.table_of Tests.RecordingLightBulb) "off" "on"
    = Some (mkTransitionDict (Some b) (Some e)) /\
    (forall a,
       a ∈ FiniteStateMachine.__get_actions__
             (Tests.class_of Tests.RecordingLightBulb) ->
       binds_on_exit "off" a = true -> on_exit b = Some a) /\
    (forall a,
       a ∈ FiniteStateMachine.__get_actions__
             (Tests.class_of Tests.RecordingLightBulb) ->
       binds_on_entry "on" a = true -> on_entry e = Some a) /\
    (forall g,
       g ∈ FiniteStateMachine.__get_guards__
             (Tests.class_of Tests.RecordingLightBulb) ->
       binds_guard "on" g = true -> guard e = Some g).
Proof.
  assert (Hb : FiniteStateMachine.__create_lookup_table__
                 (Tests.class_of Tests.RecordingLightBulb)
               = inr (Tests.table_of Tests.RecordingLightBulb)) by built.
  assert (Hd : ("off", "on")
               ∈ declared (Tests.class_of Tests.RecordingLightBulb))
    by in_list.
  split; [exact Hb|]. split; [exact Hd|].
  exact (X9_declared_bindings_are_kept
           (Tests.class_of Tests.RecordingLightBulb)
           (Tests.table_of Tests.RecordingLightBulb) "off" "on" Hb Hd).
Defined.

(** X10: a callable that carries neither [__fsm_action__] nor
    [__fsm_guard__], such as a method without a decorator, is filtered
    away: the construction gives what it gives without it, the table or
    the exception. *)
Theorem X10_undecorated_callables_are_ignored {U : Type} (self : Subclass U)
  (l1 l2 : list (Function U)) (f : Function U) :
  callables self = (l1 ++ f :: l2)%list ->
  __fsm_action__ f = None -> __fsm_guard__ f = None ->
  FiniteStateMachine.__create_lookup_table__ self
  = FiniteStateMachine.__create_lookup_table__
      (mkSubclass (initial_state self) (transitions self) (l1 ++ l2)).
Proof.
  intros Hc Ha Hg.
  assert (Hfa : hasattr __fsm_action__ f = false)
    by (unfold hasattr; by rewrite Ha).
  assert (Hfg : hasattr __fsm_guard__ f = false)
    by (unfold hasattr; by rewrite Hg).
  unfold FiniteStateMachine.__create_lookup_table__,
    FiniteStateMachine.__get_states__, FiniteStateMachine.__get_actions__,
    FiniteStateMachine.__get_guards__, FiniteStateMachine.__get_callables__.
  cbn [callables transitions]. rewrite Hc, !List.filter_app.
  cbn [List.filter]. by rewrite Hfa, Hfg.
Qed.

Lemma X10_undecorated_callables_are_ignored_witness :
  FiniteStateMachine.__create_lookup_table__
    (mkSubclass (PyStr "off") (Some Tests.abstract_transitions)
       (callables (Tests.class_of Tests.LightBulb) ++
        def "on_message" Tests.pass :: []))
  = FiniteStateMachine.__create_lookup_table__
      (mkSubclass (PyStr "off") (Some Tests.abstract_transitions)
         (callables (Tests.class_of Tests.LightBulb) ++ [])).
Proof.
  exact (X10_undecorated_callables_are_ignored
           (mkSubclass (PyStr "off") (Some Tests.abstract_transitions)
              (callables (Tests.class_of Tests.LightBulb) ++
               def "on_message" Tests.pass :: []))
           (callables (Tests.class_of Tests.LightBulb)) []
           (def "on_message" Tests.pass) eq_refl eq_refl eq_refl).
Defined.

(** * Further properties of [transition] *)

(** One case analysis after the other, innermost test first. *)
Ltac innermost_case :=
  match goal with
  | |- context [match ?x with _ => _ end] =>
      lazymatch x with
      | context [match _ with _ => _ end] => fail
      | _ => destruct x
      end
  end.

Section ExtraTransition.
Context {U : Type}.
Implicit Types (self : Subclass U) (tbl : LookupTable U) (m : Instance U).

(** What every call leaves alone, whatever the table holds. *)
Lemma transition_frame m (to ev args : PyVal) :
  __fsm_transition_table__ (FiniteStateMachine.transition to ev args m).1.2
  = __fsm_transition_table__ m /\
  (returned (FiniteStateMachine.transition to ev args m).1.1 = false ->
   __state__ (FiniteStateMachine.transition to ev args m).1.2
   = __state__ m) /\
  length (FiniteStateMachine.transition to ev args m).2 <= 3 /\
  Forall (fun c => state_then c = __state__ m)
    (FiniteStateMachine.transition to ev args m).2.
Proof.
  destruct m as [tbl current u].
  unfold FiniteStateMachine.transition, bind, read, raise, ret, write_state,
    call, Return, Raise.
  cbn [__fsm_transition_table__ __state__ __dict__].
  repeat (innermost_case; cbn [__fsm_transition_table__ __state__ __dict__]);
    simpl; (split; [reflexivity|]);
    (split; [try reflexivity; discriminate|]);
    (split; [lia|]); repeat constructor.
Qed.

(** A call that returns went along a declared pair. *)
Lemma transition_inr_declared self tbl (current to ev args v : PyVal)
  (u : U) m (calls : list (Call U)) :
  FiniteStateMachine.__create_lookup_table__ self = inr tbl ->
  FiniteStateMachine.transition to ev args (mkInstance tbl current u)
  = (inr v, m, calls) ->
  exists o d,
    current = PyStr o /\ to = PyStr d /\ (o, d) ∈ declared self.
Proof.
  intros Hb Hrun.
  destruct (dict_get tbl current) as [row|] eqn:Hrow.
  2: { rewrite (transition_invalid_state tbl current to ev args u Hrow)
         in Hrun. discriminate. }
  destruct current as [| | |o]; try discriminate. simpl in Hrow.
  pose proof (table_rows_truthy self tbl Hb o row Hrow) as Htruthy.
  destruct (dict_get row to) as [t|] eqn:Ht.
  2: { rewrite (transition_invalid_transition tbl (PyStr o) to ev args u row
                  Hrow Htruthy Ht) in Hrun. discriminate. }
  destruct to as [| | |d]; try discriminate. simpl in Ht.
  exists o, d. split; [reflexivity|]. split; [reflexivity|].
  rewrite (table_lookup_row self tbl o row Hb Hrow d) in Ht.
  destruct (bool_decide ((o, d) ∈ declared self)) eqn:Hd; [|discriminate].
  by apply bool_decide_eq_true in Hd.
Qed.

(** The guard step returns only for a guard that returned [True]. *)
Lemma guarded_inr (g : option (Function U)) (current to args : PyVal) m
  (m1 : Instance U) (calls : list (Call U)) :
  guarded g current to args m = (inr tt, m1, calls) ->
  returns g [args] (__dict__ m) (fun v => v = PyBool true).
Proof.
  destruct g as [guard_|]; [|done]. unfold guarded, bind, call, raise, ret.
  simpl.
  destruct (__code__ guard_ [args] (__dict__ m)) as [[e|v] u']; simpl;
    [discriminate|].
  destruct v as [|[|]|z|s]; simpl; try discriminate.
  intros _. by exists (PyBool true).
Qed.

(** An optional action that raises. *)
Lemma action_raises (a : Function U) (args : list PyVal) m (e : PyExc) :
  (__code__ a args (__dict__ m)).1 = inl e ->
  call a args m =
  (inl e,
   mkInstance (__fsm_transition_table__ m) (__state__ m)
     (__code__ a args (__dict__ m)).2,
   [mkCall a args (__state__ m)]).
Proof.
  unfold call. destruct (__code__ a args (__dict__ m)) as [r u']. simpl.
  by intros ->.
Qed.
End ExtraTransition.

(** X11: whatever the instance holds and whatever is asked, with user
    callables that act on the user's attributes only (they neither assign
    the engine's attributes nor call [transition] themselves), a call of
    [transition] leaves the table as it is, makes at most three calls of
    user callables, each of them while [state()] is still the state before
    the call, and when it raises, be it the engine's error or an exception
    of a callable, the state is the state before the call; when it returns,
    it returns [None] and the state is [to]. *)
Theorem X11_transition_assigns_the_state_last {U : Type} (m : Instance U)
  (to ev args : PyVal) :
  __fsm_transition_table__ (FiniteStateMachine.transition to ev args m).1.2
  = __fsm_transition_table__ m /\
  match (FiniteStateMachine.transition to ev args m).1.1 with
  | inr v =>
      v = PyNone /\
      __state__ (FiniteStateMachine.transition to ev args m).1.2 = to
  | inl _ =>
      __state__ (FiniteStateMachine.transition to ev args m).1.2 = __state__ m
  end /\
  length (FiniteStateMachine.transition to ev args m).2 <= 3 /\
  Forall (fun c => state_then c = __state__ m)
    (FiniteStateMachine.transition to ev args m).2.
Proof.
  destruct (transition_frame m to ev args) as (Htbl & Hstate & Hlen & Hcalls).
  split; [exact Htbl|]. split; [|by split].
  destruct (FiniteStateMachine.transition to ev args m) as [[[e|v] m'] calls]
    eqn:Hrun; simpl in *; [by apply Hstate|].
  by destruct (transition_inr m m' to ev args v calls Hrun) as (-> & -> & _).
Qed.

(** X12: on a constructed machine a call of [transition] returns only
    along a declared pair whose destination has no guard or a guard that
    returned [True]: the state before is a string [o], [to] is a string
    [d], and [(o, d)] is among the declared transitions. *)
Theorem X12_transition_returns_only_along_declared_pairs {U : Type}
  (self : Subclass U) (tbl : LookupTable U) (current to ev args v : PyVal)
  (u : U) (m : Instance U) (calls : list (Call U)) :
  FiniteStateMachine.__create_lookup_table__ self = inr tbl ->
  FiniteStateMachine.transition to ev args (mkInstance tbl current u)
  = (inr v, m, calls) ->
  exists o d,
    current = PyStr o /\ to = PyStr d /\ (o, d) ∈ declared self /\
    returns (guard_of self d) [args] u (fun r => r = PyBool true).
Proof.
  intros Hb Hrun.
  destruct (transition_inr_declared self tbl current to ev args v u m calls
              Hb Hrun) as (o & d & -> & -> & Hd).
  exists o, d. split; [reflexivity|]. split; [reflexivity|].
  split; [exact Hd|].
  rewrite (transition_declared self tbl o d ev args u Hb Hd) in Hrun.
  apply bind_inr in Hrun as ([] & m1 & calls1 & calls2 & Hguard & _).
  exact (guarded_inr _ _ _ _ _ _ _ Hguard).
Qed.

Lemma X12_transition_returns_only_along_declared_pairs_witness :
  FiniteStateMachine.__create_lookup_table__ (Tests.class_of Tests.LightBulb)
  = inr (Tests.table_of Tests.LightBulb) /\
  (FiniteStateMachine.transition (PyStr "on") (PyStr "turn on") PyNone
     (Tests.bulb Tests.LightBulb "off" Tests.powered)).1.1 = inr PyNone /\
  exists o d,
    PyStr "off" = PyStr o /\ PyStr "on" = PyStr d /\
    (o, d) ∈ declared (Tests.class_of Tests.LightBulb) /\
    returns (guard_of (Tests.class_of Tests.LightBulb) d) [PyNone]
      Tests.powered (fun r => r = PyBool true).
Proof.
  assert (Hb : FiniteStateMachine.__create_lookup_table__
                 (Tests.class_of Tests.LightBulb)
               = inr (Tests.table_of Tests.LightBulb)) by built.
  assert (Hrun : (FiniteStateMachine.transition (PyStr "on") (PyStr "turn on")
                    PyNone (Tests.bulb Tests.LightBulb "off" Tests.powered)).1.1
                 = inr PyNone) by computes.
  split; [exact Hb|]. split; [exact Hrun|].
  exact (X12_transition_returns_only_along_declared_pairs
           (Tests.class_of Tests.LightBulb) (Tests.table_of Tests.LightBulb)
           (PyStr "off") (PyStr "on") (PyStr "turn on") PyNone PyNone
           Tests.powered _ _ Hb (run_returned _ _ Hrun)).
Defined.

(** * Callables that raise *)

(** X13: an exception raised by the guard of the destination leaves
    [transition] as it is: no action is called, the state is not assigned,
    and what the guard did to the attributes before it raised stays. *)
Theorem X13_guard_exception_propagates {U : Type} (self : Subclass U)
  (tbl : LookupTable U) (o d : string) (ev args : PyVal) (u : U)
  (guard_ : Function U) (e : PyExc) :
  FiniteStateMachine.__create_lookup_table__ self = inr tbl ->
  (o, d) ∈ declared self ->
  guard_of self d = Some guard_ ->
  (__code__ guard_ [args] u).1 = inl e ->
  FiniteStateMachine.transition (PyStr d) ev args (mkInstance tbl (PyStr o) u)
  = (inl e, mkInstance tbl (PyStr o) (__code__ guard_ [args] u).2,
     [mkCall guard_ [args] (PyStr o)]).
Proof.
  intros Hb Hd Hg He.
  rewrite (transition_declared self tbl o d ev args u Hb Hd), Hg.
  apply bind_raises. unfold guarded. apply bind_raises.
  exact (action_raises guard_ [args] (mkInstance tbl (PyStr o) u) e He).
Qed.

Lemma X13_guard_exception_propagates_witness :
  FiniteStateMachine.__create_lookup_table__
    (Tests.class_of Tests.FaultyLightBulb)
  = inr (Tests.table_of Tests.FaultyLightBulb) /\
  ("off", "broken") ∈ declared (Tests.class_of Tests.FaultyLightBulb) /\
  guard_of (Tests.class_of Tests.FaultyLightBulb) "broken"
  = Some (Tests.the
            (guard_of (Tests.class_of Tests.FaultyLightBulb) "broken")) /\
  (__code__
     (Tests.the (guard_of (Tests.class_of Tests.FaultyLightBulb) "broken"))
     [PyNone] Tests.powered).1
  = inl (UserError "RuntimeError" "short circuit") /\
  FiniteStateMachine.transition (PyStr "broken") (PyStr "break") PyNone
    (Tests.bulb Tests.FaultyLightBulb "off" Tests.powered)
  = (inl (UserError "RuntimeError" "short circuit"),
     Tests.bulb Tests.FaultyLightBulb "off"
       (__code__
          (Tests.the
             (guard_of (Tests.class_of Tests.FaultyLightBulb) "broken"))
          [PyNone] Tests.powered).2,
     [mkCall
        (Tests.the (guard_of (Tests.class_of Tests.FaultyLightBulb) "broken"))
        [PyNone] (PyStr "off")]).
Proof.
  assert (Hb : FiniteStateMachine.__create_lookup_table__
                 (Tests.class_of Tests.FaultyLightBulb)
               = inr (Tests.table_of Tests.FaultyLightBulb)) by built.
  assert (Hd : ("off", "broken")
               ∈ declared (Tests.class_of Tests.FaultyLightBulb)) by in_list.
  assert (Hg : guard_of (Tests.class_of Tests.FaultyLightBulb) "broken"
               = Some (Tests.the
                         (guard_of (Tests.class_of Tests.FaultyLightBulb)
                            "broken"))) by bound.
  assert (He : (__code__
                  (Tests.the
                     (guard_of (Tests.class_of Tests.FaultyLightBulb)
                        "broken"))
                  [PyNone] Tests.powered).1
               = inl (UserError "RuntimeError" "short circuit")) by computes.
  split; [exact Hb|]. split; [exact Hd|]. split; [exact Hg|].
  split; [exact He|].
  exact (X13_guard_exception_propagates (Tests.class_of Tests.FaultyLightBulb)
           (Tests.table_of Tests.FaultyLightBulb) "off" "broken"
           (PyStr "break") PyNone Tests.powered _ _ Hb Hd Hg He).
Defined.

(** X14: when the guard lets the transition pass and the on-exit action of
    the origin raises, the exception leaves [transition]: the on-entry
    action of the destination is not called and the state is not assigned;
    the attributes are as the guard and the on-exit action left them. *)
Theorem X14_on_exit_exception_propagates {U : Type} (self : Subclass U)
  (tbl : LookupTable U) (o d : string) (ev args : PyVal) (u : U)
  (action : Function U) (e : PyExc) :
  FiniteStateMachine.__create_lookup_table__ self = inr tbl ->
  (o, d) ∈ declared self ->
  returns (guard_of self d) [args] u (fun v => v = PyBool true) ->
  exit_action self o = Some action ->
  (__code__ action [ev; args] (after (guard_of self d) [args] u)).1 = inl e ->
  FiniteStateMachine.transition (PyStr d) ev args (mkInstance tbl (PyStr o) u)
  = (inl e,
     mkInstance tbl (PyStr o)
       (__code__ action [ev; args] (after (guard_of self d) [args] u)).2,
     (calls_of (guard_of self d) [args] (PyStr o) ++
      [mkCall action [ev; args] (PyStr o)])%list).
Proof.
  intros Hb Hd Hg Hx He.
  rewrite (transition_declared self tbl o d ev args u Hb Hd), Hx.
  erewrite bind_returns;
    [|exact (guarded_passes (guard_of self d) (PyStr o) (PyStr d) args
               (mkInstance tbl (PyStr o) u) Hg)].
  cbn [__fsm_transition_table__ __state__ __dict__].
  erewrite bind_raises; [reflexivity|].
  exact (action_raises action [ev; args]
           (mkInstance tbl (PyStr o) (after (guard_of self d) [args] u)) e He).
Qed.

Lemma X14_on_exit_exception_propagates_witness :
  FiniteStateMachine.__create_lookup_table__
    (Tests.class_of Tests.FaultyLightBulb)
  = inr (Tests.table_of Tests.FaultyLightBulb) /\
  ("on", "off") ∈ declared (Tests.class_of Tests.FaultyLightBulb) /\
  exit_action (Tests.class_of Tests.FaultyLightBulb) "on"
  = Some (Tests.the
            (exit_action (Tests.class_of Tests.FaultyLightBulb) "on")) /\
  Tests.names
    (FiniteStateMachine.transition (PyStr "off") (PyStr "turn off") PyNone
       (Tests.bulb Tests.FaultyLightBulb "on" Tests.powered)).2
  = [("leave_on", [PyStr "turn off"; PyNone], PyStr "on")] /\
  FiniteStateMachine.transition (PyStr "off") (PyStr "turn off") PyNone
    (Tests.bulb Tests.FaultyLightBulb "on" Tests.powered)
  = (inl (UserError "RuntimeError" "short circuit"),
     Tests.bulb Tests.FaultyLightBulb "on"
       (__code__
          (Tests.the
             (exit_action (Tests.class_of Tests.FaultyLightBulb) "on"))
          [PyStr "turn off"; PyNone]
          (after (guard_of (Tests.class_of Tests.FaultyLightBulb) "off")
             [PyNone] Tests.powered)).2,
     (calls_of (guard_of (Tests.class_of Tests.FaultyLightBulb) "off")
        [PyNone] (PyStr "on") ++
      [mkCall
         (Tests.the (exit_action (Tests.class_of Tests.FaultyLightBulb) "on"))
         [PyStr "turn off"; PyNone] (PyStr "on")])%list).
Proof.
  assert (Hb : FiniteStateMachine.__create_lookup_table__
                 (Tests.class_of Tests.FaultyLightBulb)
               = inr (Tests.table_of Tests.FaultyLightBulb)) by built.
  assert (Hd : ("on", "off")
               ∈ declared (Tests.class_of Tests.FaultyLightBulb)) by in_list.
  assert (Hg : returns (guard_of (Tests.class_of Tests.FaultyLightBulb) "off")
                 [PyNone] Tests.powered (fun v => v = PyBool true))
    by (vm_compute; exact I).
  assert (Hx : exit_action (Tests.class_of Tests.FaultyLightBulb) "on"
               = Some (Tests.the
                         (exit_action (Tests.class_of Tests.FaultyLightBulb)
                            "on"))) by bound.
  assert (He : (__code__
                  (Tests.the
                     (exit_action (Tests.class_of Tests.FaultyLightBulb)
                        "on"))
                  [PyStr "turn off"; PyNone]
                  (after (guard_of (Tests.class_of Tests.FaultyLightBulb)
                            "off") [PyNone] Tests.powered)).1
               = inl (UserError "RuntimeError" "short circuit")) by computes.
  split; [exact Hb|]. split; [exact Hd|]. split; [exact Hx|].
  split; [computes|].
  exact (X14_on_exit_exception_propagates
           (Tests.class_of Tests.FaultyLightBulb)
           (Tests.table_of Tests.FaultyLightBulb) "on" "off"
           (PyStr "turn off") PyNone Tests.powered _ _ Hb Hd Hg Hx He).
Defined.

(** X15: when the guard lets the transition pass, the on-exit action of
    the origin returns and the on-entry action of the destination raises,
    the exception leaves [transition] and the state is not assigned: the
    machine stays in the origin although its on-exit action has run, and
    the attributes are as the three callables left them. *)
Theorem X15_on_entry_exception_propagates {U : Type} (self : Subclass U)
  (tbl : LookupTable U) (o d : string) (ev args : PyVal) (u : U)
  (action : Function U) (e : PyExc) :
  FiniteStateMachine.__create_lookup_table__ self = inr tbl ->
  (o, d) ∈ declared self ->
  let g := guard_of self d in
  let x := exit_action self o in
  let u1 := after g [args] u in
  let u2 := after x [ev; args] u1 in
  returns g [args] u (fun v => v = PyBool true) ->
  returns x [ev; args] u1 (fun _ => True) ->
  entry_action self d = Some action ->
  (__code__ action [ev; args] u2).1 = inl e ->
  FiniteStateMachine.transition (PyStr d) ev args (mkInstance tbl (PyStr o) u)
  = (inl e,
     mkInstance tbl (PyStr o) (__code__ action [ev; args] u2).2,
     (calls_of g [args] (PyStr o) ++ calls_of x [ev; args] (PyStr o) ++
      [mkCall action [ev; args] (PyStr o)])%list).
Proof.
  intros Hb Hd g x u1 u2 Hg Hx Hn He.
  rewrite (transition_declared self tbl o d ev args u Hb Hd), Hn.
  erewrite bind_returns;
    [|exact (guarded_passes g (PyStr o) (PyStr d) args
               (mkInstance tbl (PyStr o) u) Hg)].
  cbn [__fsm_transition_table__ __state__ __dict__].
  destruct (action_returns x [ev; args] (mkInstance tbl (PyStr o) u1) Hx)
    as [v Hv].
  fold x. erewrite bind_returns; [|exact Hv].
  cbn [__fsm_transition_table__ __state__ __dict__].
  erewrite bind_raises; [reflexivity|].
  exact (action_raises action [ev; args] (mkInstance tbl (PyStr o) u2) e He).
Qed.

Lemma X15_on_entry_exception_propagates_witness :
  FiniteStateMachine.__create_lookup_table__
    (Tests.class_of Tests.FaultyLightBulb)
  = inr (Tests.table_of Tests.FaultyLightBulb) /\
  ("off", "on") ∈ declared (Tests.class_of Tests.FaultyLightBulb) /\
  entry_action (Tests.class_of Tests.FaultyLightBulb) "on"
  = Some (Tests.the
            (entry_action (Tests.class_of Tests.FaultyLightBulb) "on")) /\
  Tests.names
    (FiniteStateMachine.transition (PyStr "on") (PyStr "turn on") PyNone
       (Tests.bulb Tests.FaultyLightBulb "off" Tests.powered)).2
  = [("check_electricity", [PyNone], PyStr "off");
     ("leave_off", [PyStr "turn on"; PyNone], PyStr "off");
     ("turn_on", [PyStr "turn on"; PyNone], PyStr "off")] /\
  FiniteStateMachine.transition (PyStr "on") (PyStr "turn on") PyNone
    (Tests.bulb Tests.FaultyLightBulb "off" Tests.powered)
  = (inl (UserError "RuntimeError" "short circuit"),
     Tests.bulb Tests.FaultyLightBulb "off"
       (__code__
          (Tests.the
             (entry_action (Tests.class_of Tests.FaultyLightBulb) "on"))
          [PyStr "turn on"; PyNone]
          (after (exit_action (Tests.class_of Tests.FaultyLightBulb) "off")
             [PyStr "turn on"; PyNone]
             (after (guard_of (Tests.class_of Tests.FaultyLightBulb) "on")
                [PyNone] Tests.powered))).2,
     (calls_of (guard_of (Tests.class_of Tests.FaultyLightBulb) "on")
        [PyNone] (PyStr "off") ++
      calls_of (exit_action (Tests.class_of Tests.FaultyLightBulb) "off")
        [PyStr "turn on"; PyNone] (PyStr "off") ++
      [mkCall
         (Tests.the
            (entry_action (Tests.class_of Tests.FaultyLightBulb) "on"))
         [PyStr "turn on"; PyNone] (PyStr "off")])%list).
Proof.
  assert (Hb : FiniteStateMachine.__create_lookup_table__
                 (Tests.class_of Tests.FaultyLightBulb)
               = inr (Tests.table_of Tests.FaultyLightBulb)) by built.
  assert (Hd : ("off", "on")
               ∈ declared (Tests.class_of Tests.FaultyLightBulb)) by in_list.
  assert (Hg : returns (guard_of (Tests.class_of Tests.FaultyLightBulb) "on")
                 [PyNone] Tests.powered (fun v => v = PyBool true))
    by (vm_compute; eexists; split; reflexivity).
  assert (Hx : returns
                 (exit_action (Tests.class_of Tests.FaultyLightBulb) "off")
                 [PyStr "turn on"; PyNone]
                 (after (guard_of (Tests.class_of Tests.FaultyLightBulb) "on")
                    [PyNone] Tests.powered) (fun _ => True))
    by (vm_compute; eexists; split; [reflexivity|exact I]).
  assert (Hn : entry_action (Tests.class_of Tests.FaultyLightBulb) "on"
               = Some (Tests.the
                         (entry_action (Tests.class_of Tests.FaultyLightBulb)
                            "on"))) by bound.
  assert (He : (__code__
                  (Tests.the
                     (entry_action (Tests.class_of Tests.FaultyLightBulb)
                        "on"))
                  [PyStr "turn on"; PyNone]
                  (after
                     (exit_action (Tests.class_of Tests.FaultyLightBulb)
                        "off")
                     [PyStr "turn on"; PyNone]
                     (after
                        (guard_of (Tests.class_of Tests.FaultyLightBulb) "on")
                        [PyNone] Tests.powered))).1
               = inl (UserError "RuntimeError" "short circuit")) by computes.
  split; [exact Hb|]. split; [exact Hd|]. split; [exact Hn|].
  split; [computes|].
  exact (X15_on_entry_exception_propagates
           (Tests.class_of Tests.FaultyLightBulb)
           (Tests.table_of Tests.FaultyLightBulb) "off" "on"
           (PyStr "turn on") PyNone Tests.powered _ _ Hb Hd Hg Hx Hn He).
Defined.

(** * The states a machine goes through *)

(** X16: whatever a program does with a constructed machine, calling
    [transition] with any arguments, catching what it raises and assigning
    attributes of its own in between, the table stays the one the
    construction built, and the state is the initial state or a state
    reached from it along declared pairs. *)
Theorem X16_state_stays_reachable {U : Type} (self : Subclass U)
  (m : Instance U) :
  reached self m ->
  FiniteStateMachine.__create_lookup_table__ self
  = inr (__fsm_transition_table__ m) /\
  reachable self (__state__ m).
Proof.
  induction 1 as [u m Hinit|m to ev args Hm [IHt IHs]|m u Hm IH].
  - apply init_inr in Hinit as (Hb & Hs & _). split; [exact Hb|]. by left.
  - destruct (transition_frame m to ev args) as (Htbl & Hkeep & _).
    split; [by rewrite Htbl|].
    destruct (FiniteStateMachine.transition to ev args m)
      as [[[e|v] m'] calls] eqn:Hrun; simpl in *.
    { by rewrite Hkeep. }
    destruct m as [tbl current u]. simpl in *.
    destruct (transition_inr_declared self tbl current to ev args v u m' calls
                IHt Hrun) as (o & d & -> & -> & Hd).
    destruct (transition_inr _ _ _ _ _ _ _ Hrun) as (_ & -> & _).
    right. destruct IHs as [Hi|(o0 & d0 & Hi & [= <-] & Hpath)].
    + exists o, d. split; [done|]. split; [done|]. by apply rtc_once.
    + exists o0, d. split; [done|]. split; [done|]. by eapply rtc_r.
  - exact IH.
Qed.

Lemma X16_state_stays_reachable_witness :
  reached (Tests.class_of Tests.LightBulb)
    (FiniteStateMachine.transition (PyStr "broken") (PyStr "break") PyNone
       (FiniteStateMachine.transition (PyStr "on") (PyStr "turn on") PyNone
          (Tests.bulb Tests.LightBulb "off" Tests.powered)).1.2).1.2 /\
  __state__
    (FiniteStateMachine.transition (PyStr "broken") (PyStr "break") PyNone
       (FiniteStateMachine.transition (PyStr "on") (PyStr "turn on") PyNone
          (Tests.bulb Tests.LightBulb "off" Tests.powered)).1.2).1.2
  = PyStr "broken" /\
  reachable (Tests.class_of Tests.LightBulb)
    (__state__
       (FiniteStateMachine.transition (PyStr "broken") (PyStr "break") PyNone
          (FiniteStateMachine.transition (PyStr "on") (PyStr "turn on") PyNone
             (Tests.bulb Tests.LightBulb "off" Tests.powered)).1.2).1.2).
Proof.
  assert (Hb : FiniteStateMachine.__create_lookup_table__
                 (Tests.class_of Tests.LightBulb)
               = inr (Tests.table_of Tests.LightBulb)) by built.
  assert (Hinit : FiniteStateMachine.__init__ (Tests.class_of Tests.LightBulb)
                    Tests.powered
                  = inr (Tests.bulb Tests.LightBulb "off" Tests.powered)).
  { unfold FiniteStateMachine.__init__. rewrite Hb. reflexivity. }
  assert (Hm : reached (Tests.class_of Tests.LightBulb)
                 (FiniteStateMachine.transition (PyStr "broken")
                    (PyStr "break") PyNone
                    (FiniteStateMachine.transition (PyStr "on")
                       (PyStr "turn on") PyNone
                       (Tests.bulb Tests.LightBulb "off"
                          Tests.powered)).1.2).1.2).
  { do 2 apply reached_transition.
    exact (reached_init _ _ _ Hinit). }
  split; [exact Hm|]. split; [computes|].
  exact (proj2 (X16_state_stays_reachable (Tests.class_of Tests.LightBulb)
                  _ Hm)).
Defined.

(** * The light bulb's [on_message] *)

Lemma eq_str_true (v : PyVal) (text : string) :
  eq_str v text = true <-> v = PyStr text.
Proof.
  destruct v as [| | |s]; simpl; try (split; discriminate).
  rewrite bool_decide_eq_true. split; [by intros ->|by intros [= ->]].
Qed.

Lemma transition_with_triggering_event (to message args : PyVal)
  (m : Instance Tests.Attrs) :
  Tests.transition_with
    [("to", to); ("triggering_event", message);
     ("transition_arguments", args)] m
  = (inl (TypeError (msg_unexpected_keyword "FiniteStateMachine.transition"
                       "triggering_event")),
     m, []).
Proof. reflexivity. Qed.

(** X17: [LightBulb.on_message] never changes the state of the light
    bulb.  For each of the three messages it knows, it calls [transition]
    with the keywords [triggering_event] and [transition_arguments], which
    are not parameters of [transition]: the call raises [TypeError] before
    the body of [transition] runs, so that no guard and no action is
    called and the instance is as it was.  For any other message it
    returns [None] and does nothing. *)
Theorem X17_on_message_never_transitions (m : Instance Tests.Attrs)
  (message args : PyVal) :
  (message ∈ [PyStr "turn on"; PyStr "turn off"; PyStr "break"] ->
   exists text, Tests.on_message message args m = (inl (TypeError text), m, []))
  /\
  (message ∉ [PyStr "turn on"; PyStr "turn off"; PyStr "break"] ->
   Tests.on_message message args m = (inr PyNone, m, [])).
Proof.
  unfold Tests.on_message. split.
  - intros Hin.
    exists (msg_unexpected_keyword "FiniteStateMachine.transition"
              "triggering_event").
    destruct (eq_str message "turn on") eqn:H1;
      [by erewrite bind_raises by apply transition_with_triggering_event|].
    destruct (eq_str message "turn off") eqn:H2;
      [by erewrite bind_raises by apply transition_with_triggering_event|].
    destruct (eq_str message "break") eqn:H3;
      [by erewrite bind_raises by apply transition_with_triggering_event|].
    exfalso. rewrite !elem_of_cons in Hin.
    destruct Hin as [Hin|[Hin|[Hin|Hin]]];
      [apply eq_str_true in Hin; congruence ..|by apply elem_of_nil in Hin].
  - intros Hnot.
    destruct (eq_str message "turn on") eqn:H1.
    { exfalso. apply Hnot. apply eq_str_true in H1 as ->. left. }
    destruct (eq_str message "turn off") eqn:H2.
    { exfalso. apply Hnot. apply eq_str_true in H2 as ->. right; left. }
    destruct (eq_str message "break") eqn:H3.
    { exfalso. apply Hnot. apply eq_str_true in H3 as ->.
      right; right; left. }
    reflexivity.
Qed.

Lemma X17_on_message_never_transitions_witness :
  PyStr "turn on" ∈ [PyStr "turn on"; PyStr "turn off"; PyStr "break"] /\
  exists text,
    Tests.on_message (PyStr "turn on") PyNone
      (Tests.bulb Tests.LightBulb "off" Tests.powered)
    = (inl (TypeError text),
       Tests.bulb Tests.LightBulb "off" Tests.powered, []).
Proof.
  assert (Hin : PyStr "turn on"
                ∈ [PyStr "turn on"; PyStr "turn off"; PyStr "break"])
    by left.
  split; [exact Hin|].
  exact (proj1 (X17_on_message_never_transitions
                  (Tests.bulb Tests.LightBulb "off" Tests.powered)
                  (PyStr "turn on") PyNone) Hin).
Defined.
